(** * solid-tradingview-widgets: the widget mounting lifecycle and the
      configuration mappers

    A shallow embedding of the SolidJS components of
    [@dschz/solid-tradingview-widgets].  Every component merges the caller's
    props with a table of defaults, and runs one reactive effect that creates
    a widget root, sizes it, serialises a configuration object with
    [JSON.stringify] and has a vendor script loaded into the root; a cleanup
    registered by the effect removes the root again.

    Conventions of the embedding:
    - an optional prop is an [option]; [None] is an absent or [undefined] prop;
    - a JavaScript number is a [Number]: an integer, a fraction, [NaN] or an
      infinity; the components never compute with numbers, they only pass
      them on or print them.  A size is any [Number]; the other numeric
      props ([lineWidth], [fontSize], ...) are integers ([Z]);
    - an object literal is a finite map from property names to values; the
      order of the properties is not kept;
    - the text produced by [JSON.stringify] is represented by the document it
      denotes (the map of the properties that are written out). *)

From Stdlib Require Import ZArith Ascii.
From stdpp Require Import base option strings list gmap pretty.

Set Warnings "-register-all".

(* ================================================================== *)
(** * JavaScript values and the library functions the components call *)
(* ================================================================== *)

Module Js.

(** A number.  [Int n] is the number whose value is the integer [n];
    [Fraction m e] is [m / 2^e] for an odd [m], a number that is not an
    integer.  The numbers are those of these that a double holds.  The zero
    with a minus sign is not told from the zero: both are printed and
    written as [0], and they are [===]. *)
Inductive Number :=
  | Int (n : Z)
  | Fraction (m : Z) (e : positive)
  | NaN
  | Infinity (negative : bool).

(** The two numbers are the same one. *)
Definition Number_eqb (x y : Number) : bool :=
  match x, y with
  | Int n, Int m => Z.eqb n m
  | Fraction m e, Fraction m' e' => Z.eqb m m' && Pos.eqb e e'
  | NaN, NaN => true
  | Infinity negative, Infinity negative' => Bool.eqb negative negative'
  | _, _ => false
  end.

Inductive JsVal : Type :=
  | JUndefined
  | JNull
  | JBool (b : bool)
  | JNumber (x : Number)
  | JStr (s : string)
  | JArr (elems : list JsVal).

(** A number that is an integer. *)
Abbreviation JNum n := (JNumber (Int n)).

Abbreviation JsObject := (gmap string JsVal).

(** The two values are the same.  Arrays are compared element by element:
    the identity of an array is not part of a [JsVal], and [NaN] is the same
    as [NaN] (see [Lifecycle.Reconfigure] for a new array with the same
    elements and for a [NaN] that is set again). *)
Fixpoint JsVal_eqb (v w : JsVal) : bool :=
  match v, w with
  | JUndefined, JUndefined => true
  | JNull, JNull => true
  | JBool b, JBool c => Bool.eqb b c
  | JNumber x, JNumber y => Number_eqb x y
  | JStr s, JStr t => String.eqb s t
  | JArr elems, JArr others =>
      (fix all_eqb (l k : list JsVal) : bool :=
         match l, k with
         | [], [] => true
         | x :: l, y :: k => JsVal_eqb x y && all_eqb l k
         | _, _ => false
         end) elems others
  | _, _ => false
  end.

(** An optional prop read as a value: [undefined] when it is absent. *)
Definition of_option {A} (inj : A → JsVal) (o : option A) : JsVal :=
  from_option inj JUndefined o.

(** An object literal: the properties are defined one after the other. *)
Definition object (properties : list (string * JsVal)) : JsObject :=
  foldl (λ o kv, <[kv.1 := kv.2]> o) ∅ properties.

(** The value of the last property named [key] in a list of properties,
    [found] when there is none: what [object properties !! key] is
    (lemma [lookup_object]). *)
Fixpoint property (key : string) (properties : list (string * JsVal))
    (found : option JsVal) : option JsVal :=
  match properties with
  | [] => found
  | (k, v) :: rest =>
      property key rest (if String.eqb k key then Some v else found)
  end.

(** [tbl[key]] on an object used as a lookup table. *)
Definition get (tbl : JsObject) (key : string) : JsVal :=
  default JUndefined (tbl !! key).

(** The value [JSON.stringify] writes for [v] inside an array or as a
    property value: [undefined] in an array becomes [null], and so do [NaN]
    and the infinities everywhere. *)
Fixpoint json_value (v : JsVal) : JsVal :=
  match v with
  | JUndefined => JNull
  | JNumber NaN | JNumber (Infinity _) => JNull
  | JArr elems => JArr (map json_value elems)
  | _ => v
  end.

Definition json_property (v : JsVal) : option JsVal :=
  match v with
  | JUndefined => None
  | _ => Some (json_value v)
  end.

(** [JSON.stringify(o)] for an object [o]: a property whose value is
    [undefined] is left out. *)
Definition JSON_stringify (o : JsObject) : JsObject := omap json_property o.

(** Printing a number.  Up to [2^53] every integer is a number and
    [Number::toString] writes it in full; above, and for a fraction, it
    writes the decimal with the fewest digits that still rounds to the
    number: an integer with zeros after these digits up to 21 digits, a
    fraction with up to six zeros before them, and either with an exponent
    beyond. *)

(** The integers that round to the number [x], for [x] above [2^53]: those
    from the first to the second component, the two included when the third
    is true (the significand of [x] is even). *)
Definition rounding_interval (x : Z) : Z * Z * bool :=
  let shift := (Z.log2 x + 1 - 53)%Z in
  let above := (2 ^ (shift - 1))%Z in
  let below := if (x =? 2 ^ Z.log2 x)%Z then (2 ^ (shift - 2))%Z else above in
  ((x - below)%Z, (x + above)%Z, Z.even (x / 2 ^ shift)).

Definition rounds_to (x v : Z) : bool :=
  let '(low, high, closed) := rounding_interval x in
  if closed then (low <=? v)%Z && (v <=? high)%Z
  else (low <? v)%Z && (v <? high)%Z.

(** The decimal with the fewest digits that rounds to [x]; [zeros] is the
    number of its low digits that are tried as zeros.  Of two candidates the
    closer one is taken, and of two equally close ones the even one. *)
Fixpoint shortest_decimal (x : Z) (zeros : nat) : Z :=
  match zeros with
  | O => x
  | S fewer =>
      let unit := (10 ^ Z.of_nat zeros)%Z in
      let down := (x / unit * unit)%Z in
      let up := (down + unit)%Z in
      match rounds_to x down, rounds_to x up with
      | true, true =>
          if (x - down <? up - x)%Z then down
          else if (up - x <? x - down)%Z then up
          else if Z.even (down / unit) then down else up
      | true, false => down
      | false, true => up
      | false, false => shortest_decimal x fewer
      end
  end.

Definition decimal_digits (v : Z) : Z := Z.of_nat (String.length (pretty v)).

Fixpoint without_low_zeros (fuel : nat) (v : Z) : Z :=
  match fuel with
  | O => v
  | S fuel =>
      if (0 <? v)%Z && (v mod 10 =? 0)%Z then without_low_zeros fuel (v / 10)%Z
      else v
  end.

(** [d.ddde+N] *)
Definition exponential (v : Z) : string :=
  let digits := decimal_digits v in
  match pretty (without_low_zeros (Z.to_nat digits) v) with
  | String first "" => String first "" +:+ "e+" +:+ pretty (digits - 1)%Z
  | String first rest =>
      String first "." +:+ rest +:+ "e+" +:+ pretty (digits - 1)%Z
  | "" => ""
  end.

(** [Number::toString] for an integer. *)
Definition Int_toString (n : Z) : string :=
  if (Z.abs n <=? 2 ^ 53)%Z then pretty n
  else
    let x := Z.abs n in
    let v := shortest_decimal x (Z.to_nat (decimal_digits x - 1)) in
    let text := if (decimal_digits v <=? 21)%Z then pretty v else exponential v in
    if (n <? 0)%Z then "-" +:+ text else text.

(** A positive number [m / 2^e] that is not an integer, and the decimals
    [d * 10^k], are compared in units of [2^-dy_scale], a quarter of the
    distance from the number to the next one. *)
Record Dyadic := {
  dy_scale : Z;     (* the unit is [2^-dy_scale] *)
  dy_units : Z;     (* the number *)
  dy_low : Z;       (* the least and *)
  dy_high : Z;      (* the greatest value that rounds to the number, *)
  dy_closed : bool  (* themselves included *)
}.

Definition dyadic (m : Z) (e : Z) : Dyadic :=
  let exponent := (Z.log2 m - e)%Z in
  let ulp := Z.max (exponent - 52) (-1074) in
  let scale := (2 - ulp)%Z in
  let units := (m * 2 ^ (scale - e))%Z in
  let below := if (m =? 2 ^ Z.log2 m)%Z && (-1022 <? exponent)%Z then 1%Z else 2%Z in
  {| dy_scale := scale; dy_units := units;
     dy_low := (units - below)%Z; dy_high := (units + 2)%Z;
     dy_closed := Z.even (units / 4) |}.

(** [d * 10^k] compared with [b] units: both multiplied by [2^dy_scale] and
    by the power of ten that makes them integers. *)
Definition decimal_units (x : Dyadic) (d k : Z) : Z :=
  (d * 10 ^ Z.max k 0 * 2 ^ dy_scale x)%Z.

Definition in_units (k b : Z) : Z := (b * 10 ^ Z.max (- k) 0)%Z.

Definition rounds_to_dyadic (x : Dyadic) (d k : Z) : bool :=
  let v := decimal_units x d k in
  if dy_closed x then (in_units k (dy_low x) <=? v)%Z && (v <=? in_units k (dy_high x))%Z
  else (in_units k (dy_low x) <? v)%Z && (v <? in_units k (dy_high x))%Z.

(** The greatest [d] with [d * 10^k] at most the number. *)
Definition decimal_below (x : Dyadic) (k : Z) : Z :=
  (in_units k (dy_units x) / (10 ^ Z.max k 0 * 2 ^ dy_scale x))%Z.

(** The exponent [k] of the first digit: the greatest with [10^k] at most
    the number, looked for from [k] down.  For a number from [2^b] to
    [2^(b+1)] it is [b * log 2] rounded down, or one more or less. *)
Fixpoint first_digit (fuel : nat) (x : Dyadic) (k : Z) : Z :=
  match fuel with
  | O => k
  | S fuel =>
      if (0 <? decimal_below x k)%Z then k else first_digit fuel x (k - 1)%Z
  end.

(** The decimal [(d, k)] with the fewest digits that rounds to the number:
    [k] is the exponent of the last digit, one less at each step, for at
    most 17 digits; of two decimals the closer one, and of two equally close
    ones the even one. *)
Fixpoint shortest_fraction (fuel : nat) (x : Dyadic) (k : Z) : Z * Z :=
  let down := decimal_below x k in
  let up := (down + 1)%Z in
  match fuel with
  | O => (down, k)
  | S fuel =>
      match rounds_to_dyadic x down k, rounds_to_dyadic x up k with
      | true, true =>
          let below := (in_units k (dy_units x) - decimal_units x down k)%Z in
          let above := (decimal_units x up k - in_units k (dy_units x))%Z in
          if (below <? above)%Z then (down, k)
          else if (above <? below)%Z then (up, k)
          else if Z.even down then (down, k) else (up, k)
      | true, false => (down, k)
      | false, true => (up, k)
      | false, false => shortest_fraction fuel x (k - 1)%Z
      end
  end.

Fixpoint zeros (n : nat) : string :=
  match n with O => "" | S n => String "0" (zeros n) end.

(** [Number::toString] for the digits [d] and the exponent [k] of their
    last one. *)
Definition decimal_text (d k : Z) : string :=
  let digits := without_low_zeros (Z.to_nat (decimal_digits d)) d in
  let text := pretty digits in
  let count := String.length text in
  let point := (k + decimal_digits d)%Z in
  if (Z.of_nat count <=? point)%Z && (point <=? 21)%Z then
    text +:+ zeros (Z.to_nat point - count)
  else if (0 <? point)%Z && (point <=? 21)%Z then
    String.substring 0 (Z.to_nat point) text +:+ "."
    +:+ String.substring (Z.to_nat point) (count - Z.to_nat point) text
  else if (-6 <? point)%Z && (point <=? 0)%Z then
    "0." +:+ zeros (Z.to_nat (- point)) +:+ text
  else
    let exponent := (if (0 <? point - 1)%Z then "e+" else "e-")
                    +:+ pretty (Z.abs (point - 1)) in
    match text with
    | String first "" => String first "" +:+ exponent
    | String first rest => String first "." +:+ rest +:+ exponent
    | "" => ""
    end.

Definition Fraction_toString (m : Z) (e : positive) : string :=
  let x := dyadic (Z.abs m) (Z.pos e) in
  let k := first_digit 4 x ((Z.log2 (Z.abs m) - Z.pos e) * 30103 / 100000 + 1)%Z in
  let '(d, k) := shortest_fraction 17 x k in
  (if (m <? 0)%Z then "-" else "") +:+ decimal_text d k.

(** [Number::toString(x)] *)
Definition Number_toString (x : Number) : string :=
  match x with
  | Int n => Int_toString n
  | Fraction m e => Fraction_toString m e
  | NaN => "NaN"
  | Infinity negative => if negative then "-Infinity" else "Infinity"
  end.

(** [ToString], as used by template literals and by [Array.prototype.join]. *)
Fixpoint ToString (v : JsVal) : string :=
  match v with
  | JUndefined => "undefined"
  | JNull => "null"
  | JBool b => if b then "true" else "false"
  | JNumber x => Number_toString x
  | JStr s => s
  | JArr elems =>
      String.concat ","
        (map (λ e, match e with
                   | JUndefined | JNull => ""
                   | _ => ToString e
                   end) elems)
  end.

Definition join_element (v : JsVal) : string :=
  match v with
  | JUndefined | JNull => ""
  | _ => ToString v
  end.

(** [arr.join(sep)] *)
Definition join (sep : string) (arr : list JsVal) : string :=
  String.concat sep (map join_element arr).

(** [s.split(sep)] for a separator of one character. *)
Fixpoint split (sep : Ascii.ascii) (s : string) : list string :=
  match s with
  | EmptyString => [EmptyString]
  | String c rest =>
      if Ascii.eqb c sep then EmptyString :: split sep rest
      else match split sep rest with
           | [] => [String c EmptyString]
           | part :: parts => String c part :: parts
           end
  end.

(** A [Set] keeps its members in insertion order; adding a member that is
    already there changes nothing. *)
Section JsSet.
Context {A : Type} `{EqDecision A}.

Definition Set_add (s : list A) (x : A) : list A :=
  if decide (x ∈ s) then s else s ++ [x].

(** [new Set(iterable)] *)
Definition Set_new (iterable : list A) : list A := foldl Set_add [] iterable.

(** [new Array(...set)], for members that are not numbers. *)
Definition Array_of_Set (s : list A) : list A := s.
End JsSet.

Record Error := { message : string }.

(** How the promise returned by [loadScript] settles. *)
Inductive Outcome := Loaded | Failed (e : Error).

(** [@dschz/try-catch]: the awaited result of [tryCatch(promise)] is the
    pair [[error, data]]; only the error is used by the components. *)
Definition tryCatch (o : Outcome) : option Error :=
  match o with
  | Loaded => None
  | Failed e => Some e
  end.

(** A caller-supplied function, known by its identity only. *)
Inductive Callback := Cb (id : nat).

End Js.
Export Js.

(* ================================================================== *)
(** * Shared types ([types.ts])                                          *)
(* ================================================================== *)

Inductive ColorTheme := light | dark.

Definition ColorTheme_str (t : ColorTheme) : string :=
  match t with light => "light" | dark => "dark" end.

(** [type Size = number | "full"] *)
Inductive Size := Full | Pixels (x : Number).

(** A size that is a whole number. *)
Abbreviation Px n := (Pixels (Int n)).

Definition Size_js (s : Size) : JsVal :=
  match s with
  | Full => JStr "full"
  | Pixels x => JNumber x
  end.

Definition is_full (s : Size) : bool :=
  match s with Full => true | Pixels _ => false end.

Inductive Locale :=
  | en | in_ | de_DE | fr | ca_ES | es | it | pl | tr | ru | br | id_ | ms_MY
  | th_TH | vi_VN | ja | ko | zh_CN | zh_TW | ar_AE | he_IL.

Definition Locale_str (l : Locale) : string :=
  match l with
  | en => "en" | in_ => "in" | de_DE => "de_DE" | fr => "fr"
  | ca_ES => "ca_ES" | es => "es" | it => "it" | pl => "pl" | tr => "tr"
  | ru => "ru" | br => "br" | id_ => "id" | ms_MY => "ms_MY"
  | th_TH => "th_TH" | vi_VN => "vi_VN" | ja => "ja" | ko => "ko"
  | zh_CN => "zh_CN" | zh_TW => "zh_TW" | ar_AE => "ar_AE"
  | he_IL => "he_IL"
  end.

(* ================================================================== *)
(** * The reactive effect that every component runs                     *)
(* ================================================================== *)

(** What differs from one component to the next: the props that the
    function given to [createEffect] reads while it runs, the style
    properties it assigns (the same values go to the container and to the
    widget root), the vendor script, the configuration object, and the
    [onError] prop.  [Props] is the type of the merged props [_props].

    [widget_reads] lists the props read before the [await], each once, in the
    order of its first read and with the value read: these are the signals
    that the run subscribes to.  [onError] is read after the [await] and is
    not among them. *)
Record Widget (Props : Type) := {
  widget_reads : Props → list (string * JsVal);
  widget_styles : Props → gmap string string;
  widget_script : string;
  widget_config : Props → JsObject;
  widget_onError : Props → option Callback;
}.
Arguments widget_reads {Props}.
Arguments widget_styles {Props}.
Arguments widget_script {Props}.
Arguments widget_config {Props}.
Arguments widget_onError {Props}.

Module Lifecycle.

(** The script element [loadScript] is asked to put into the widget root. *)
Record Script := {
  src : string;
  textContent : JsObject;
}.

(** A widget root: [document.createElement("div")], told apart from the
    other nodes by [node]. *)
Record Element := {
  node : nat;
  classList : list string;
  style : gmap string string;
  scripts : list Script;
}.

Inductive Event :=
  | Created (n : nat)                         (* document.createElement *)
  | Appended (n : nat)                        (* container.appendChild *)
  | ScriptRequested (n : nat)                 (* loadScript(..., widgetRoot) *)
  | Removed (n : nat)                         (* widgetRoot.remove() *)
  | ErrorReported (n : nat) (cb : Callback) (e : Error). (* onError(error) *)

(** What the environment does to a mounted component.

    [Reconfigure notified p]: the parent changes the props, which are [p]
    from now on.  [notified] names the props whose signals have notified
    without the value of the prop being another one: Solid compares with
    [===], so a new array with the same elements notifies, and so do a [NaN]
    that is set again and a signal that the expression of a prop reads
    without its value depending on it.  A prop that has another value has
    notified in any case.

    [Settle n o]: the script load started for the widget root [n] settles. *)
Inductive Action (Props : Type) :=
  | Reconfigure (notified : list string) (p : Props)
  | Settle (n : nat) (o : Outcome).
Arguments Reconfigure {Props}.
Arguments Settle {Props}.

Fixpoint reads_eqb (reads others : list (string * JsVal)) : bool :=
  match reads, others with
  | [], [] => true
  | (name, v) :: reads, (name', v') :: others =>
      String.eqb name name' && JsVal_eqb v v' && reads_eqb reads others
  | _, _ => false
  end.

(** The effect that has read [reads] has to run again: the reads, made now,
    would give [now], which is something else, or one of the props read has
    notified. *)
Definition stale (reads : list (string * JsVal)) (notified : list string)
    (now : list (string * JsVal)) : bool :=
  negb (reads_eqb reads now)
  || existsb (λ name, existsb (λ read, String.eqb read.1 name) reads) notified.

Section Controller.
(** [accepts property value]: the CSSOM takes the declaration; an assignment
    to [style] of a value that it does not take ([style.width = "-5px"])
    changes nothing. *)
Context {Props : Type} (accepts : string → string → bool) (W : Widget Props).

Record State := {
  props : Props;                        (* the reactive [_props] *)
  next_node : nat;                      (* nodes created so far *)
  container_style : gmap string string;
  container_children : list Element;
  cleanups : list nat;   (* [onCleanup] callbacks: each removes that root *)
  pending : list nat;    (* roots whose script load has not settled *)
  trace : list Event;
  subscribed : option (list (string * JsVal));
    (* what the last run of the effect has read; [None] once disposed of *)
}.

(** The component has rendered its empty container
    [<div class="tradingview-widget-container" ref={container} />]. *)
Definition rendered (p : Props) : State :=
  {| props := p; next_node := 0; container_style := ∅;
     container_children := []; cleanups := []; pending := [];
     trace := []; subscribed := Some [] |}.

(** The assignments to [style] that take effect. *)
Definition declared (assignments : gmap string string) : gmap string string :=
  filter (λ assignment, accepts assignment.1 assignment.2 = true) assignments.

(** The body of the function given to [createEffect], run with the props
    [p]; [downloadScript] runs up to its [await]. *)
Definition effect (p : Props) (st : State) : State :=
  let n := next_node st in
  let widgetRoot :=
    {| node := n;
       classList := ["tradingview-widget-container__widget"];
       style := declared (widget_styles W p);
       scripts := [ {| src := widget_script W;
                       textContent := JSON_stringify (widget_config W p) |} ] |} in
  {| props := p;
     next_node := S n;
     container_style := declared (widget_styles W p) ∪ container_style st;
     container_children := container_children st ++ [widgetRoot];
     cleanups := cleanups st ++ [n];
     pending := pending st ++ [n];
     trace := trace st ++ [Created n; Appended n; ScriptRequested n];
     subscribed := Some (widget_reads W p) |}.

(** [widgetRoot.remove()] *)
Definition remove (n : nat) (children : list Element) : list Element :=
  filter (λ el, node el ≠ n) children.

(** Solid runs the cleanups an effect has registered before it runs the
    effect again, and when the component is disposed of. *)
Definition run_cleanups (st : State) : State :=
  {| props := props st;
     next_node := next_node st;
     container_style := container_style st;
     container_children := foldl (λ ch n, remove n ch) (container_children st) (cleanups st);
     cleanups := [];
     pending := pending st;
     trace := trace st ++ (Removed <$> cleanups st);
     subscribed := subscribed st |}.

(** [createEffect(...)]: the first run, after the container is rendered. *)
Definition mount (p : Props) : State := effect p (rendered p).

(** A change of a prop that the effect has read: the effect runs again. *)
Definition update (p : Props) (st : State) : State := effect p (run_cleanups st).

(** A change of the props that does not concern the effect: [_props] gives
    the new values from now on, and nothing else happens. *)
Definition set_props (p : Props) (st : State) : State :=
  {| props := p;
     next_node := next_node st;
     container_style := container_style st;
     container_children := container_children st;
     cleanups := cleanups st;
     pending := pending st;
     trace := trace st;
     subscribed := subscribed st |}.

(** The component is disposed of: the cleanups run, and the effect does not
    run again. *)
Definition dispose (st : State) : State :=
  let st := run_cleanups st in
  {| props := props st;
     next_node := next_node st;
     container_style := container_style st;
     container_children := container_children st;
     cleanups := cleanups st;
     pending := pending st;
     trace := trace st;
     subscribed := None |}.

(** [if (error) _props.onError?.(error)], for the load of the root [n];
    [_props] is read when the load has settled. *)
Definition report (n : nat) (error : option Error) (st : State) : list Event :=
  match error with
  | Some error =>
      match widget_onError W (props st) with
      | Some cb => [ErrorReported n cb error]
      | None => []
      end
  | None => []
  end.

(** The rest of [downloadScript], once the promise of [loadScript] for the
    root [n] has settled:
    [const [error] = await tryCatch(loadScript(...));
     if (error) _props.onError?.(error)].
    A promise settles once. *)
Definition settle (n : nat) (o : Outcome) (st : State) : State :=
  if decide (n ∈ pending st) then
    {| props := props st;
       next_node := next_node st;
       container_style := container_style st;
       container_children := container_children st;
       cleanups := cleanups st;
       pending := filter (λ m, m ≠ n) (pending st);
       trace := trace st ++ report n (tryCatch o) st;
       subscribed := subscribed st |}
  else st.

(** Solid runs an effect again when a signal that its last run has read
    notifies, and not otherwise. *)
Definition step (st : State) (a : Action Props) : State :=
  match a with
  | Reconfigure notified p =>
      match subscribed st with
      | Some reads =>
          if stale reads notified (widget_reads W p) then update p st
          else set_props p st
      | None => set_props p st
      end
  | Settle n o => settle n o st
  end.

Definition run (p : Props) (actions : list (Action Props)) : State :=
  foldl step (mount p) actions.

(** The number of times the effect runs again in the course of [actions],
    when its last run has read [reads]. *)
Fixpoint reruns_after (reads : list (string * JsVal))
    (actions : list (Action Props)) : nat :=
  match actions with
  | [] => 0
  | Reconfigure notified p :: rest =>
      if stale reads notified (widget_reads W p)
      then S (reruns_after (widget_reads W p) rest)
      else reruns_after reads rest
  | Settle _ _ :: rest => reruns_after reads rest
  end.

(** The same for a component mounted with the props [p]. *)
Definition reruns (p : Props) (actions : list (Action Props)) : nat :=
  reruns_after (widget_reads W p) actions.

End Controller.

Arguments props {Props}.
Arguments next_node {Props}.
Arguments container_style {Props}.
Arguments container_children {Props}.
Arguments cleanups {Props}.
Arguments pending {Props}.
Arguments trace {Props}.
Arguments subscribed {Props}.

(** Observations on a trace. *)

Definition is_reconfigure {Props} (a : Action Props) : bool :=
  match a with Reconfigure _ _ => true | Settle _ _ => false end.

(** The number of configuration changes among the actions. *)
Definition changes {Props} (actions : list (Action Props)) : nat :=
  length (filter is_reconfigure actions).

Definition created (tr : list Event) : list nat :=
  omap (λ ev, match ev with Created n => Some n | _ => None end) tr.

(** The widget roots attached to the container after the events [tr]. *)
Definition attached (tr : list Event) : list nat :=
  foldl (λ live ev,
           match ev with
           | Appended n => live ++ [n]
           | Removed n => filter (λ m, m ≠ n) live
           | _ => live
           end) [] tr.

(** The creations and removals of a trace, in order. *)
Definition turnover (tr : list Event) : list Event :=
  omap (λ ev, match ev with Created _ | Removed _ => Some ev | _ => None end) tr.

(** Root 0 is created; then, for each run of the effect after the first,
    the root of the generation before is removed and the next one is
    created. *)
Fixpoint generations (runs : nat) : list Event :=
  match runs with
  | 0 => [Created 0]
  | S k => generations k ++ [Removed k; Created (S k)]
  end.

Definition reports (n : nat) (tr : list Event) : list (Callback * Error) :=
  omap (λ ev, match ev with
              | ErrorReported m cb e => if decide (m = n) then Some (cb, e) else None
              | _ => None
              end) tr.

End Lifecycle.

(* ================================================================== *)
(** * MiniChart ([charts/MiniChart.tsx])                                 *)
(* ================================================================== *)

Module MiniChart.

Inductive MiniChartDateRange := D1 | M1 | M3 | Y1 | Y5 | ALL.

Definition MiniChartDateRange_str (r : MiniChartDateRange) : string :=
  match r with
  | D1 => "1D" | M1 => "1M" | M3 => "3M" | Y1 => "1Y" | Y5 => "5Y"
  | ALL => "ALL"
  end.

(** [MiniChartProps] *)
Record Props := {
  symbol : string;
  width : option Size;
  height : option Size;
  locale : option Locale;
  dateRange : option MiniChartDateRange;
  colorTheme : option ColorTheme;
  trendLineColor : option string;
  underLineColor : option string;
  underLineBottomColor : option string;
  autosize : option bool;
  isTransparent : option bool;
  chartOnly : option bool;
  noTimeScale : option bool;
  onError : option Callback;
}.

(** The merged props [_props]. *)
Module Merged.
Record t := {
  symbol : string;
  width : Size;
  height : Size;
  locale : Locale;
  dateRange : MiniChartDateRange;
  colorTheme : ColorTheme;
  trendLineColor : option string;
  underLineColor : option string;
  underLineBottomColor : option string;
  autosize : bool;
  isTransparent : bool;
  chartOnly : bool;
  noTimeScale : bool;
  onError : option Callback;
}.
End Merged.

(** [mergeProps({ width: "full", ... }, props)]: a prop the caller leaves
    out, or passes as [undefined], takes the value of the defaults. *)
Definition mergeProps (props : Props) : Merged.t :=
  {| Merged.symbol := symbol props;
     Merged.width := default Full (width props);
     Merged.height := default Full (height props);
     Merged.locale := default en (locale props);
     Merged.colorTheme := default light (colorTheme props);
     Merged.dateRange := default M1 (dateRange props);
     Merged.autosize := default true (autosize props);
     Merged.isTransparent := default false (isTransparent props);
     Merged.chartOnly := default false (chartOnly props);
     Merged.noTimeScale := default false (noTimeScale props);
     Merged.trendLineColor := trendLineColor props;
     Merged.underLineColor := underLineColor props;
     Merged.underLineBottomColor := underLineBottomColor props;
     Merged.onError := onError props |}.

Definition fullWidth (_props : Merged.t) : bool :=
  Merged.autosize _props || is_full (Merged.width _props).

Definition fullHeight (_props : Merged.t) : bool :=
  Merged.autosize _props || is_full (Merged.height _props).

Definition styles (_props : Merged.t) : gmap string string :=
  <["height" := if fullHeight _props then "100%"
                else ToString (Size_js (Merged.height _props)) +:+ "px"]>
    (<["width" := if fullWidth _props then "100%"
                  else ToString (Size_js (Merged.width _props)) +:+ "px"]> ∅).

(** The object given to [JSON.stringify]. *)
Definition widgetConfig (_props : Merged.t) : JsObject :=
  object [
    ("symbol", JStr (Merged.symbol _props));
    ("autosize", JBool (Merged.autosize _props));
    ("width", if fullWidth _props then JStr "100%" else Size_js (Merged.width _props));
    ("height", if fullHeight _props then JStr "100%" else Size_js (Merged.height _props));
    ("locale", JStr (Locale_str (Merged.locale _props)));
    ("colorTheme", JStr (ColorTheme_str (Merged.colorTheme _props)));
    ("dateRange", JStr (MiniChartDateRange_str (Merged.dateRange _props)));
    ("trendLineColor", of_option JStr (Merged.trendLineColor _props));
    ("underLineColor", of_option JStr (Merged.underLineColor _props));
    ("underLineBottomColor", of_option JStr (Merged.underLineBottomColor _props));
    ("isTransparent", JBool (Merged.isTransparent _props));
    ("chartOnly", JBool (Merged.chartOnly _props));
    ("noTimeScale", JBool (Merged.noTimeScale _props))
  ].

(** The props that the effect reads while it runs.  [_props.width] and
    [_props.height] are read only when [_props.autosize] is false
    ([_props.autosize || _props.width === "full"] and
    [fullWidth ? "100%" : _props.width]); [_props.onError] is read after the
    [await]. *)
Definition reads (_props : Merged.t) : list (string * JsVal) :=
  ("autosize", JBool (Merged.autosize _props))
  :: (if Merged.autosize _props then []
      else [("width", Size_js (Merged.width _props));
            ("height", Size_js (Merged.height _props))])
  ++ [("symbol", JStr (Merged.symbol _props));
      ("locale", JStr (Locale_str (Merged.locale _props)));
      ("colorTheme", JStr (ColorTheme_str (Merged.colorTheme _props)));
      ("dateRange", JStr (MiniChartDateRange_str (Merged.dateRange _props)));
      ("trendLineColor", of_option JStr (Merged.trendLineColor _props));
      ("underLineColor", of_option JStr (Merged.underLineColor _props));
      ("underLineBottomColor", of_option JStr (Merged.underLineBottomColor _props));
      ("isTransparent", JBool (Merged.isTransparent _props));
      ("chartOnly", JBool (Merged.chartOnly _props));
      ("noTimeScale", JBool (Merged.noTimeScale _props))].

Definition widget : Widget Merged.t :=
  {| widget_reads := reads;
     widget_styles := styles;
     widget_script :=
       "https://s3.tradingview.com/external-embedding/embed-widget-mini-symbol-overview.js";
     widget_config := widgetConfig;
     widget_onError := Merged.onError |}.

(** The text content of the script the component asks for. *)
Definition payload (props : Props) : JsObject :=
  JSON_stringify (widgetConfig (mergeProps props)).

End MiniChart.

(* ================================================================== *)
(** * TopStories ([news/TopStories.tsx])                                 *)
(* ================================================================== *)

Module TopStories.

Inductive TopStoriesFeedMode := all_symbols | market | symbol_mode.

Definition TopStoriesFeedMode_str (m : TopStoriesFeedMode) : string :=
  match m with
  | all_symbols => "all_symbols" | market => "market" | symbol_mode => "symbol"
  end.

Inductive TopStoriesDisplayMode := adaptive | regular | compact.

Definition TopStoriesDisplayMode_str (m : TopStoriesDisplayMode) : string :=
  match m with
  | adaptive => "adaptive" | regular => "regular" | compact => "compact"
  end.

(** [TopStoriesProps = SymbolModeProps | NonSymbolModeProps], as the
    component receives the props at run time. *)
Record Props := {
  width : option Size;
  height : option Size;
  colorTheme : option ColorTheme;
  locale : option Locale;
  displayMode : option TopStoriesDisplayMode;
  autosize : option bool;
  isTransparent : option bool;
  onError : option Callback;
  feedMode : option TopStoriesFeedMode;
  symbol : option string;
}.

(** [SymbolModeProps] declares [readonly symbol: string]: a caller that
    type-checks passes a symbol with the feed mode ["symbol"]. *)
Definition symbol_required (props : Props) : Prop :=
  feedMode props = Some symbol_mode → is_Some (symbol props).

Module Merged.
Record t := {
  width : Size;
  height : Size;
  locale : Locale;
  colorTheme : ColorTheme;
  feedMode : TopStoriesFeedMode;
  displayMode : TopStoriesDisplayMode;
  autosize : bool;
  isTransparent : bool;
  onError : option Callback;
  symbol : option string;
}.
End Merged.

Definition mergeProps (props : Props) : Merged.t :=
  {| Merged.width := default Full (width props);
     Merged.height := default Full (height props);
     Merged.locale := default en (locale props);
     Merged.colorTheme := default light (colorTheme props);
     Merged.feedMode := default all_symbols (feedMode props);
     Merged.displayMode := default adaptive (displayMode props);
     Merged.autosize := default true (autosize props);
     Merged.isTransparent := default false (isTransparent props);
     Merged.onError := onError props;
     Merged.symbol := symbol props |}.

Definition fullWidth (_props : Merged.t) : bool :=
  Merged.autosize _props || is_full (Merged.width _props).

Definition fullHeight (_props : Merged.t) : bool :=
  Merged.autosize _props || is_full (Merged.height _props).

Definition styles (_props : Merged.t) : gmap string string :=
  <["height" := if fullHeight _props then "100%"
                else ToString (Size_js (Merged.height _props)) +:+ "px"]>
    (<["width" := if fullWidth _props then "100%"
                  else ToString (Size_js (Merged.width _props)) +:+ "px"]> ∅).

(** [const widgetConfig = {...}; if (_props.feedMode === "symbol")
    widgetConfig.symbol = _props.symbol;] *)
Definition widgetConfig (_props : Merged.t) : JsObject :=
  let widgetConfig :=
    object [
      ("width", if fullWidth _props then JStr "100%" else Size_js (Merged.width _props));
      ("height", if fullHeight _props then JStr "100%" else Size_js (Merged.height _props));
      ("locale", JStr (Locale_str (Merged.locale _props)));
      ("colorTheme", JStr (ColorTheme_str (Merged.colorTheme _props)));
      ("feedMode", JStr (TopStoriesFeedMode_str (Merged.feedMode _props)));
      ("displayMode", JStr (TopStoriesDisplayMode_str (Merged.displayMode _props)));
      ("isTransparent", JBool (Merged.isTransparent _props))
    ] in
  match Merged.feedMode _props with
  | symbol_mode => <["symbol" := of_option JStr (Merged.symbol _props)]> widgetConfig
  | _ => widgetConfig
  end.

(** The props that the effect reads while it runs.  [_props.width] and
    [_props.height] are read only when [_props.autosize] is false,
    [_props.symbol] only when the feed mode is ["symbol"]; [_props.onError]
    is read after the [await]. *)
Definition reads (_props : Merged.t) : list (string * JsVal) :=
  ("autosize", JBool (Merged.autosize _props))
  :: (if Merged.autosize _props then []
      else [("width", Size_js (Merged.width _props));
            ("height", Size_js (Merged.height _props))])
  ++ [("locale", JStr (Locale_str (Merged.locale _props)));
      ("colorTheme", JStr (ColorTheme_str (Merged.colorTheme _props)));
      ("feedMode", JStr (TopStoriesFeedMode_str (Merged.feedMode _props)));
      ("displayMode", JStr (TopStoriesDisplayMode_str (Merged.displayMode _props)));
      ("isTransparent", JBool (Merged.isTransparent _props))]
  ++ match Merged.feedMode _props with
     | symbol_mode => [("symbol", of_option JStr (Merged.symbol _props))]
     | _ => []
     end.

Definition widget : Widget Merged.t :=
  {| widget_reads := reads;
     widget_styles := styles;
     widget_script :=
       "https://s3.tradingview.com/external-embedding/embed-widget-timeline.js";
     widget_config := widgetConfig;
     widget_onError := Merged.onError |}.

Definition payload (props : Props) : JsObject :=
  JSON_stringify (widgetConfig (mergeProps props)).

End TopStories.

(* ================================================================== *)
(** * EconomicCalendar ([calendars/EconomicCalendar.tsx])                *)
(* ================================================================== *)

Module EconomicCalendar.

Inductive Country :=
  | UnitedStates | Canada | Austria | Belgium | Cyprus | CzechRepublic
  | Denmark | Estonia | EuropeanUnion | Finland | France | Germany
  | Greece | Hungary | Iceland | Ireland | Italy | Latvia | Lithuania
  | Luxembourg | Netherlands | Norway | Poland | Portugal | Romania
  | Russia | Serbia | Slovakia | Spain | Sweden | Switzerland | Ukraine
  | UnitedKingdom | Angola | Bahrain | Botswana | Egypt | Ethiopia
  | Ghana | Israel | Kenya | Kuwait | Malawi | Mauritius | Morocco
  | Mozambique | Namibia | Nigeria | Oman | Qatar | Rwanda | SaudiArabia
  | Seychelles | SouthAfrica | Tanzania | Tunisia | Turkey | Uganda
  | UnitedArabEmirates | Zambia | Zimbabwe | Argentina | Brazil | Chile
  | Colombia | Mexico | Peru | Venezuela | Australia | Bangladesh | China
  | HongKong | India | Indonesia | Japan | SouthKorea | SriLanka
  | Malaysia | NewZealand | Pakistan | Philippines | Singapore | Taiwan
  | Thailand | Vietnam.

#[global] Instance Country_eq_dec : EqDecision Country.
Proof. solve_decision. Defined.

(** The string a [Country] is. *)
Definition Country_str (c : Country) : string :=
  match c with
  | UnitedStates => "United States"
  | Canada => "Canada"
  | Austria => "Austria"
  | Belgium => "Belgium"
  | Cyprus => "Cyprus"
  | CzechRepublic => "Czech Republic"
  | Denmark => "Denmark"
  | Estonia => "Estonia"
  | EuropeanUnion => "European Union"
  | Finland => "Finland"
  | France => "France"
  | Germany => "Germany"
  | Greece => "Greece"
  | Hungary => "Hungary"
  | Iceland => "Iceland"
  | Ireland => "Ireland"
  | Italy => "Italy"
  | Latvia => "Latvia"
  | Lithuania => "Lithuania"
  | Luxembourg => "Luxembourg"
  | Netherlands => "Netherlands"
  | Norway => "Norway"
  | Poland => "Poland"
  | Portugal => "Portugal"
  | Romania => "Romania"
  | Russia => "Russia"
  | Serbia => "Serbia"
  | Slovakia => "Slovakia"
  | Spain => "Spain"
  | Sweden => "Sweden"
  | Switzerland => "Switzerland"
  | Ukraine => "Ukraine"
  | UnitedKingdom => "United Kingdom"
  | Angola => "Angola"
  | Bahrain => "Bahrain"
  | Botswana => "Botswana"
  | Egypt => "Egypt"
  | Ethiopia => "Ethiopia"
  | Ghana => "Ghana"
  | Israel => "Israel"
  | Kenya => "Kenya"
  | Kuwait => "Kuwait"
  | Malawi => "Malawi"
  | Mauritius => "Mauritius"
  | Morocco => "Morocco"
  | Mozambique => "Mozambique"
  | Namibia => "Namibia"
  | Nigeria => "Nigeria"
  | Oman => "Oman"
  | Qatar => "Qatar"
  | Rwanda => "Rwanda"
  | SaudiArabia => "Saudi Arabia"
  | Seychelles => "Seychelles"
  | SouthAfrica => "South Africa"
  | Tanzania => "Tanzania"
  | Tunisia => "Tunisia"
  | Turkey => "Turkey"
  | Uganda => "Uganda"
  | UnitedArabEmirates => "United Arab Emirates"
  | Zambia => "Zambia"
  | Zimbabwe => "Zimbabwe"
  | Argentina => "Argentina"
  | Brazil => "Brazil"
  | Chile => "Chile"
  | Colombia => "Colombia"
  | Mexico => "Mexico"
  | Peru => "Peru"
  | Venezuela => "Venezuela"
  | Australia => "Australia"
  | Bangladesh => "Bangladesh"
  | China => "China"
  | HongKong => "Hong Kong"
  | India => "India"
  | Indonesia => "Indonesia"
  | Japan => "Japan"
  | SouthKorea => "South Korea"
  | SriLanka => "Sri Lanka"
  | Malaysia => "Malaysia"
  | NewZealand => "New Zealand"
  | Pakistan => "Pakistan"
  | Philippines => "Philippines"
  | Singapore => "Singapore"
  | Taiwan => "Taiwan"
  | Thailand => "Thailand"
  | Vietnam => "Vietnam"
  end.

(** Every value of the type [Country], in the order of its declaration. *)
Definition Country_values : list Country :=
  [UnitedStates; Canada; Austria; Belgium; Cyprus; CzechRepublic;
   Denmark; Estonia; EuropeanUnion; Finland; France; Germany; Greece;
   Hungary; Iceland; Ireland; Italy; Latvia; Lithuania; Luxembourg;
   Netherlands; Norway; Poland; Portugal; Romania; Russia; Serbia;
   Slovakia; Spain; Sweden; Switzerland; Ukraine; UnitedKingdom; Angola;
   Bahrain; Botswana; Egypt; Ethiopia; Ghana; Israel; Kenya; Kuwait;
   Malawi; Mauritius; Morocco; Mozambique; Namibia; Nigeria; Oman; Qatar;
   Rwanda; SaudiArabia; Seychelles; SouthAfrica; Tanzania; Tunisia;
   Turkey; Uganda; UnitedArabEmirates; Zambia; Zimbabwe; Argentina;
   Brazil; Chile; Colombia; Mexico; Peru; Venezuela; Australia;
   Bangladesh; China; HongKong; India; Indonesia; Japan; SouthKorea;
   SriLanka; Malaysia; NewZealand; Pakistan; Philippines; Singapore;
   Taiwan; Thailand; Vietnam].

Definition CountryMap : JsObject :=
  object [
    ("United States", JStr "us");
    ("Canada", JStr "ca");
    ("Austria", JStr "at");
    ("Belgium", JStr "be");
    ("Cyprus", JStr "cy");
    ("Czech Republic", JStr "cz");
    ("Denmark", JStr "dk");
    ("Estonia", JStr "ee");
    ("European Union", JStr "eu");
    ("Finland", JStr "fi");
    ("France", JStr "fr");
    ("Germany", JStr "de");
    ("Greece", JStr "gr");
    ("Hungary", JStr "hu");
    ("Iceland", JStr "is");
    ("Ireland", JStr "ie");
    ("Italy", JStr "it");
    ("Latvia", JStr "lv");
    ("Lithuania", JStr "lt");
    ("Luxembourg", JStr "lu");
    ("Netherlands", JStr "nl");
    ("Norway", JStr "no");
    ("Poland", JStr "pl");
    ("Portugal", JStr "pt");
    ("Romania", JStr "ro");
    ("Russia", JStr "ru");
    ("Serbia", JStr "rs");
    ("Slovakia", JStr "sk");
    ("Spain", JStr "es");
    ("Sweden", JStr "se");
    ("Switzerland", JStr "ch");
    ("Ukraine", JStr "ua");
    ("United Kingdom", JStr "gb");
    ("Angola", JStr "ao");
    ("Bahrain", JStr "bh");
    ("Botswana", JStr "bw");
    ("Egypt", JStr "eg");
    ("Ethiopia", JStr "et");
    ("Ghana", JStr "gh");
    ("Israel", JStr "il");
    ("Kenya", JStr "ke");
    ("Kuwait", JStr "kw");
    ("Malawi", JStr "mw");
    ("Mauritius", JStr "mu");
    ("Morocco", JStr "ma");
    ("Mozambique", JStr "mz");
    ("Namibia", JStr "na");
    ("Nigeria", JStr "ng");
    ("Oman", JStr "om");
    ("Qatar", JStr "qa");
    ("Rwanda", JStr "rw");
    ("Saudi Arabia", JStr "sa");
    ("Seychelles", JStr "sc");
    ("South Africa", JStr "za");
    ("Tanzania", JStr "tz");
    ("Tunisia", JStr "tn");
    ("Turkey", JStr "tr");
    ("Uganda", JStr "ug");
    ("United Arab Emirates", JStr "ae");
    ("Zambia", JStr "zm");
    ("Zimbabwe", JStr "zw");
    ("Argentina", JStr "ar");
    ("Brazil", JStr "br");
    ("Chile", JStr "cl");
    ("Colombia", JStr "co");
    ("Mexico", JStr "mx");
    ("Peru", JStr "pe");
    ("Venezuela", JStr "ve");
    ("Australia", JStr "au");
    ("Bangladesh", JStr "bd");
    ("China", JStr "cn");
    ("Hong Kong", JStr "hk");
    ("India", JStr "in");
    ("Indonesia", JStr "id");
    ("Japan", JStr "jp");
    ("South Korea", JStr "kr");
    ("Sri Lanka", JStr "lk");
    ("Malaysia", JStr "my");
    ("New Zealand", JStr "nz");
    ("Pakistan", JStr "pk");
    ("Philippines", JStr "ph");
    ("Singapore", JStr "sg");
    ("Taiwan", JStr "tw");
    ("Thailand", JStr "th");
    ("Vietnam", JStr "vn")
  ].

(** [EconomicCalendarProps] *)
Record Props := {
  width : option Size;
  height : option Size;
  locale : option Locale;
  colorTheme : option ColorTheme;
  countries : option (list Country);
  autosize : option bool;
  showHighImportanceOnly : option bool;
  isTransparent : option bool;
  onError : option Callback;
}.

Module Merged.
Record t := {
  width : Size;
  height : Size;
  locale : Locale;
  colorTheme : ColorTheme;
  countries : list Country;
  autosize : bool;
  showHighImportanceOnly : bool;
  isTransparent : bool;
  onError : option Callback;
}.
End Merged.

Definition mergeProps (props : Props) : Merged.t :=
  {| Merged.width := default Full (width props);
     Merged.height := default Full (height props);
     Merged.locale := default en (locale props);
     Merged.colorTheme := default light (colorTheme props);
     Merged.countries := default [] (countries props);
     Merged.autosize := default true (autosize props);
     Merged.showHighImportanceOnly := default false (showHighImportanceOnly props);
     Merged.isTransparent := default false (isTransparent props);
     Merged.onError := onError props |}.

(** [const countries = () => new Array(...new Set(_props.countries))] *)
Definition countries_ (_props : Merged.t) : list Country :=
  Array_of_Set (Set_new (Merged.countries _props)).

(** [countries().map((country) => CountryMap[country]).join(",")] *)
Definition countryFilter (_props : Merged.t) : string :=
  join "," (map (λ country, get CountryMap (Country_str country)) (countries_ _props)).

Definition fullWidth (_props : Merged.t) : bool :=
  Merged.autosize _props || is_full (Merged.width _props).

Definition fullHeight (_props : Merged.t) : bool :=
  Merged.autosize _props || is_full (Merged.height _props).

Definition styles (_props : Merged.t) : gmap string string :=
  <["height" := if fullHeight _props then "100%"
                else ToString (Size_js (Merged.height _props)) +:+ "px"]>
    (<["width" := if fullWidth _props then "100%"
                  else ToString (Size_js (Merged.width _props)) +:+ "px"]> ∅).

Definition widgetConfig (_props : Merged.t) : JsObject :=
  object [
    ("autosize", JBool (Merged.autosize _props));
    ("width", if fullWidth _props then JStr "100%" else Size_js (Merged.width _props));
    ("height", if fullHeight _props then JStr "100%" else Size_js (Merged.height _props));
    ("locale", JStr (Locale_str (Merged.locale _props)));
    ("colorTheme", JStr (ColorTheme_str (Merged.colorTheme _props)));
    ("importanceFilter",
      JStr (if Merged.showHighImportanceOnly _props then "0,1" else "-1,0,1"));
    ("isTransparent", JBool (Merged.isTransparent _props));
    ("countryFilter", JStr (countryFilter _props))
  ].

(** The props that the effect reads while it runs.  [_props.width] and
    [_props.height] are read only when [_props.autosize] is false
    ([_props.autosize || _props.width === "full"] and
    [fullWidth ? "100%" : _props.width]); [_props.onError] is read after the
    [await]. *)
Definition reads (_props : Merged.t) : list (string * JsVal) :=
  ("autosize", JBool (Merged.autosize _props))
  :: (if Merged.autosize _props then []
      else [("width", Size_js (Merged.width _props));
            ("height", Size_js (Merged.height _props))])
  ++ [("locale", JStr (Locale_str (Merged.locale _props)));
      ("colorTheme", JStr (ColorTheme_str (Merged.colorTheme _props)));
      ("showHighImportanceOnly", JBool (Merged.showHighImportanceOnly _props));
      ("isTransparent", JBool (Merged.isTransparent _props));
      ("countries", JArr (map (λ country, JStr (Country_str country))
                            (Merged.countries _props)))].

Definition widget : Widget Merged.t :=
  {| widget_reads := reads;
     widget_styles := styles;
     widget_script :=
       "https://s3.tradingview.com/external-embedding/embed-widget-events.js";
     widget_config := widgetConfig;
     widget_onError := Merged.onError |}.

Definition payload (props : Props) : JsObject :=
  JSON_stringify (widgetConfig (mergeProps props)).

End EconomicCalendar.

(* ================================================================== *)
(** * SymbolOverview ([charts/SymbolOverview.tsx])                       *)
(* ================================================================== *)

Module SymbolOverview.

Inductive ScaleMode := normal | percentage | logarithmic.
Inductive ScalePosition := left | right | no.
Inductive ChartType := area | line | bar | candlestick.
Inductive ValueTrackingMode :=
  floating_tooltip | colored_tooltip | legend | scale_labels.
Inductive LineType := simple | curved | stepLine.
Inductive HeaderFontSize := small | medium | large.
Inductive ChangeMode := price_and_percent | price_only | percent_only | no_values.
Inductive TimeFormat := h12 | h24.

Definition ScaleMode_str (m : ScaleMode) : string :=
  match m with
  | normal => "normal" | percentage => "percentage" | logarithmic => "logarithmic"
  end.

Definition ScalePosition_str (p : ScalePosition) : string :=
  match p with left => "left" | right => "right" | no => "no" end.

Definition ChartType_str (t : ChartType) : string :=
  match t with
  | area => "area" | line => "line" | bar => "bar" | candlestick => "candlestick"
  end.

Definition ValueTrackingMode_str (m : ValueTrackingMode) : string :=
  match m with
  | floating_tooltip => "floating_tooltip" | colored_tooltip => "colored_tooltip"
  | legend => "legend" | scale_labels => "scale_labels"
  end.

Definition LineType_str (t : LineType) : string :=
  match t with simple => "simple" | curved => "curved" | stepLine => "stepLine" end.

Definition HeaderFontSize_str (s : HeaderFontSize) : string :=
  match s with small => "small" | medium => "medium" | large => "large" end.

Definition ChangeMode_str (m : ChangeMode) : string :=
  match m with
  | price_and_percent => "price-and-percent" | price_only => "price-only"
  | percent_only => "percent-only" | no_values => "no-values"
  end.

Definition TimeFormat_str (f : TimeFormat) : string :=
  match f with h12 => "12h" | h24 => "24h" end.

Record CompareSymbol := {
  cs_symbol : string;
  cs_lineColor : option string;
  cs_lineWidth : option Z;
  cs_showLabels : option bool;
}.

(** The default that the documentation of the prop [lineWidth] gives:
    "Line width for chart lines (default: 1)". *)
Definition documented_lineWidth : Z := 1.

Definition ScaleModeMap : JsObject :=
  object [
    ("normal", JStr "Normal");
    ("percentage", JStr "Percentage");
    ("logarithmic", JStr "Logarithmic")
  ].

Definition ChartTypeMap : JsObject :=
  object [
    ("area", JStr "area");
    ("line", JStr "line");
    ("bar", JStr "bars");
    ("candlestick", JStr "candlesticks")
  ].

Definition ValueTrackingModeMap : JsObject :=
  object [
    ("floating_tooltip", JStr "1");
    ("colored_tooltip", JStr "2");
    ("legend", JStr "3");
    ("scale_labels", JStr "0")
  ].

Definition LineTypeMap : JsObject :=
  object [
    ("simple", JNum 0);
    ("curved", JNum 2);
    ("stepLine", JNum 1)
  ].

Definition TimeFormatMap : JsObject :=
  object [
    ("12h", JStr "12-hours");
    ("24h", JStr "24-hours")
  ].

(** [SymbolOverviewProps] *)
Record Props := {
  symbols : list string;
  width : option Size;
  height : option Size;
  locale : option Locale;
  scaleMode : option ScaleMode;
  scalePosition : option ScalePosition;
  colorTheme : option ColorTheme;
  chartType : option ChartType;
  valueTrackingMode : option ValueTrackingMode;
  compareSymbol : option CompareSymbol;
  lineType : option LineType;
  headerFontSize : option HeaderFontSize;
  changeMode : option ChangeMode;
  timeFormat : option TimeFormat;
  lineWidth : option Z;
  fontSize : option Z;
  fontColor : option string;
  trendLineColor : option string;
  underLineColor : option string;
  underLineBottomColor : option string;
  autosize : option bool;
  isTransparent : option bool;
  showTimeScale : option bool;
  showHeader : option bool;
  color : option string;
  lineColor : option string;
  topColor : option string;
  bottomColor : option string;
  upColor : option string;
  downColor : option string;
  borderUpColor : option string;
  borderDownColor : option string;
  wickUpColor : option string;
  wickDownColor : option string;
  gridLineColor : option string;
  widgetFontColor : option string;
  backgroundColor : option string;
  showVolume : option bool;
  volumeUpColor : option string;
  volumeDownColor : option string;
  showDateRanges : option bool;
  showSymbolLogo : option bool;
  showMarketStatus : option bool;
  showMA : option bool;
  maLineColor : option string;
  maLineWidth : option Z;
  maLength : option Z;
  onError : option Callback;
}.

Module Merged.
Record t := {
  symbols : list string;
  width : Size;
  height : Size;
  locale : Locale;
  scaleMode : ScaleMode;
  scalePosition : ScalePosition;
  colorTheme : ColorTheme;
  chartType : ChartType;
  valueTrackingMode : ValueTrackingMode;
  compareSymbol : option CompareSymbol;
  lineType : LineType;
  headerFontSize : HeaderFontSize;
  changeMode : ChangeMode;
  timeFormat : TimeFormat;
  lineWidth : Z;
  fontSize : Z;
  fontColor : option string;
  trendLineColor : option string;
  underLineColor : option string;
  underLineBottomColor : option string;
  autosize : bool;
  isTransparent : bool;
  showTimeScale : bool;
  showHeader : bool;
  chartOnly : bool;
  color : option string;
  lineColor : option string;
  topColor : option string;
  bottomColor : option string;
  upColor : option string;
  downColor : option string;
  borderUpColor : option string;
  borderDownColor : option string;
  wickUpColor : option string;
  wickDownColor : option string;
  gridLineColor : option string;
  widgetFontColor : option string;
  backgroundColor : option string;
  showVolume : bool;
  volumeUpColor : option string;
  volumeDownColor : option string;
  showDateRanges : bool;
  showSymbolLogo : bool;
  showMarketStatus : bool;
  showMA : bool;
  maLineColor : string;
  maLineWidth : Z;
  maLength : Z;
  onError : option Callback;
}.
End Merged.

Definition mergeProps (props : Props) : Merged.t :=
  {| Merged.width := default Full (width props);
     Merged.height := default Full (height props);
     Merged.locale := default en (locale props);
     Merged.scaleMode := default normal (scaleMode props);
     Merged.scalePosition := default right (scalePosition props);
     Merged.colorTheme := default light (colorTheme props);
     Merged.chartType := default line (chartType props);
     Merged.valueTrackingMode := default floating_tooltip (valueTrackingMode props);
     Merged.lineType := default simple (lineType props);
     Merged.headerFontSize := default small (headerFontSize props);
     Merged.changeMode := default price_and_percent (changeMode props);
     Merged.timeFormat := default h12 (timeFormat props);
     Merged.lineWidth := default 2%Z (lineWidth props);
     Merged.showHeader := default true (showHeader props);
     Merged.showSymbolLogo := default true (showSymbolLogo props);
     Merged.showMarketStatus := default true (showMarketStatus props);
     Merged.showDateRanges := default true (showDateRanges props);
     Merged.fontSize := default 10%Z (fontSize props);
     Merged.autosize := default true (autosize props);
     Merged.showTimeScale := default true (showTimeScale props);
     Merged.isTransparent := default false (isTransparent props);
     Merged.chartOnly := false;
     Merged.showVolume := default false (showVolume props);
     Merged.showMA := default false (showMA props);
     Merged.maLineColor := default "blue" (maLineColor props);
     Merged.maLineWidth := default 1%Z (maLineWidth props);
     Merged.maLength := default 9%Z (maLength props);
     Merged.symbols := symbols props;
     Merged.compareSymbol := compareSymbol props;
     Merged.fontColor := fontColor props;
     Merged.trendLineColor := trendLineColor props;
     Merged.underLineColor := underLineColor props;
     Merged.underLineBottomColor := underLineBottomColor props;
     Merged.color := color props;
     Merged.lineColor := lineColor props;
     Merged.topColor := topColor props;
     Merged.bottomColor := bottomColor props;
     Merged.upColor := upColor props;
     Merged.downColor := downColor props;
     Merged.borderUpColor := borderUpColor props;
     Merged.borderDownColor := borderDownColor props;
     Merged.wickUpColor := wickUpColor props;
     Merged.wickDownColor := wickDownColor props;
     Merged.gridLineColor := gridLineColor props;
     Merged.widgetFontColor := widgetFontColor props;
     Merged.backgroundColor := backgroundColor props;
     Merged.volumeUpColor := volumeUpColor props;
     Merged.volumeDownColor := volumeDownColor props;
     Merged.onError := onError props |}.

Definition fullWidth (_props : Merged.t) : bool :=
  Merged.autosize _props || is_full (Merged.width _props).

Definition fullHeight (_props : Merged.t) : bool :=
  Merged.autosize _props || is_full (Merged.height _props).

Definition styles (_props : Merged.t) : gmap string string :=
  <["height" := if fullHeight _props then "100%"
                else ToString (Size_js (Merged.height _props)) +:+ "px"]>
    (<["width" := if fullWidth _props then "100%"
                  else ToString (Size_js (Merged.width _props)) +:+ "px"]> ∅).

(** The function mapped over [_props.symbols]:
    [const parts = symbol.split(":");
     const displayName = parts.length > 1 ? parts[1] : symbol;
     return [displayName, `${symbol}|1D`];] *)
Definition displayName (symbol : string) : JsVal :=
  let parts := split ":"%char symbol in
  if Nat.ltb 1 (length parts) then of_option JStr (parts !! 1%nat)
  else JStr symbol.

Definition symbol_entry (symbol : string) : JsVal :=
  JArr [displayName symbol; JStr (symbol +:+ "|1D")].

Definition widgetConfig (_props : Merged.t) : JsObject :=
  object [
    ("autosize", JBool (Merged.autosize _props));
    ("width", if fullWidth _props then JStr "100%" else Size_js (Merged.width _props));
    ("height", if fullHeight _props then JStr "100%" else Size_js (Merged.height _props));
    ("locale", JStr (Locale_str (Merged.locale _props)));
    ("noTimeScale", JBool (negb (Merged.showTimeScale _props)));
    ("colorTheme", JStr (ColorTheme_str (Merged.colorTheme _props)));
    ("scalePosition", JStr (ScalePosition_str (Merged.scalePosition _props)));
    ("scaleMode", get ScaleModeMap (ScaleMode_str (Merged.scaleMode _props)));
    ("lineWidth", JNum (Merged.lineWidth _props));
    ("lineType", get LineTypeMap (LineType_str (Merged.lineType _props)));
    ("chartType", get ChartTypeMap (ChartType_str (Merged.chartType _props)));
    ("valuesTracking",
      get ValueTrackingModeMap (ValueTrackingMode_str (Merged.valueTrackingMode _props)));
    ("timeHoursFormat", get TimeFormatMap (TimeFormat_str (Merged.timeFormat _props)));
    ("headerFontSize", JStr (HeaderFontSize_str (Merged.headerFontSize _props)));
    ("hideDateRanges", JBool (negb (Merged.showDateRanges _props)));
    ("hideMarketStatus", JBool (negb (Merged.showMarketStatus _props)));
    ("hideSymbolLogo", JBool (negb (Merged.showSymbolLogo _props)));
    ("fontSize", JNum (Merged.fontSize _props));
    ("fontColor", of_option JStr (Merged.fontColor _props));
    ("showVolume", JBool (Merged.showVolume _props));
    ("volumeUpColor", of_option JStr (Merged.volumeUpColor _props));
    ("volumeDownColor", of_option JStr (Merged.volumeDownColor _props));
    ("showMA", JBool (Merged.showMA _props));
    ("maLineColor", JStr (Merged.maLineColor _props));
    ("maLineWidth", JNum (Merged.maLineWidth _props));
    ("maLength", JNum (Merged.maLength _props));
    ("symbols", JArr (map symbol_entry (Merged.symbols _props)));
    ("chartOnly", JBool (negb (Merged.showHeader _props)));
    ("trendLineColor", of_option JStr (Merged.trendLineColor _props));
    ("underLineColor", of_option JStr (Merged.underLineColor _props));
    ("underLineBottomColor", of_option JStr (Merged.underLineBottomColor _props));
    ("isTransparent", JBool (Merged.isTransparent _props));
    ("color", of_option JStr (Merged.color _props));
    ("lineColor", of_option JStr (Merged.lineColor _props));
    ("topColor", of_option JStr (Merged.topColor _props));
    ("bottomColor", of_option JStr (Merged.bottomColor _props));
    ("upColor", of_option JStr (Merged.upColor _props));
    ("downColor", of_option JStr (Merged.downColor _props));
    ("borderUpColor", of_option JStr (Merged.borderUpColor _props));
    ("borderDownColor", of_option JStr (Merged.borderDownColor _props));
    ("wickUpColor", of_option JStr (Merged.wickUpColor _props));
    ("wickDownColor", of_option JStr (Merged.wickDownColor _props));
    ("gridLineColor", of_option JStr (Merged.gridLineColor _props));
    ("widgetFontColor", of_option JStr (Merged.widgetFontColor _props));
    ("backgroundColor", of_option JStr (Merged.backgroundColor _props));
    ("changeMode", JStr (ChangeMode_str (Merged.changeMode _props)));
    ("dateRanges",
      JArr [JStr "1d|1"; JStr "1m|30"; JStr "3m|60"; JStr "12m|1D";
            JStr "60m|1W"; JStr "all|1M"])
  ].

(** The props that the effect reads while it runs.  [_props.width] and
    [_props.height] are read only when [_props.autosize] is false
    ([_props.autosize || _props.width === "full"] and
    [fullWidth ? "100%" : _props.width]); [_props.onError] is read after the
    [await]. *)
Definition reads (_props : Merged.t) : list (string * JsVal) :=
  ("autosize", JBool (Merged.autosize _props))
  :: (if Merged.autosize _props then []
      else [("width", Size_js (Merged.width _props));
            ("height", Size_js (Merged.height _props))])
  ++ [("locale", JStr (Locale_str (Merged.locale _props)));
      ("showTimeScale", JBool (Merged.showTimeScale _props));
      ("colorTheme", JStr (ColorTheme_str (Merged.colorTheme _props)));
      ("scalePosition", JStr (ScalePosition_str (Merged.scalePosition _props)));
      ("scaleMode", JStr (ScaleMode_str (Merged.scaleMode _props)));
      ("lineWidth", JNum (Merged.lineWidth _props));
      ("lineType", JStr (LineType_str (Merged.lineType _props)));
      ("chartType", JStr (ChartType_str (Merged.chartType _props)));
      ("valueTrackingMode",
        JStr (ValueTrackingMode_str (Merged.valueTrackingMode _props)));
      ("timeFormat", JStr (TimeFormat_str (Merged.timeFormat _props)));
      ("headerFontSize", JStr (HeaderFontSize_str (Merged.headerFontSize _props)));
      ("showDateRanges", JBool (Merged.showDateRanges _props));
      ("showMarketStatus", JBool (Merged.showMarketStatus _props));
      ("showSymbolLogo", JBool (Merged.showSymbolLogo _props));
      ("fontSize", JNum (Merged.fontSize _props));
      ("fontColor", of_option JStr (Merged.fontColor _props));
      ("showVolume", JBool (Merged.showVolume _props));
      ("volumeUpColor", of_option JStr (Merged.volumeUpColor _props));
      ("volumeDownColor", of_option JStr (Merged.volumeDownColor _props));
      ("showMA", JBool (Merged.showMA _props));
      ("maLineColor", JStr (Merged.maLineColor _props));
      ("maLineWidth", JNum (Merged.maLineWidth _props));
      ("maLength", JNum (Merged.maLength _props));
      ("symbols", JArr (map JStr (Merged.symbols _props)));
      ("showHeader", JBool (Merged.showHeader _props));
      ("trendLineColor", of_option JStr (Merged.trendLineColor _props));
      ("underLineColor", of_option JStr (Merged.underLineColor _props));
      ("underLineBottomColor", of_option JStr (Merged.underLineBottomColor _props));
      ("isTransparent", JBool (Merged.isTransparent _props));
      ("color", of_option JStr (Merged.color _props));
      ("lineColor", of_option JStr (Merged.lineColor _props));
      ("topColor", of_option JStr (Merged.topColor _props));
      ("bottomColor", of_option JStr (Merged.bottomColor _props));
      ("upColor", of_option JStr (Merged.upColor _props));
      ("downColor", of_option JStr (Merged.downColor _props));
      ("borderUpColor", of_option JStr (Merged.borderUpColor _props));
      ("borderDownColor", of_option JStr (Merged.borderDownColor _props));
      ("wickUpColor", of_option JStr (Merged.wickUpColor _props));
      ("wickDownColor", of_option JStr (Merged.wickDownColor _props));
      ("gridLineColor", of_option JStr (Merged.gridLineColor _props));
      ("widgetFontColor", of_option JStr (Merged.widgetFontColor _props));
      ("backgroundColor", of_option JStr (Merged.backgroundColor _props));
      ("changeMode", JStr (ChangeMode_str (Merged.changeMode _props)))].

Definition widget : Widget Merged.t :=
  {| widget_reads := reads;
     widget_styles := styles;
     widget_script :=
       "https://s3.tradingview.com/external-embedding/embed-widget-symbol-overview.js";
     widget_config := widgetConfig;
     widget_onError := Merged.onError |}.

Definition payload (props : Props) : JsObject :=
  JSON_stringify (widgetConfig (mergeProps props)).

End SymbolOverview.

(* ================================================================== *)
(** * FundamentalData ([symbol/FundamentalData.tsx])                     *)
(* ================================================================== *)

Module FundamentalData.

Inductive FundamentalDataDisplayMode := adaptive | regular | compact.

Definition FundamentalDataDisplayMode_str (m : FundamentalDataDisplayMode) : string :=
  match m with
  | adaptive => "adaptive" | regular => "regular" | compact => "compact"
  end.

(** [FundamentalDataProps] *)
Record Props := {
  symbol : string;
  width : option Size;
  height : option Size;
  colorTheme : option ColorTheme;
  locale : option Locale;
  displayMode : option FundamentalDataDisplayMode;
  autosize : option bool;
  isTransparent : option bool;
  onError : option Callback;
}.

(** The default that the documentation of the prop [displayMode] gives:
    [@default "adaptive"]. *)
Definition documented_displayMode : FundamentalDataDisplayMode := adaptive.

Module Merged.
Record t := {
  symbol : string;
  width : Size;
  height : Size;
  locale : Locale;
  colorTheme : ColorTheme;
  displayMode : FundamentalDataDisplayMode;
  autosize : bool;
  isTransparent : bool;
  onError : option Callback;
}.
End Merged.

Definition mergeProps (props : Props) : Merged.t :=
  {| Merged.width := default Full (width props);
     Merged.height := default Full (height props);
     Merged.locale := default en (locale props);
     Merged.colorTheme := default light (colorTheme props);
     Merged.displayMode := default regular (displayMode props);
     Merged.autosize := default true (autosize props);
     Merged.isTransparent := default false (isTransparent props);
     Merged.symbol := symbol props;
     Merged.onError := onError props |}.

Definition fullWidth (_props : Merged.t) : bool :=
  Merged.autosize _props || is_full (Merged.width _props).

Definition fullHeight (_props : Merged.t) : bool :=
  Merged.autosize _props || is_full (Merged.height _props).

Definition styles (_props : Merged.t) : gmap string string :=
  <["height" := if fullHeight _props then "100%"
                else ToString (Size_js (Merged.height _props)) +:+ "px"]>
    (<["width" := if fullWidth _props then "100%"
                  else ToString (Size_js (Merged.width _props)) +:+ "px"]> ∅).

Definition widgetConfig (_props : Merged.t) : JsObject :=
  object [
    ("symbol", JStr (Merged.symbol _props));
    ("width", if fullWidth _props then JStr "100%" else Size_js (Merged.width _props));
    ("height", if fullHeight _props then JStr "100%" else Size_js (Merged.height _props));
    ("locale", JStr (Locale_str (Merged.locale _props)));
    ("colorTheme", JStr (ColorTheme_str (Merged.colorTheme _props)));
    ("displayMode", JStr (FundamentalDataDisplayMode_str (Merged.displayMode _props)));
    ("isTransparent", JBool (Merged.isTransparent _props))
  ].

(** The props that the effect reads while it runs.  [_props.width] and
    [_props.height] are read only when [_props.autosize] is false
    ([_props.autosize || _props.width === "full"] and
    [fullWidth ? "100%" : _props.width]); [_props.onError] is read after the
    [await]. *)
Definition reads (_props : Merged.t) : list (string * JsVal) :=
  ("autosize", JBool (Merged.autosize _props))
  :: (if Merged.autosize _props then []
      else [("width", Size_js (Merged.width _props));
            ("height", Size_js (Merged.height _props))])
  ++ [("symbol", JStr (Merged.symbol _props));
      ("locale", JStr (Locale_str (Merged.locale _props)));
      ("colorTheme", JStr (ColorTheme_str (Merged.colorTheme _props)));
      ("displayMode", JStr (FundamentalDataDisplayMode_str (Merged.displayMode _props)));
      ("isTransparent", JBool (Merged.isTransparent _props))].

Definition widget : Widget Merged.t :=
  {| widget_reads := reads;
     widget_styles := styles;
     widget_script :=
       "https://s3.tradingview.com/external-embedding/embed-widget-financials.js";
     widget_config := widgetConfig;
     widget_onError := Merged.onError |}.

Definition payload (props : Props) : JsObject :=
  JSON_stringify (widgetConfig (mergeProps props)).

End FundamentalData.

(* ================================================================== *)
(** * AdvancedChart ([charts/AdvancedChart.tsx]): the indicators         *)
(* ================================================================== *)

Module AdvancedChart.

Inductive AdvancedChartIndicator :=
  | volume24h | accumulationDistribution | advanceDeclineLine
  | advanceDeclineRatio | advanceDeclineRatioBars
  | arnaudLegouxMovingAverage | aroon | averageDayRange
  | averageDirectionalIndex | averageTrueRange | awesomeOscillator
  | balanceOfPower | bbTrend | bollingerBands | bollingerBandsPercentB
  | bollingerBandwidth | bollingerBars | bullBearPower | chaikinMoneyFlow
  | chaikinOscillator | chandeKrollStop | chandeMomentumOscillator
  | chopZone | choppinessIndex | commodityChannelIndex | connorsRsi
  | coppockCurve | correlationCoefficientBasic | correlationCoefficient
  | cumulativeVolumeDelta | cumulativeVolumeIndex
  | detrendedPriceOscillator | directionalMovementIndex
  | donchianChannels | doubleEma | easeOfMovement | elderForceIndex
  | envelope | fisherTransform | gaps | historicalVolatility
  | hullMovingAverage | ichimokuCloud | keltnerChannels
  | klingerOscillator | knowSureThing | leastSquaresMovingAverage
  | linearRegressionChannel | maCross | massIndex | mcginleyDynamic
  | median | momentum | moneyFlowIndex | moonPhases
  | movingAverageConvergenceDivergence | movingAverageExponential
  | movingAverageRibbon | movingAverageSimple | movingAverageWeighted
  | multiTimePeriodCharts | netVolume | onBalanceVolume | openInterest
  | parabolicSar | performance | pivotPointsHighLow | pivotPointsStandard
  | priceOscillator | priceTarget | priceVolumeTrendBasic
  | priceVolumeTrend | rankCorrelationIndex | rateOfChange | rciRibbon
  | relativeStrengthIndex | relativeVigorIndex | relativeVolatilityIndex
  | relativeVolumeAtTime | robBookerIntradayPivotPoints
  | robBookerKnoxvilleDivergence | robBookerMissedPivotPoints
  | robBookerReversal | robBookerZivGhostPivots | rsiDivergenceIndicator
  | seasonality | smiErgodicIndicator | smiErgodicOscillator
  | smoothedMovingAverage | stochastic | stochasticMomentumIndex
  | stochasticRsi | supertrend | technicalRatings
  | timeWeightedAveragePrice | tradingSessions | trendStrengthIndex
  | tripleEma | trix | trueStrengthIndex | ultimateOscillator
  | upDownVolume | visibleAveragePrice | volatilityStop | volume
  | volumeDelta | volumeOscillator | volumeWeightedAveragePrice
  | volumeWeightedMovingAverage | vortexIndicator | williamsAlligator
  | williamsFractals | williamsPercentRange | woodiesCci | zigZag.

Definition AdvancedChartIndicator_str (i : AdvancedChartIndicator) : string :=
  match i with
  | volume24h => "volume24h"
  | accumulationDistribution => "accumulationDistribution"
  | advanceDeclineLine => "advanceDeclineLine"
  | advanceDeclineRatio => "advanceDeclineRatio"
  | advanceDeclineRatioBars => "advanceDeclineRatioBars"
  | arnaudLegouxMovingAverage => "arnaudLegouxMovingAverage"
  | aroon => "aroon"
  | averageDayRange => "averageDayRange"
  | averageDirectionalIndex => "averageDirectionalIndex"
  | averageTrueRange => "averageTrueRange"
  | awesomeOscillator => "awesomeOscillator"
  | balanceOfPower => "balanceOfPower"
  | bbTrend => "bbTrend"
  | bollingerBands => "bollingerBands"
  | bollingerBandsPercentB => "bollingerBandsPercentB"
  | bollingerBandwidth => "bollingerBandwidth"
  | bollingerBars => "bollingerBars"
  | bullBearPower => "bullBearPower"
  | chaikinMoneyFlow => "chaikinMoneyFlow"
  | chaikinOscillator => "chaikinOscillator"
  | chandeKrollStop => "chandeKrollStop"
  | chandeMomentumOscillator => "chandeMomentumOscillator"
  | chopZone => "chopZone"
  | choppinessIndex => "choppinessIndex"
  | commodityChannelIndex => "commodityChannelIndex"
  | connorsRsi => "connorsRsi"
  | coppockCurve => "coppockCurve"
  | correlationCoefficientBasic => "correlationCoefficientBasic"
  | correlationCoefficient => "correlationCoefficient"
  | cumulativeVolumeDelta => "cumulativeVolumeDelta"
  | cumulativeVolumeIndex => "cumulativeVolumeIndex"
  | detrendedPriceOscillator => "detrendedPriceOscillator"
  | directionalMovementIndex => "directionalMovementIndex"
  | donchianChannels => "donchianChannels"
  | doubleEma => "doubleEma"
  | easeOfMovement => "easeOfMovement"
  | elderForceIndex => "elderForceIndex"
  | envelope => "envelope"
  | fisherTransform => "fisherTransform"
  | gaps => "gaps"
  | historicalVolatility => "historicalVolatility"
  | hullMovingAverage => "hullMovingAverage"
  | ichimokuCloud => "ichimokuCloud"
  | keltnerChannels => "keltnerChannels"
  | klingerOscillator => "klingerOscillator"
  | knowSureThing => "knowSureThing"
  | leastSquaresMovingAverage => "leastSquaresMovingAverage"
  | linearRegressionChannel => "linearRegressionChannel"
  | maCross => "maCross"
  | massIndex => "massIndex"
  | mcginleyDynamic => "mcginleyDynamic"
  | median => "median"
  | momentum => "momentum"
  | moneyFlowIndex => "moneyFlowIndex"
  | moonPhases => "moonPhases"
  | movingAverageConvergenceDivergence => "movingAverageConvergenceDivergence"
  | movingAverageExponential => "movingAverageExponential"
  | movingAverageRibbon => "movingAverageRibbon"
  | movingAverageSimple => "movingAverageSimple"
  | movingAverageWeighted => "movingAverageWeighted"
  | multiTimePeriodCharts => "multiTimePeriodCharts"
  | netVolume => "netVolume"
  | onBalanceVolume => "onBalanceVolume"
  | openInterest => "openInterest"
  | parabolicSar => "parabolicSar"
  | performance => "performance"
  | pivotPointsHighLow => "pivotPointsHighLow"
  | pivotPointsStandard => "pivotPointsStandard"
  | priceOscillator => "priceOscillator"
  | priceTarget => "priceTarget"
  | priceVolumeTrendBasic => "priceVolumeTrendBasic"
  | priceVolumeTrend => "priceVolumeTrend"
  | rankCorrelationIndex => "rankCorrelationIndex"
  | rateOfChange => "rateOfChange"
  | rciRibbon => "rciRibbon"
  | relativeStrengthIndex => "relativeStrengthIndex"
  | relativeVigorIndex => "relativeVigorIndex"
  | relativeVolatilityIndex => "relativeVolatilityIndex"
  | relativeVolumeAtTime => "relativeVolumeAtTime"
  | robBookerIntradayPivotPoints => "robBookerIntradayPivotPoints"
  | robBookerKnoxvilleDivergence => "robBookerKnoxvilleDivergence"
  | robBookerMissedPivotPoints => "robBookerMissedPivotPoints"
  | robBookerReversal => "robBookerReversal"
  | robBookerZivGhostPivots => "robBookerZivGhostPivots"
  | rsiDivergenceIndicator => "rsiDivergenceIndicator"
  | seasonality => "seasonality"
  | smiErgodicIndicator => "smiErgodicIndicator"
  | smiErgodicOscillator => "smiErgodicOscillator"
  | smoothedMovingAverage => "smoothedMovingAverage"
  | stochastic => "stochastic"
  | stochasticMomentumIndex => "stochasticMomentumIndex"
  | stochasticRsi => "stochasticRsi"
  | supertrend => "supertrend"
  | technicalRatings => "technicalRatings"
  | timeWeightedAveragePrice => "timeWeightedAveragePrice"
  | tradingSessions => "tradingSessions"
  | trendStrengthIndex => "trendStrengthIndex"
  | tripleEma => "tripleEma"
  | trix => "trix"
  | trueStrengthIndex => "trueStrengthIndex"
  | ultimateOscillator => "ultimateOscillator"
  | upDownVolume => "upDownVolume"
  | visibleAveragePrice => "visibleAveragePrice"
  | volatilityStop => "volatilityStop"
  | volume => "volume"
  | volumeDelta => "volumeDelta"
  | volumeOscillator => "volumeOscillator"
  | volumeWeightedAveragePrice => "volumeWeightedAveragePrice"
  | volumeWeightedMovingAverage => "volumeWeightedMovingAverage"
  | vortexIndicator => "vortexIndicator"
  | williamsAlligator => "williamsAlligator"
  | williamsFractals => "williamsFractals"
  | williamsPercentRange => "williamsPercentRange"
  | woodiesCci => "woodiesCci"
  | zigZag => "zigZag"
  end.

Definition AdvancedChartIndicator_values : list AdvancedChartIndicator :=
  [volume24h; accumulationDistribution; advanceDeclineLine;
   advanceDeclineRatio; advanceDeclineRatioBars;
   arnaudLegouxMovingAverage; aroon; averageDayRange;
   averageDirectionalIndex; averageTrueRange; awesomeOscillator;
   balanceOfPower; bbTrend; bollingerBands; bollingerBandsPercentB;
   bollingerBandwidth; bollingerBars; bullBearPower; chaikinMoneyFlow;
   chaikinOscillator; chandeKrollStop; chandeMomentumOscillator;
   chopZone; choppinessIndex; commodityChannelIndex; connorsRsi;
   coppockCurve; correlationCoefficientBasic; correlationCoefficient;
   cumulativeVolumeDelta; cumulativeVolumeIndex;
   detrendedPriceOscillator; directionalMovementIndex; donchianChannels;
   doubleEma; easeOfMovement; elderForceIndex; envelope; fisherTransform;
   gaps; historicalVolatility; hullMovingAverage; ichimokuCloud;
   keltnerChannels; klingerOscillator; knowSureThing;
   leastSquaresMovingAverage; linearRegressionChannel; maCross;
   massIndex; mcginleyDynamic; median; momentum; moneyFlowIndex;
   moonPhases; movingAverageConvergenceDivergence;
   movingAverageExponential; movingAverageRibbon; movingAverageSimple;
   movingAverageWeighted; multiTimePeriodCharts; netVolume;
   onBalanceVolume; openInterest; parabolicSar; performance;
   pivotPointsHighLow; pivotPointsStandard; priceOscillator; priceTarget;
   priceVolumeTrendBasic; priceVolumeTrend; rankCorrelationIndex;
   rateOfChange; rciRibbon; relativeStrengthIndex; relativeVigorIndex;
   relativeVolatilityIndex; relativeVolumeAtTime;
   robBookerIntradayPivotPoints; robBookerKnoxvilleDivergence;
   robBookerMissedPivotPoints; robBookerReversal;
   robBookerZivGhostPivots; rsiDivergenceIndicator; seasonality;
   smiErgodicIndicator; smiErgodicOscillator; smoothedMovingAverage;
   stochastic; stochasticMomentumIndex; stochasticRsi; supertrend;
   technicalRatings; timeWeightedAveragePrice; tradingSessions;
   trendStrengthIndex; tripleEma; trix; trueStrengthIndex;
   ultimateOscillator; upDownVolume; visibleAveragePrice; volatilityStop;
   volume; volumeDelta; volumeOscillator; volumeWeightedAveragePrice;
   volumeWeightedMovingAverage; vortexIndicator; williamsAlligator;
   williamsFractals; williamsPercentRange; woodiesCci; zigZag].

Definition IndicatorMap : JsObject :=
  object [
    ("volume24h", JStr "STD;24h%Volume");
    ("accumulationDistribution", JStr "STD;Accumulation_Distribution");
    ("advanceDeclineLine", JStr "STD;Advance%1Decline%1Line");
    ("advanceDeclineRatio", JStr "STD;Advance%1Decline%1Ratio");
    ("advanceDeclineRatioBars", JStr "STD;Advance_Decline_Ratio_Bars");
    ("arnaudLegouxMovingAverage", JStr "STD;Arnaud%1Legoux%1Moving%1Average");
    ("aroon", JStr "STD;Aroon");
    ("averageDayRange", JStr "STD;Average%Day%Range");
    ("averageDirectionalIndex", JStr "STD;Average%1Directional%1Index");
    ("averageTrueRange", JStr "STD;Average_True_Range");
    ("awesomeOscillator", JStr "STD;Awesome_Oscillator");
    ("balanceOfPower", JStr "STD;Balance%1of%1Power");
    ("bbTrend", JStr "STD;BBTrend");
    ("bollingerBands", JStr "STD;Bollinger_Bands");
    ("bollingerBandsPercentB", JStr "STD;Bollinger_Bands_B");
    ("bollingerBandwidth", JStr "STD;Bollinger_Bands_Width");
    ("bollingerBars", JStr "STD;Bollinger%1Bars");
    ("bullBearPower", JStr "STD;Bull%Bear%Power");
    ("chaikinMoneyFlow", JStr "STD;Chaikin_Money_Flow");
    ("chaikinOscillator", JStr "STD;Chaikin_Oscillator");
    ("chandeKrollStop", JStr "STD;Chande%1Kroll%1Stop");
    ("chandeMomentumOscillator", JStr "STD;Chande_Momentum_Oscillator");
    ("chopZone", JStr "STD;Chop%1Zone");
    ("choppinessIndex", JStr "STD;Choppiness_Index");
    ("commodityChannelIndex", JStr "STD;CCI");
    ("connorsRsi", JStr "STD;Connors_RSI");
    ("coppockCurve", JStr "STD;Coppock%1Curve");
    ("correlationCoefficientBasic", JStr "CorrelationCoefficient@tv-basicstudies");
    ("correlationCoefficient", JStr "STD;Correlation_Coeff");
    ("cumulativeVolumeDelta", JStr "STD;Cumulative%1Volume%1Delta");
    ("cumulativeVolumeIndex", JStr "STD;Cumulative%1Volume%1Index");
    ("detrendedPriceOscillator", JStr "STD;DPO");
    ("directionalMovementIndex", JStr "STD;DMI");
    ("donchianChannels", JStr "STD;Donchian_Channels");
    ("doubleEma", JStr "STD;DEMA");
    ("easeOfMovement", JStr "STD;EOM");
    ("elderForceIndex", JStr "STD;EFI");
    ("envelope", JStr "STD;ENV");
    ("fisherTransform", JStr "STD;Fisher_Transform");
    ("gaps", JStr "STD;Gaps");
    ("historicalVolatility", JStr "STD;Historical_Volatility");
    ("hullMovingAverage", JStr "STD;Hull%1MA");
    ("ichimokuCloud", JStr "STD;Ichimoku%1Cloud");
    ("keltnerChannels", JStr "STD;Keltner_Channels");
    ("klingerOscillator", JStr "STD;Klinger%1Oscillator");
    ("knowSureThing", JStr "STD;Know_Sure_Thing");
    ("leastSquaresMovingAverage", JStr "STD;Least%1Squares%1Moving%1Average");
    ("linearRegressionChannel", JStr "STD;Linear_Regression");
    ("maCross", JStr "STD;MA%1Cross");
    ("massIndex", JStr "STD;Mass%1Index");
    ("mcginleyDynamic", JStr "STD;McGinley%1Dynamic");
    ("median", JStr "STD;Median");
    ("momentum", JStr "STD;Momentum");
    ("moneyFlowIndex", JStr "STD;Money_Flow");
    ("moonPhases", JStr "MoonPhases@tv-basicstudies");
    ("movingAverageConvergenceDivergence", JStr "STD;MACD");
    ("movingAverageExponential", JStr "STD;EMA");
    ("movingAverageRibbon", JStr "STD;MA%Ribbon");
    ("movingAverageSimple", JStr "STD;SMA");
    ("movingAverageWeighted", JStr "STD;WMA");
    ("multiTimePeriodCharts", JStr "STD;Multi-Time%Period%Charts");
    ("netVolume", JStr "STD;Net%1Volume");
    ("onBalanceVolume", JStr "STD;On_Balance_Volume");
    ("openInterest", JStr "STD;Open%Interest");
    ("parabolicSar", JStr "STD;PSAR");
    ("performance", JStr "STD;Performance");
    ("pivotPointsHighLow", JStr "STD;Pivot%1Points%1High%1Low");
    ("pivotPointsStandard", JStr "STD;Pivot%1Points%1Standard");
    ("priceOscillator", JStr "STD;Price_Oscillator");
    ("priceTarget", JStr "STD;Price%1Target");
    ("priceVolumeTrendBasic", JStr "PriceVolumeTrend@tv-basicstudies");
    ("priceVolumeTrend", JStr "STD;Price_Volume_Trend");
    ("rankCorrelationIndex", JStr "STD;Rank_Correlation_Index");
    ("rateOfChange", JStr "STD;ROC");
    ("rciRibbon", JStr "STD;RCI_Ribbon");
    ("relativeStrengthIndex", JStr "STD;RSI");
    ("relativeVigorIndex", JStr "STD;Relative_Vigor_Index");
    ("relativeVolatilityIndex", JStr "STD;Relative_Volatility_Index");
    ("relativeVolumeAtTime", JStr "STD;Relative%1Volume%1at%1Time");
    ("robBookerIntradayPivotPoints", JStr "BookerIntradayPivots@tv-basicstudies");
    ("robBookerKnoxvilleDivergence", JStr "BookerKnoxvilleDivergence@tv-basicstudies");
    ("robBookerMissedPivotPoints", JStr "BookerMissedPivots@tv-basicstudies");
    ("robBookerReversal", JStr "BookerReversal@tv-basicstudies");
    ("robBookerZivGhostPivots", JStr "STD;Rob%1Booker%1Ghost%1Pivots%1v2");
    ("rsiDivergenceIndicator", JStr "STD;Divergence%1Indicator");
    ("seasonality", JStr "STD;Seasonality");
    ("smiErgodicIndicator", JStr "STD;SMI_Ergodic_Indicator_Oscillator");
    ("smiErgodicOscillator", JStr "STD;SMI_Ergodic_Oscillator");
    ("smoothedMovingAverage", JStr "STD;Smoothed%1Moving%1Average");
    ("stochastic", JStr "STD;Stochastic");
    ("stochasticMomentumIndex", JStr "STD;SMI");
    ("stochasticRsi", JStr "STD;Stochastic_RSI");
    ("supertrend", JStr "STD;Supertrend");
    ("technicalRatings", JStr "STD;Technical%1Ratings");
    ("timeWeightedAveragePrice", JStr "STD;Time%1Weighted%1Average%1Price");
    ("tradingSessions", JStr "STD;Trading%1Sessions");
    ("trendStrengthIndex", JStr "STD;Trend%1Strength%1Index");
    ("tripleEma", JStr "STD;TEMA");
    ("trix", JStr "STD;TRIX");
    ("trueStrengthIndex", JStr "STD;True%1Strength%1Indicator");
    ("ultimateOscillator", JStr "STD;Ultimate_Oscillator");
    ("upDownVolume", JStr "STD;UP_DOWN_Volume");
    ("visibleAveragePrice", JStr "STD;Visible%1Average%1Price");
    ("volatilityStop", JStr "STD;Volatility_Stop");
    ("volume", JStr "Volume@tv-basicstudies");
    ("volumeDelta", JStr "STD;Volume%1Delta");
    ("volumeOscillator", JStr "STD;Volume%1Oscillator");
    ("volumeWeightedAveragePrice", JStr "STD;VWAP");
    ("volumeWeightedMovingAverage", JStr "STD;VWMA");
    ("vortexIndicator", JStr "STD;Vortex%1Indicator");
    ("williamsAlligator", JStr "STD;Williams_Alligator");
    ("williamsFractals", JStr "STD;Whilliams_Fractals");
    ("williamsPercentRange", JStr "STD;Willams_R");
    ("woodiesCci", JStr "STD;Woodies%1CCI");
    ("zigZag", JStr "STD;Zig_Zag")
  ].

(** [studies: _props.indicators.map((indicator) => IndicatorMap[indicator])] *)
Definition studies (indicators : list AdvancedChartIndicator) : JsVal :=
  JArr (map (λ indicator, get IndicatorMap (AdvancedChartIndicator_str indicator))
            indicators).

End AdvancedChart.

(* ================================================================== *)
(** * Screener ([screeners/Screener.tsx])                                *)
(* ================================================================== *)

Module Screener.

Inductive ScreenerExchange :=
  | america | argentina | brazil | canada | chile | colombia | mexico
  | venezuela | australia | austria | cyprus | czech | denmark | estonia
  | finland | germany | greece | hungary | iceland | italy | latvia
  | lithuania | poland | russia | spain | switzerland | china | india
  | indonesia | israel | kuwait | srilanka | taiwan | turkey | uae
  | vietnam | egypt | morocco | rsa | forex | crypto.

Definition ScreenerExchange_str (exchange : ScreenerExchange) : string :=
  match exchange with
  | america => "america" | argentina => "argentina" | brazil => "brazil"
  | canada => "canada" | chile => "chile" | colombia => "colombia"
  | mexico => "mexico" | venezuela => "venezuela"
  | australia => "australia" | austria => "austria" | cyprus => "cyprus"
  | czech => "czech" | denmark => "denmark" | estonia => "estonia"
  | finland => "finland" | germany => "germany" | greece => "greece"
  | hungary => "hungary" | iceland => "iceland" | italy => "italy"
  | latvia => "latvia" | lithuania => "lithuania" | poland => "poland"
  | russia => "russia" | spain => "spain" | switzerland => "switzerland"
  | china => "china" | india => "india" | indonesia => "indonesia"
  | israel => "israel" | kuwait => "kuwait" | srilanka => "srilanka"
  | taiwan => "taiwan" | turkey => "turkey" | uae => "uae"
  | vietnam => "vietnam" | egypt => "egypt" | morocco => "morocco"
  | rsa => "rsa" | forex => "forex" | crypto => "crypto"
  end.

Definition ALL_COLUMNS : list string :=
  ["overview"; "performance"; "valuation"; "dividends"; "margins";
   "income_statement"; "balance_sheet"; "oscillators"; "moving_averages"].

Definition SUB_COLUMNS : list string :=
  ["overview"; "performance"; "oscillators"; "moving_averages"].

Definition ALL_SCREENS : list string :=
  ["most_capitalized"; "volume_leaders"; "top_gainers"; "top_losers"; "ath";
   "atl"; "high_dividend"; "above_52wk_high"; "below_52wk_low";
   "monthly_high"; "monthly_low"; "most_volatile"; "unusual_volume";
   "overbought"; "oversold"; "outperforming_SMA50"; "underperforming_SMA50";
   "earnings_this_week"].

Definition SUB_SCREENS : list string :=
  ["general"; "top_gainers"; "top_losers"; "ath"; "atl"; "above_52wk_high";
   "below_52wk_low"; "monthly_high"; "monthly_low"; "most_volatile";
   "overbought"; "oversold"; "outperforming_SMA50"; "underperforming_SMA50"].

(** An object literal whose values are arrays of strings. *)
Definition record (properties : list (string * list string)) :
    gmap string (list string) :=
  foldl (λ o kv, <[kv.1 := kv.2]> o) ∅ properties.

(** [ScreenerColumnViews: Record<ScreenerExchange, ScreenerColumns>] *)
Definition ScreenerColumnViews : gmap string (list string) :=
  record [
    ("america", ALL_COLUMNS);
    ("argentina", ALL_COLUMNS);
    ("australia", ALL_COLUMNS);
    ("austria", ALL_COLUMNS);
    ("brazil", ALL_COLUMNS);
    ("canada", ALL_COLUMNS);
    ("chile", ALL_COLUMNS);
    ("colombia", ALL_COLUMNS);
    ("cyprus", ALL_COLUMNS);
    ("czech", ALL_COLUMNS);
    ("denmark", ALL_COLUMNS);
    ("egypt", ALL_COLUMNS);
    ("estonia", ALL_COLUMNS);
    ("finland", ALL_COLUMNS);
    ("germany", ALL_COLUMNS);
    ("greece", ALL_COLUMNS);
    ("hungary", ALL_COLUMNS);
    ("iceland", ALL_COLUMNS);
    ("india", ALL_COLUMNS);
    ("indonesia", ALL_COLUMNS);
    ("israel", ALL_COLUMNS);
    ("italy", ALL_COLUMNS);
    ("kuwait", ALL_COLUMNS);
    ("latvia", ALL_COLUMNS);
    ("lithuania", ALL_COLUMNS);
    ("china", ALL_COLUMNS);
    ("mexico", ALL_COLUMNS);
    ("morocco", ALL_COLUMNS);
    ("poland", ALL_COLUMNS);
    ("russia", ALL_COLUMNS);
    ("rsa", ALL_COLUMNS);
    ("spain", ALL_COLUMNS);
    ("srilanka", ALL_COLUMNS);
    ("switzerland", ALL_COLUMNS);
    ("taiwan", ALL_COLUMNS);
    ("turkey", ALL_COLUMNS);
    ("uae", ALL_COLUMNS);
    ("venezuela", ALL_COLUMNS);
    ("vietnam", ALL_COLUMNS);
    ("forex", SUB_COLUMNS);
    ("crypto", SUB_COLUMNS)
  ].

(** [ScreenerScreenViews: Record<ScreenerExchange, ScreenerScreens>] *)
Definition ScreenerScreenViews : gmap string (list string) :=
  record [
    ("america", ALL_SCREENS);
    ("argentina", ALL_SCREENS);
    ("australia", ALL_SCREENS);
    ("austria", ALL_SCREENS);
    ("brazil", ALL_SCREENS);
    ("canada", ALL_SCREENS);
    ("chile", ALL_SCREENS);
    ("colombia", ALL_SCREENS);
    ("cyprus", ALL_SCREENS);
    ("czech", ALL_SCREENS);
    ("denmark", ALL_SCREENS);
    ("egypt", ALL_SCREENS);
    ("estonia", ALL_SCREENS);
    ("finland", ALL_SCREENS);
    ("germany", ALL_SCREENS);
    ("greece", ALL_SCREENS);
    ("hungary", ALL_SCREENS);
    ("iceland", ALL_SCREENS);
    ("india", ALL_SCREENS);
    ("indonesia", ALL_SCREENS);
    ("israel", ALL_SCREENS);
    ("italy", ALL_SCREENS);
    ("kuwait", ALL_SCREENS);
    ("latvia", ALL_SCREENS);
    ("lithuania", ALL_SCREENS);
    ("china", ALL_SCREENS);
    ("mexico", ALL_SCREENS);
    ("morocco", ALL_SCREENS);
    ("poland", ALL_SCREENS);
    ("russia", ALL_SCREENS);
    ("rsa", ALL_SCREENS);
    ("spain", ALL_SCREENS);
    ("srilanka", ALL_SCREENS);
    ("switzerland", ALL_SCREENS);
    ("taiwan", ALL_SCREENS);
    ("turkey", ALL_SCREENS);
    ("uae", ALL_SCREENS);
    ("venezuela", ALL_SCREENS);
    ("vietnam", ALL_SCREENS);
    ("forex", SUB_SCREENS);
    ("crypto", SUB_SCREENS)
  ].

(** [ScreenerProps<E>].  The types of [defaultColumnView] and
    [defaultScreenView] are the members of the exchange's entries of the two
    tables; at run time they are strings. *)
Record Props := {
  width : option Size;
  height : option Size;
  colorTheme : option ColorTheme;
  locale : option Locale;
  exchange : option ScreenerExchange;
  defaultColumnView : option string;
  defaultScreenView : option string;
  autosize : option bool;
  isTransparent : option bool;
  showTopToolbar : option bool;
  onError : option Callback;
}.

Module Merged.
Record t := {
  width : Size;
  height : Size;
  locale : Locale;
  colorTheme : ColorTheme;
  exchange : ScreenerExchange;
  defaultColumnView : string;
  defaultScreenView : string;
  autosize : bool;
  isTransparent : bool;
  showTopToolbar : bool;
  onError : option Callback;
}.
End Merged.

Definition mergeProps (props : Props) : Merged.t :=
  {| Merged.width := default Full (width props);
     Merged.height := default Full (height props);
     Merged.locale := default en (locale props);
     Merged.colorTheme := default light (colorTheme props);
     Merged.exchange := default america (exchange props);
     Merged.defaultColumnView := default "overview" (defaultColumnView props);
     Merged.defaultScreenView := default "most_capitalized" (defaultScreenView props);
     Merged.autosize := default true (autosize props);
     Merged.isTransparent := default false (isTransparent props);
     Merged.showTopToolbar := default true (showTopToolbar props);
     Merged.onError := onError props |}.

Definition fullWidth (_props : Merged.t) : bool :=
  Merged.autosize _props || is_full (Merged.width _props).

Definition fullHeight (_props : Merged.t) : bool :=
  Merged.autosize _props || is_full (Merged.height _props).

Definition styles (_props : Merged.t) : gmap string string :=
  <["height" := if fullHeight _props then "100%"
                else ToString (Size_js (Merged.height _props)) +:+ "px"]>
    (<["width" := if fullWidth _props then "100%"
                  else ToString (Size_js (Merged.width _props)) +:+ "px"]> ∅).

Definition widgetConfig (_props : Merged.t) : JsObject :=
  object [
    ("width", if fullWidth _props then JStr "100%" else Size_js (Merged.width _props));
    ("height", if fullHeight _props then JStr "100%" else Size_js (Merged.height _props));
    ("locale", JStr (Locale_str (Merged.locale _props)));
    ("colorTheme", JStr (ColorTheme_str (Merged.colorTheme _props)));
    ("isTransparent", JBool (Merged.isTransparent _props));
    ("showTopToolbar", JBool (Merged.showTopToolbar _props));
    ("market", JStr (ScreenerExchange_str (Merged.exchange _props)));
    ("defaultColumn", JStr (Merged.defaultColumnView _props));
    ("defaultScreen", JStr (Merged.defaultScreenView _props))
  ].

(** The props that the effect reads while it runs.  [_props.width] and
    [_props.height] are read only when [_props.autosize] is false
    ([_props.autosize || _props.width === "full"] and
    [fullWidth ? "100%" : _props.width]); [_props.onError] is read after the
    [await]. *)
Definition reads (_props : Merged.t) : list (string * JsVal) :=
  ("autosize", JBool (Merged.autosize _props))
  :: (if Merged.autosize _props then []
      else [("width", Size_js (Merged.width _props));
            ("height", Size_js (Merged.height _props))])
  ++ [("locale", JStr (Locale_str (Merged.locale _props)));
      ("colorTheme", JStr (ColorTheme_str (Merged.colorTheme _props)));
      ("isTransparent", JBool (Merged.isTransparent _props));
      ("showTopToolbar", JBool (Merged.showTopToolbar _props));
      ("exchange", JStr (ScreenerExchange_str (Merged.exchange _props)));
      ("defaultColumnView", JStr (Merged.defaultColumnView _props));
      ("defaultScreenView", JStr (Merged.defaultScreenView _props))].

Definition widget : Widget Merged.t :=
  {| widget_reads := reads;
     widget_styles := styles;
     widget_script :=
       "https://s3.tradingview.com/external-embedding/embed-widget-screener.js";
     widget_config := widgetConfig;
     widget_onError := Merged.onError |}.

Definition payload (props : Props) : JsObject :=
  JSON_stringify (widgetConfig (mergeProps props)).

End Screener.

(* ================================================================== *)
(** * The playground pages that drive the components                    *)
(* ================================================================== *)

Module Playground.

(** [playground/pages/EconomicCalendarTest.tsx] *)
Module EconomicCalendarTest.

Definition COUNTRY_GROUPS : list (string * list EconomicCalendar.Country) :=
  [ ("G7 Countries",
      [EconomicCalendar.UnitedStates; EconomicCalendar.Japan;
       EconomicCalendar.Germany; EconomicCalendar.UnitedKingdom;
       EconomicCalendar.France; EconomicCalendar.Italy;
       EconomicCalendar.Canada]);
    ("BRICS",
      [EconomicCalendar.Brazil; EconomicCalendar.Russia;
       EconomicCalendar.India; EconomicCalendar.China;
       EconomicCalendar.SouthAfrica]);
    ("European Union",
      [EconomicCalendar.Germany; EconomicCalendar.France;
       EconomicCalendar.Italy; EconomicCalendar.Spain;
       EconomicCalendar.Netherlands; EconomicCalendar.Belgium;
       EconomicCalendar.Austria]);
    ("Asia-Pacific",
      [EconomicCalendar.China; EconomicCalendar.Japan;
       EconomicCalendar.SouthKorea; EconomicCalendar.Australia;
       EconomicCalendar.India; EconomicCalendar.Singapore;
       EconomicCalendar.HongKong]);
    ("Latin America",
      [EconomicCalendar.Brazil; EconomicCalendar.Mexico;
       EconomicCalendar.Argentina; EconomicCalendar.Chile;
       EconomicCalendar.Colombia; EconomicCalendar.Peru]) ].

(** The signals of the page that the main preview reads. *)
Record Signals := {
  selectedCountries : list EconomicCalendar.Country;
  colorTheme : ColorTheme;
  width : Size;
  height : Size;
  autosize : bool;
  showHighImportanceOnly : bool;
  isTransparent : bool;
}.

(** The values given to [createSignal]. *)
Definition initial : Signals :=
  {| selectedCountries := []; colorTheme := light; width := Full;
     height := Full; autosize := true; showHighImportanceOnly := false;
     isTransparent := false |}.

Definition setSelectedCountries (countries : list EconomicCalendar.Country)
    (s : Signals) : Signals :=
  {| selectedCountries := countries; colorTheme := colorTheme s;
     width := width s; height := height s; autosize := autosize s;
     showHighImportanceOnly := showHighImportanceOnly s;
     isTransparent := isTransparent s |}.

Definition toggleCountry (country : EconomicCalendar.Country) (s : Signals) :
    Signals :=
  let current := selectedCountries s in
  if decide (country ∈ current)
  then setSelectedCountries (filter (λ c, c ≠ country) current) s
  else setSelectedCountries (current ++ [country]) s.

Definition setCountryGroup (countries : list EconomicCalendar.Country)
    (s : Signals) : Signals :=
  setSelectedCountries countries s.

Definition clearCountries (s : Signals) : Signals := setSelectedCountries [] s.

(** What the visitor of the page can click on; the buttons of the groups
    are rendered from [COUNTRY_GROUPS]. *)
Inductive Click :=
  | ToggleCountry (country : EconomicCalendar.Country)
  | SetCountryGroup (group : string * list EconomicCalendar.Country)
  | ClearCountries.

Definition click (s : Signals) (c : Click) : Signals :=
  match c with
  | ToggleCountry country => toggleCountry country s
  | SetCountryGroup group => setCountryGroup group.2 s
  | ClearCountries => clearCountries s
  end.

(** The page has a button for the click. *)
Definition rendered_button (c : Click) : Prop :=
  match c with
  | SetCountryGroup group => group ∈ COUNTRY_GROUPS
  | _ => True
  end.

(** The props of the main preview:
    [<EconomicCalendar countries={selectedCountries()} ... />]. *)
Definition preview (s : Signals) : EconomicCalendar.Props :=
  {| EconomicCalendar.countries := Some (selectedCountries s);
     EconomicCalendar.showHighImportanceOnly := Some (showHighImportanceOnly s);
     EconomicCalendar.colorTheme := Some (colorTheme s);
     EconomicCalendar.width := Some (width s);
     EconomicCalendar.height := Some (height s);
     EconomicCalendar.autosize := Some (autosize s);
     EconomicCalendar.isTransparent := Some (isTransparent s);
     EconomicCalendar.locale := None;
     EconomicCalendar.onError := None |}.

End EconomicCalendarTest.

(** [playground/pages/ScreenerTest.tsx] *)
Module ScreenerTest.

Record Signals := {
  exchange : Screener.ScreenerExchange;
  colorTheme : ColorTheme;
  width : Size;
  height : Size;
  autosize : bool;
  isTransparent : bool;
  showTopToolbar : bool;
  defaultColumnView : option string;    (* [undefined] when [None] *)
  defaultScreenView : string;
}.

Definition initial : Signals :=
  {| exchange := Screener.america; colorTheme := light; width := Full;
     height := Full; autosize := true; isTransparent := false;
     showTopToolbar := true; defaultColumnView := Some "overview";
     defaultScreenView := "most_capitalized" |}.

Definition availableColumns (s : Signals) : option (list string) :=
  Screener.ScreenerColumnViews !! Screener.ScreenerExchange_str (exchange s).

Definition availableScreens (s : Signals) : option (list string) :=
  Screener.ScreenerScreenViews !! Screener.ScreenerExchange_str (exchange s).

(** [handleExchangeChange]; [None] when [columns.includes] is called on
    [undefined], which throws. *)
Definition handleExchangeChange (newExchange : Screener.ScreenerExchange)
    (s : Signals) : option Signals :=
  columns ← Screener.ScreenerColumnViews !! Screener.ScreenerExchange_str newExchange;
  let column :=
    if decide ("overview" ∈ columns) then Some "overview" else columns !! 0%nat in
  let screen :=
    match newExchange with
    | Screener.forex | Screener.crypto => "general"
    | _ => "most_capitalized"
    end in
  Some {| exchange := newExchange; colorTheme := colorTheme s;
          width := width s; height := height s; autosize := autosize s;
          isTransparent := isTransparent s;
          showTopToolbar := showTopToolbar s;
          defaultColumnView := column; defaultScreenView := screen |}.

(** [<Screener exchange={exchange()} defaultColumnView={...} ... />] *)
Definition preview (s : Signals) : Screener.Props :=
  {| Screener.exchange := Some (exchange s);
     Screener.defaultColumnView := defaultColumnView s;
     Screener.defaultScreenView := Some (defaultScreenView s);
     Screener.colorTheme := Some (colorTheme s);
     Screener.width := Some (width s);
     Screener.height := Some (height s);
     Screener.autosize := Some (autosize s);
     Screener.isTransparent := Some (isTransparent s);
     Screener.showTopToolbar := Some (showTopToolbar s);
     Screener.locale := None;
     Screener.onError := None |}.

End ScreenerTest.

(** [playground/pages/SymbolOverviewTest.tsx] *)
Module SymbolOverviewTest.

Record Signals := {
  selectedSymbols : list string;
  chartType : SymbolOverview.ChartType;
  colorTheme : ColorTheme;
  scaleMode : SymbolOverview.ScaleMode;
  _scalePosition : SymbolOverview.ScalePosition;
  valueTrackingMode : SymbolOverview.ValueTrackingMode;
  _lineType : SymbolOverview.LineType;
  width : Size;
  height : Size;
  showHeader : bool;
  showSymbolLogo : bool;
  showMarketStatus : bool;
  showDateRanges : bool;
  showTimeScale : bool;
  showVolume : bool;
  showMA : bool;
  isTransparent : bool;
  lineColor : string;
  topColor : string;
  bottomColor : string;
  upColor : string;
  downColor : string;
}.

(** [handleSymbolToggle], on the value of [selectedSymbols]. *)
Definition handleSymbolToggle (symbol : string) (prev : list string) :
    list string :=
  if decide (symbol ∈ prev) then filter (λ s, s ≠ symbol) prev
  else prev ++ [symbol].

(** [cond ? value : undefined] *)
Definition when {A} (cond : bool) (value : A) : option A :=
  if cond then Some value else None.

(** The props of the main preview:
    [<SymbolOverview symbols={selectedSymbols()} chartType={chartType()} ...
       color={chartType() === "line" ? lineColor() : undefined} ... />]. *)
Definition preview (s : Signals) : SymbolOverview.Props :=
  let chart t := bool_decide (SymbolOverview.ChartType_str (chartType s) = t) in
  let bar_or_candlestick :=
    bool_decide (SymbolOverview.ChartType_str (chartType s) ∈ ["bar"; "candlestick"]) in
  {| SymbolOverview.symbols := selectedSymbols s;
     SymbolOverview.chartType := Some (chartType s);
     SymbolOverview.colorTheme := Some (colorTheme s);
     SymbolOverview.scaleMode := Some (scaleMode s);
     SymbolOverview.scalePosition := Some (_scalePosition s);
     SymbolOverview.valueTrackingMode := Some (valueTrackingMode s);
     SymbolOverview.lineType := Some (_lineType s);
     SymbolOverview.width := Some (width s);
     SymbolOverview.height := Some (height s);
     SymbolOverview.showHeader := Some (showHeader s);
     SymbolOverview.showSymbolLogo := Some (showSymbolLogo s);
     SymbolOverview.showMarketStatus := Some (showMarketStatus s);
     SymbolOverview.showDateRanges := Some (showDateRanges s);
     SymbolOverview.showTimeScale := Some (showTimeScale s);
     SymbolOverview.showVolume := Some (showVolume s);
     SymbolOverview.showMA := Some (showMA s);
     SymbolOverview.isTransparent := Some (isTransparent s);
     SymbolOverview.color := when (chart "line") (lineColor s);
     SymbolOverview.lineColor := when (chart "area") (lineColor s);
     SymbolOverview.topColor := when (chart "area") (topColor s);
     SymbolOverview.bottomColor := when (chart "area") (bottomColor s);
     SymbolOverview.upColor := when bar_or_candlestick (upColor s);
     SymbolOverview.downColor := when bar_or_candlestick (downColor s);
     SymbolOverview.locale := None;
     SymbolOverview.compareSymbol := None;
     SymbolOverview.headerFontSize := None;
     SymbolOverview.changeMode := None;
     SymbolOverview.timeFormat := None;
     SymbolOverview.lineWidth := None;
     SymbolOverview.fontSize := None;
     SymbolOverview.fontColor := None;
     SymbolOverview.trendLineColor := None;
     SymbolOverview.underLineColor := None;
     SymbolOverview.underLineBottomColor := None;
     SymbolOverview.autosize := None;
     SymbolOverview.borderUpColor := None;
     SymbolOverview.borderDownColor := None;
     SymbolOverview.wickUpColor := None;
     SymbolOverview.wickDownColor := None;
     SymbolOverview.gridLineColor := None;
     SymbolOverview.widgetFontColor := None;
     SymbolOverview.backgroundColor := None;
     SymbolOverview.volumeUpColor := None;
     SymbolOverview.volumeDownColor := None;
     SymbolOverview.maLineColor := None;
     SymbolOverview.maLineWidth := None;
     SymbolOverview.maLength := None;
     SymbolOverview.onError := None |}.

End SymbolOverviewTest.

End Playground.

(* ================================================================== *)
(** * Vocabulary of the statements                                      *)
(* ================================================================== *)

(** [explicit] is [given], or [given] is left out and [explicit] is the
    default [d] written out. *)
Definition defaulted {A} (d : A) (given explicit : option A) : Prop :=
  explicit = given ∨ (given = None ∧ explicit = Some d).

(** [q] is [p] with some of the props that [p] leaves out set to the
    defaults of the table that the component gives to [mergeProps]. *)
Definition MiniChart_explicit_defaults (p q : MiniChart.Props) : Prop :=
  MiniChart.symbol q = MiniChart.symbol p
  ∧ defaulted Full (MiniChart.width p) (MiniChart.width q)
  ∧ defaulted Full (MiniChart.height p) (MiniChart.height q)
  ∧ defaulted en (MiniChart.locale p) (MiniChart.locale q)
  ∧ defaulted light (MiniChart.colorTheme p) (MiniChart.colorTheme q)
  ∧ defaulted MiniChart.M1 (MiniChart.dateRange p) (MiniChart.dateRange q)
  ∧ defaulted true (MiniChart.autosize p) (MiniChart.autosize q)
  ∧ defaulted false (MiniChart.isTransparent p) (MiniChart.isTransparent q)
  ∧ defaulted false (MiniChart.chartOnly p) (MiniChart.chartOnly q)
  ∧ defaulted false (MiniChart.noTimeScale p) (MiniChart.noTimeScale q)
  ∧ MiniChart.trendLineColor q = MiniChart.trendLineColor p
  ∧ MiniChart.underLineColor q = MiniChart.underLineColor p
  ∧ MiniChart.underLineBottomColor q = MiniChart.underLineBottomColor p
  ∧ MiniChart.onError q = MiniChart.onError p.

Definition TopStories_explicit_defaults (p q : TopStories.Props) : Prop :=
  defaulted Full (TopStories.width p) (TopStories.width q)
  ∧ defaulted Full (TopStories.height p) (TopStories.height q)
  ∧ defaulted en (TopStories.locale p) (TopStories.locale q)
  ∧ defaulted light (TopStories.colorTheme p) (TopStories.colorTheme q)
  ∧ defaulted TopStories.all_symbols (TopStories.feedMode p) (TopStories.feedMode q)
  ∧ defaulted TopStories.adaptive (TopStories.displayMode p) (TopStories.displayMode q)
  ∧ defaulted true (TopStories.autosize p) (TopStories.autosize q)
  ∧ defaulted false (TopStories.isTransparent p) (TopStories.isTransparent q)
  ∧ TopStories.symbol q = TopStories.symbol p
  ∧ TopStories.onError q = TopStories.onError p.

Definition EconomicCalendar_explicit_defaults (p q : EconomicCalendar.Props) : Prop :=
  defaulted Full (EconomicCalendar.width p) (EconomicCalendar.width q)
  ∧ defaulted Full (EconomicCalendar.height p) (EconomicCalendar.height q)
  ∧ defaulted en (EconomicCalendar.locale p) (EconomicCalendar.locale q)
  ∧ defaulted light (EconomicCalendar.colorTheme p) (EconomicCalendar.colorTheme q)
  ∧ defaulted [] (EconomicCalendar.countries p) (EconomicCalendar.countries q)
  ∧ defaulted true (EconomicCalendar.autosize p) (EconomicCalendar.autosize q)
  ∧ defaulted false (EconomicCalendar.showHighImportanceOnly p)
      (EconomicCalendar.showHighImportanceOnly q)
  ∧ defaulted false (EconomicCalendar.isTransparent p) (EconomicCalendar.isTransparent q)
  ∧ EconomicCalendar.onError q = EconomicCalendar.onError p.

(** [q] is [p] with some of the props that [p] leaves out set to the
    defaults that the documentation of [FundamentalDataProps] gives. *)
Definition FundamentalData_documented_defaults (p q : FundamentalData.Props) : Prop :=
  FundamentalData.symbol q = FundamentalData.symbol p
  ∧ defaulted Full (FundamentalData.width p) (FundamentalData.width q)
  ∧ defaulted Full (FundamentalData.height p) (FundamentalData.height q)
  ∧ defaulted light (FundamentalData.colorTheme p) (FundamentalData.colorTheme q)
  ∧ defaulted en (FundamentalData.locale p) (FundamentalData.locale q)
  ∧ defaulted FundamentalData.documented_displayMode
      (FundamentalData.displayMode p) (FundamentalData.displayMode q)
  ∧ defaulted true (FundamentalData.autosize p) (FundamentalData.autosize q)
  ∧ defaulted false (FundamentalData.isTransparent p) (FundamentalData.isTransparent q)
  ∧ FundamentalData.onError q = FundamentalData.onError p.

(** The sizing a configuration resolves to is "fill": both style dimensions
    are ["100%"], and so are [width] and [height] of the configuration
    object. *)
Definition fills (styles : gmap string string) (config : JsObject) : Prop :=
  styles !! "width" = Some "100%"
  ∧ styles !! "height" = Some "100%"
  ∧ config !! "width" = Some (JStr "100%")
  ∧ config !! "height" = Some (JStr "100%").

(** The colour props of [SymbolOverviewProps] documented as
    "bar and candlestick charts only" or "candlestick charts only". *)
Definition candlestick_fields : list string :=
  ["upColor"; "downColor"; "borderUpColor"; "borderDownColor";
   "wickUpColor"; "wickDownColor"].

Definition omits_candlestick_fields (payload : JsObject) : Prop :=
  ∀ field, field ∈ candlestick_fields → payload !! field = None.

(** The string has the character in it. *)
Fixpoint has_char (c : Ascii.ascii) (s : string) : bool :=
  match s with
  | EmptyString => false
  | String c' rest => Ascii.eqb c' c || has_char c rest
  end.

(** The members of a list in the order of their first occurrence. *)
Fixpoint first_occurrences {A} `{EqDecision A} (l : list A) : list A :=
  match l with
  | [] => []
  | x :: rest => x :: filter (λ y, y ≠ x) (first_occurrences rest)
  end.

(** What [join] writes for a country: its entry of [CountryMap]. *)
Definition Country_code (c : EconomicCalendar.Country) : string :=
  join_element (get EconomicCalendar.CountryMap (EconomicCalendar.Country_str c)).

Definition SymbolOverview_explicit_defaults (p q : SymbolOverview.Props) : Prop :=
  SymbolOverview.symbols q = SymbolOverview.symbols p
  ∧ defaulted Full (SymbolOverview.width p) (SymbolOverview.width q)
  ∧ defaulted Full (SymbolOverview.height p) (SymbolOverview.height q)
  ∧ defaulted en (SymbolOverview.locale p) (SymbolOverview.locale q)
  ∧ defaulted SymbolOverview.normal (SymbolOverview.scaleMode p) (SymbolOverview.scaleMode q)
  ∧ defaulted SymbolOverview.right (SymbolOverview.scalePosition p) (SymbolOverview.scalePosition q)
  ∧ defaulted light (SymbolOverview.colorTheme p) (SymbolOverview.colorTheme q)
  ∧ defaulted SymbolOverview.line (SymbolOverview.chartType p) (SymbolOverview.chartType q)
  ∧ defaulted SymbolOverview.floating_tooltip (SymbolOverview.valueTrackingMode p) (SymbolOverview.valueTrackingMode q)
  ∧ defaulted SymbolOverview.simple (SymbolOverview.lineType p) (SymbolOverview.lineType q)
  ∧ defaulted SymbolOverview.small (SymbolOverview.headerFontSize p) (SymbolOverview.headerFontSize q)
  ∧ defaulted SymbolOverview.price_and_percent (SymbolOverview.changeMode p) (SymbolOverview.changeMode q)
  ∧ defaulted SymbolOverview.h12 (SymbolOverview.timeFormat p) (SymbolOverview.timeFormat q)
  ∧ defaulted 2%Z (SymbolOverview.lineWidth p) (SymbolOverview.lineWidth q)
  ∧ defaulted true (SymbolOverview.showHeader p) (SymbolOverview.showHeader q)
  ∧ defaulted true (SymbolOverview.showSymbolLogo p) (SymbolOverview.showSymbolLogo q)
  ∧ defaulted true (SymbolOverview.showMarketStatus p) (SymbolOverview.showMarketStatus q)
  ∧ defaulted true (SymbolOverview.showDateRanges p) (SymbolOverview.showDateRanges q)
  ∧ defaulted 10%Z (SymbolOverview.fontSize p) (SymbolOverview.fontSize q)
  ∧ defaulted true (SymbolOverview.autosize p) (SymbolOverview.autosize q)
  ∧ defaulted true (SymbolOverview.showTimeScale p) (SymbolOverview.showTimeScale q)
  ∧ defaulted false (SymbolOverview.isTransparent p) (SymbolOverview.isTransparent q)
  ∧ defaulted false (SymbolOverview.showVolume p) (SymbolOverview.showVolume q)
  ∧ defaulted false (SymbolOverview.showMA p) (SymbolOverview.showMA q)
  ∧ defaulted "blue" (SymbolOverview.maLineColor p) (SymbolOverview.maLineColor q)
  ∧ defaulted 1%Z (SymbolOverview.maLineWidth p) (SymbolOverview.maLineWidth q)
  ∧ defaulted 9%Z (SymbolOverview.maLength p) (SymbolOverview.maLength q)
  ∧ SymbolOverview.compareSymbol q = SymbolOverview.compareSymbol p
  ∧ SymbolOverview.fontColor q = SymbolOverview.fontColor p
  ∧ SymbolOverview.trendLineColor q = SymbolOverview.trendLineColor p
  ∧ SymbolOverview.underLineColor q = SymbolOverview.underLineColor p
  ∧ SymbolOverview.underLineBottomColor q = SymbolOverview.underLineBottomColor p
  ∧ SymbolOverview.color q = SymbolOverview.color p
  ∧ SymbolOverview.lineColor q = SymbolOverview.lineColor p
  ∧ SymbolOverview.topColor q = SymbolOverview.topColor p
  ∧ SymbolOverview.bottomColor q = SymbolOverview.bottomColor p
  ∧ SymbolOverview.upColor q = SymbolOverview.upColor p
  ∧ SymbolOverview.downColor q = SymbolOverview.downColor p
  ∧ SymbolOverview.borderUpColor q = SymbolOverview.borderUpColor p
  ∧ SymbolOverview.borderDownColor q = SymbolOverview.borderDownColor p
  ∧ SymbolOverview.wickUpColor q = SymbolOverview.wickUpColor p
  ∧ SymbolOverview.wickDownColor q = SymbolOverview.wickDownColor p
  ∧ SymbolOverview.gridLineColor q = SymbolOverview.gridLineColor p
  ∧ SymbolOverview.widgetFontColor q = SymbolOverview.widgetFontColor p
  ∧ SymbolOverview.backgroundColor q = SymbolOverview.backgroundColor p
  ∧ SymbolOverview.volumeUpColor q = SymbolOverview.volumeUpColor p
  ∧ SymbolOverview.volumeDownColor q = SymbolOverview.volumeDownColor p
  ∧ SymbolOverview.onError q = SymbolOverview.onError p.

(** The table has an entry for the key, and the entry is not [undefined]. *)
Definition defined_in (tbl : JsObject) (key : string) : Prop :=
  is_Some (tbl !! key) ∧ get tbl key ≠ JUndefined.

(** [name] is the part of [symbol] between its first colon and the next one
    (or the end of [symbol]). *)
Definition second_part (symbol name : string) : Prop :=
  ∃ exchange rest,
    symbol = exchange +:+ ":" +:+ name +:+ rest
    ∧ has_char ":" exchange = false
    ∧ has_char ":" name = false
    ∧ (rest = "" ∨ ∃ more, rest = ":" +:+ more).

(** The state of a controller whose newest widget root is [generation]: that
    root is the only child of the container, the roots 0 to [generation] have
    been created, each after the one before was removed, and at no point of
    the trace were two roots attached. *)
Definition one_root {Props} (generation : nat) (st : @Lifecycle.State Props) : Prop :=
  Lifecycle.next_node st = S generation
  ∧ Lifecycle.cleanups st = [generation]
  ∧ Lifecycle.node <$> Lifecycle.container_children st = [generation]
  ∧ Lifecycle.attached (Lifecycle.trace st) = [generation]
  ∧ Lifecycle.created (Lifecycle.trace st) = seq 0 (S generation)
  ∧ Lifecycle.turnover (Lifecycle.trace st) = Lifecycle.generations generation
  ∧ (∀ earlier, earlier `prefix_of` (Lifecycle.trace st) →
       length (Lifecycle.attached earlier) ≤ 1).

(** No error has been reported for a load that is pending or not started,
    and at most one for any load. *)
Definition reports_once {Props} (st : @Lifecycle.State Props) : Prop :=
  (∀ n, n ∈ Lifecycle.pending st → Lifecycle.reports n (Lifecycle.trace st) = [])
  ∧ (∀ n, Lifecycle.next_node st ≤ n →
       (n ∉ Lifecycle.pending st) ∧ Lifecycle.reports n (Lifecycle.trace st) = [])
  ∧ (∀ n, length (Lifecycle.reports n (Lifecycle.trace st)) ≤ 1).

(** The claim that every change of the configuration makes a widget root:
    after the first run and [N] changes, the roots 0 to [N] have been
    created. *)
Definition creates_a_root_per_change {Props} (accepts : string → string → bool)
    (W : Widget Props) (p : Props) (actions : list (Lifecycle.Action Props)) :
    Prop :=
  Lifecycle.created (Lifecycle.trace (Lifecycle.run accepts W p actions))
  = seq 0 (S (Lifecycle.changes actions)).

(** The props that the parent has passed last: those of the last change of
    the configuration, or the initial ones. *)
Definition current_props {Props} (p : Props)
    (actions : list (Lifecycle.Action Props)) : Props :=
  foldl (λ current a,
           match a with
           | Lifecycle.Reconfigure _ q => q
           | Lifecycle.Settle _ _ => current
           end) p actions.

(** What the effect makes of the props depends on the props it reads only:
    props that agree on what a run reads give the same styles and the same
    configuration object. *)
Definition determined_by_reads {Props} (W : Widget Props) : Prop :=
  ∀ p q, widget_reads W p = widget_reads W q →
    widget_styles W p = widget_styles W q
    ∧ widget_config W p = widget_config W q.

(** The widget root [n] as the effect sets it up for the props [p]. *)
Definition widget_root {Props} (accepts : string → string → bool)
    (W : Widget Props) (n : nat) (p : Props) : Lifecycle.Element :=
  {| Lifecycle.node := n;
     Lifecycle.classList := ["tradingview-widget-container__widget"];
     Lifecycle.style := Lifecycle.declared accepts (widget_styles W p);
     Lifecycle.scripts :=
       [ {| Lifecycle.src := widget_script W;
            Lifecycle.textContent := JSON_stringify (widget_config W p) |} ] |}.

(** The widget roots for which the events [tr] ask [loadScript] for the
    vendor script, in order. *)
Definition requested (tr : list Lifecycle.Event) : list nat :=
  omap (λ ev, match ev with Lifecycle.ScriptRequested n => Some n | _ => None end) tr.

(** The action settles the script load of the root [n]. *)
Definition settles {Props} (n : nat) (a : Lifecycle.Action Props) : bool :=
  match a with
  | Lifecycle.Settle m _ => Nat.eqb m n
  | Lifecycle.Reconfigure _ _ => false
  end.

(** The call of [onError] that a failure of a load makes when the props
    are [p]. *)
Definition error_call {Props} (W : Widget Props) (p : Props) (n : nat)
    (e : Error) : list Lifecycle.Event :=
  match widget_onError W p with
  | Some cb => [Lifecycle.ErrorReported n cb e]
  | None => []
  end.

(** The properties that every payload of MiniChart has, and those it has
    when the prop is given. *)
Definition MiniChart_fixed_keys : list string :=
  ["symbol"; "autosize"; "width"; "height"; "locale"; "colorTheme";
   "dateRange"; "isTransparent"; "chartOnly"; "noTimeScale"].

Definition MiniChart_optional (props : MiniChart.Props) :
    list (string * option string) :=
  [("trendLineColor", MiniChart.trendLineColor props);
   ("underLineColor", MiniChart.underLineColor props);
   ("underLineBottomColor", MiniChart.underLineBottomColor props)].

(** The same for SymbolOverview. *)
Definition SymbolOverview_fixed_keys : list string :=
  ["autosize"; "width"; "height"; "locale"; "noTimeScale"; "colorTheme";
   "scalePosition"; "scaleMode"; "lineWidth"; "lineType"; "chartType";
   "valuesTracking"; "timeHoursFormat"; "headerFontSize"; "hideDateRanges";
   "hideMarketStatus"; "hideSymbolLogo"; "fontSize"; "showVolume"; "showMA";
   "maLineColor"; "maLineWidth"; "maLength"; "symbols"; "chartOnly";
   "isTransparent"; "changeMode"; "dateRanges"].

Definition SymbolOverview_optional (props : SymbolOverview.Props) :
    list (string * option string) :=
  [("fontColor", SymbolOverview.fontColor props);
   ("volumeUpColor", SymbolOverview.volumeUpColor props);
   ("volumeDownColor", SymbolOverview.volumeDownColor props);
   ("trendLineColor", SymbolOverview.trendLineColor props);
   ("underLineColor", SymbolOverview.underLineColor props);
   ("underLineBottomColor", SymbolOverview.underLineBottomColor props);
   ("color", SymbolOverview.color props);
   ("lineColor", SymbolOverview.lineColor props);
   ("topColor", SymbolOverview.topColor props);
   ("bottomColor", SymbolOverview.bottomColor props);
   ("upColor", SymbolOverview.upColor props);
   ("downColor", SymbolOverview.downColor props);
   ("borderUpColor", SymbolOverview.borderUpColor props);
   ("borderDownColor", SymbolOverview.borderDownColor props);
   ("wickUpColor", SymbolOverview.wickUpColor props);
   ("wickDownColor", SymbolOverview.wickDownColor props);
   ("gridLineColor", SymbolOverview.gridLineColor props);
   ("widgetFontColor", SymbolOverview.widgetFontColor props);
   ("backgroundColor", SymbolOverview.backgroundColor props)].

(** What a payload is made of: the properties [fixed] are there, each
    property of [optional] is there, as a string, exactly when its prop is
    given, and there is no other property. *)
Definition payload_shape (payload : JsObject) (fixed : list string)
    (optional : list (string * option string)) : Prop :=
  Forall (λ key, is_Some (payload !! key)) fixed
  ∧ Forall (λ entry, payload !! entry.1 = JStr <$> entry.2) optional
  ∧ ∀ key, is_Some (payload !! key) → key ∈ fixed ++ optional.*1.

(** What [join] writes for an indicator: its entry of [IndicatorMap]. *)
Definition Indicator_id (i : AdvancedChart.AdvancedChartIndicator) : string :=
  join_element (get AdvancedChart.IndicatorMap (AdvancedChart.AdvancedChartIndicator_str i)).

(** The size that a component resolves [autosize] and a [Size] to: a number
    of pixels, or [None] for "fill the container". *)
Definition resolved_size (autosize : bool) (size : Size) : option Number :=
  if autosize then None
  else match size with
       | Full => None
       | Pixels x => Some x
       end.

(** A resolved size as the effect writes it into a style
    ([fullWidth ? "100%" : `${_props.width}px`]) and into the configuration
    object ([fullWidth ? "100%" : _props.width]). *)
Definition css_size (size : option Number) : string :=
  match size with
  | None => "100%"
  | Some x => Number_toString x +:+ "px"
  end.

(** [JSON.stringify] has no text for [NaN] and the infinities and writes
    [null] for them. *)
Definition wire_size (size : option Number) : JsVal :=
  match size with
  | None => JStr "100%"
  | Some NaN | Some (Infinity _) => JNull
  | Some x => JNumber x
  end.

(** The styles and the payload of a component give the width [width] and
    the height [height]. *)
Definition sized (styles : gmap string string) (payload : JsObject)
    (width height : option Number) : Prop :=
  styles !! "width" = Some (css_size width)
  ∧ styles !! "height" = Some (css_size height)
  ∧ payload !! "width" = Some (wire_size width)
  ∧ payload !! "height" = Some (wire_size height).

(* ================================================================== *)
(** * Configurations used as examples                                   *)
(* ================================================================== *)

(** [<MiniChart symbol="NASDAQ:AAPL" />] *)
Definition mini_chart : MiniChart.Props :=
  {| MiniChart.symbol := "NASDAQ:AAPL";
     MiniChart.width := None; MiniChart.height := None;
     MiniChart.locale := None; MiniChart.dateRange := None;
     MiniChart.colorTheme := None; MiniChart.trendLineColor := None;
     MiniChart.underLineColor := None; MiniChart.underLineBottomColor := None;
     MiniChart.autosize := None; MiniChart.isTransparent := None;
     MiniChart.chartOnly := None; MiniChart.noTimeScale := None;
     MiniChart.onError := None |}.

(** [<MiniChart symbol="NASDAQ:AAPL" width="full" autosize={true} />] *)
Definition mini_chart_full : MiniChart.Props :=
  {| MiniChart.symbol := "NASDAQ:AAPL";
     MiniChart.width := Some Full; MiniChart.height := None;
     MiniChart.locale := None; MiniChart.dateRange := None;
     MiniChart.colorTheme := None; MiniChart.trendLineColor := None;
     MiniChart.underLineColor := None; MiniChart.underLineBottomColor := None;
     MiniChart.autosize := Some true; MiniChart.isTransparent := None;
     MiniChart.chartOnly := None; MiniChart.noTimeScale := None;
     MiniChart.onError := None |}.

(** [<MiniChart symbol="NASDAQ:AAPL" width={800} height={600}
      autosize={...} onError={...} />] *)
Definition mini_chart_800_600 (autosize : bool) : MiniChart.Props :=
  {| MiniChart.symbol := "NASDAQ:AAPL";
     MiniChart.width := Some (Px 800); MiniChart.height := Some (Px 600);
     MiniChart.locale := None; MiniChart.dateRange := None;
     MiniChart.colorTheme := None; MiniChart.trendLineColor := None;
     MiniChart.underLineColor := None; MiniChart.underLineBottomColor := None;
     MiniChart.autosize := Some autosize; MiniChart.isTransparent := None;
     MiniChart.chartOnly := None; MiniChart.noTimeScale := None;
     MiniChart.onError := Some (Cb 0) |}.

(** [<TopStories feedMode=... symbol=... />] *)
Definition top_stories (feedMode : option TopStories.TopStoriesFeedMode)
    (symbol : option string) : TopStories.Props :=
  {| TopStories.width := None; TopStories.height := None;
     TopStories.colorTheme := None; TopStories.locale := None;
     TopStories.displayMode := None; TopStories.autosize := None;
     TopStories.isTransparent := None; TopStories.onError := None;
     TopStories.feedMode := feedMode; TopStories.symbol := symbol |}.

(** [<EconomicCalendar countries={...} />] *)
Definition economic_calendar (countries : list EconomicCalendar.Country) :
    EconomicCalendar.Props :=
  {| EconomicCalendar.width := None; EconomicCalendar.height := None;
     EconomicCalendar.locale := None; EconomicCalendar.colorTheme := None;
     EconomicCalendar.countries := Some countries;
     EconomicCalendar.autosize := None;
     EconomicCalendar.showHighImportanceOnly := None;
     EconomicCalendar.isTransparent := None;
     EconomicCalendar.onError := None |}.

(** [<FundamentalData symbol="NASDAQ:AAPL" displayMode=... />] *)
Definition fundamental_data
    (displayMode : option FundamentalData.FundamentalDataDisplayMode) :
    FundamentalData.Props :=
  {| FundamentalData.symbol := "NASDAQ:AAPL";
     FundamentalData.width := None; FundamentalData.height := None;
     FundamentalData.colorTheme := None; FundamentalData.locale := None;
     FundamentalData.displayMode := displayMode;
     FundamentalData.autosize := None; FundamentalData.isTransparent := None;
     FundamentalData.onError := None |}.

(** [<SymbolOverview symbols={...} chartType=... lineWidth=... upColor=...
      downColor=... />] *)
Definition symbol_overview (symbols : list string)
    (chartType : option SymbolOverview.ChartType) (lineWidth : option Z)
    (upColor downColor : option string) : SymbolOverview.Props :=
  {| SymbolOverview.symbols := symbols;
     SymbolOverview.width := None; SymbolOverview.height := None;
     SymbolOverview.locale := None; SymbolOverview.scaleMode := None;
     SymbolOverview.scalePosition := None; SymbolOverview.colorTheme := None;
     SymbolOverview.chartType := chartType;
     SymbolOverview.valueTrackingMode := None;
     SymbolOverview.compareSymbol := None;
     SymbolOverview.lineType := None; SymbolOverview.headerFontSize := None;
     SymbolOverview.changeMode := None; SymbolOverview.timeFormat := None;
     SymbolOverview.lineWidth := lineWidth; SymbolOverview.fontSize := None;
     SymbolOverview.fontColor := None; SymbolOverview.trendLineColor := None;
     SymbolOverview.underLineColor := None;
     SymbolOverview.underLineBottomColor := None;
     SymbolOverview.autosize := None; SymbolOverview.isTransparent := None;
     SymbolOverview.showTimeScale := None; SymbolOverview.showHeader := None;
     SymbolOverview.color := None; SymbolOverview.lineColor := None;
     SymbolOverview.topColor := None; SymbolOverview.bottomColor := None;
     SymbolOverview.upColor := upColor;
     SymbolOverview.downColor := downColor;
     SymbolOverview.borderUpColor := None;
     SymbolOverview.borderDownColor := None;
     SymbolOverview.wickUpColor := None; SymbolOverview.wickDownColor := None;
     SymbolOverview.gridLineColor := None;
     SymbolOverview.widgetFontColor := None;
     SymbolOverview.backgroundColor := None; SymbolOverview.showVolume := None;
     SymbolOverview.volumeUpColor := None;
     SymbolOverview.volumeDownColor := None;
     SymbolOverview.showDateRanges := None;
     SymbolOverview.showSymbolLogo := None;
     SymbolOverview.showMarketStatus := None; SymbolOverview.showMA := None;
     SymbolOverview.maLineColor := None; SymbolOverview.maLineWidth := None;
     SymbolOverview.maLength := None; SymbolOverview.onError := None |}.

(** A line chart that is given the colours of a candlestick chart. *)
Definition line_with_candle_colors : SymbolOverview.Props :=
  symbol_overview ["NASDAQ:AAPL"] (Some SymbolOverview.line) None
    (Some "#00C853") (Some "#FF1744").

(** The judgement of the CSSOM on the declarations of the examples:
    [width] and [height] take ["100%"] and a length in [px] that is not
    negative, a number with digits, a fraction and an exponent as
    [Number::toString] writes them; ["-5px"], ["NaNpx"] and ["Infinitypx"]
    are not taken. *)
Fixpoint after_digits (s : string) : string :=
  match s with
  | String c rest =>
      if (Ascii.leb "0" c && Ascii.leb c "9")%bool then after_digits rest else s
  | "" => ""
  end.

(** What is left of [s] after one digit or more. *)
Definition digits_then (s : string) : option string :=
  let rest := after_digits s in
  if String.length rest =? String.length s then None else Some rest.

Definition css_length (property value : string) : bool :=
  if String.eqb value "100%" then true
  else
    match digits_then value with
    | None => false
    | Some rest =>
        let rest := match rest with
                    | String "." fraction => digits_then fraction
                    | _ => Some rest
                    end in
        let rest := match rest with
                    | Some (String "e" (String sign exponent)) =>
                        if (Ascii.eqb sign "+" || Ascii.eqb sign "-")%bool
                        then digits_then exponent else None
                    | _ => rest
                    end in
        match rest with
        | Some unit => String.eqb unit "px"
        | None => false
        end
    end.

(** [<MiniChart symbol="NASDAQ:AAPL" />], then a change of the props to
    [width={800} height={600} autosize={false} onError={...}]. *)
Definition mini_chart_resized : list (Lifecycle.Action MiniChart.Merged.t) :=
  [Lifecycle.Reconfigure ["width"; "height"; "autosize"; "onError"]
     (MiniChart.mergeProps (mini_chart_800_600 false))].

(** [<MiniChart symbol="NASDAQ:AAPL" />], then a change of the props to
    [width={800} height={600} autosize={true} onError={...}]: [autosize] is
    true as before, so the effect has read none of the props that change. *)
Definition mini_chart_unread_change : list (Lifecycle.Action MiniChart.Merged.t) :=
  [Lifecycle.Reconfigure ["width"; "height"; "onError"]
     (MiniChart.mergeProps (mini_chart_800_600 true))].

(** [<MiniChart symbol="NASDAQ:AAPL" width={800} height={600}
      autosize={false} />], then a change of the height to -5. *)
Definition mini_chart_800_minus_5 : MiniChart.Props :=
  {| MiniChart.symbol := "NASDAQ:AAPL";
     MiniChart.width := Some (Px 800); MiniChart.height := Some (Px (-5));
     MiniChart.locale := None; MiniChart.dateRange := None;
     MiniChart.colorTheme := None; MiniChart.trendLineColor := None;
     MiniChart.underLineColor := None; MiniChart.underLineBottomColor := None;
     MiniChart.autosize := Some false; MiniChart.isTransparent := None;
     MiniChart.chartOnly := None; MiniChart.noTimeScale := None;
     MiniChart.onError := Some (Cb 0) |}.

(** [<MiniChart symbol="NASDAQ:AAPL" width={...} height={...}
      autosize={false} />] *)
Definition mini_chart_sized (width height : Size) : MiniChart.Props :=
  {| MiniChart.symbol := "NASDAQ:AAPL";
     MiniChart.width := Some width; MiniChart.height := Some height;
     MiniChart.locale := None; MiniChart.dateRange := None;
     MiniChart.colorTheme := None; MiniChart.trendLineColor := None;
     MiniChart.underLineColor := None; MiniChart.underLineBottomColor := None;
     MiniChart.autosize := Some false; MiniChart.isTransparent := None;
     MiniChart.chartOnly := None; MiniChart.noTimeScale := None;
     MiniChart.onError := None |}.

(** [<Screener exchange=... />] *)
Definition screener (exchange : Screener.ScreenerExchange) : Screener.Props :=
  {| Screener.width := None; Screener.height := None;
     Screener.colorTheme := None; Screener.locale := None;
     Screener.exchange := Some exchange;
     Screener.defaultColumnView := None; Screener.defaultScreenView := None;
     Screener.autosize := None; Screener.isTransparent := None;
     Screener.showTopToolbar := None; Screener.onError := None |}.

(** The G7 button, then Japan and Spain are toggled. *)
Definition calendar_clicks : list Playground.EconomicCalendarTest.Click :=
  [Playground.EconomicCalendarTest.SetCountryGroup
     ("G7 Countries",
      [EconomicCalendar.UnitedStates; EconomicCalendar.Japan;
       EconomicCalendar.Germany; EconomicCalendar.UnitedKingdom;
       EconomicCalendar.France; EconomicCalendar.Italy;
       EconomicCalendar.Canada]);
   Playground.EconomicCalendarTest.ToggleCountry EconomicCalendar.Japan;
   Playground.EconomicCalendarTest.ToggleCountry EconomicCalendar.Spain].

(* ================================================================== *)
(** * Properties                                                        *)
(* ================================================================== *)

(** ** The definitions on small inputs *)

Example split_examples :
  split ":" "NASDAQ:AAPL" = ["NASDAQ"; "AAPL"]
  ∧ split ":" "AAPL" = ["AAPL"]
  ∧ split ":" "" = [""]
  ∧ split ":" "a:" = ["a"; ""]
  ∧ split ":" "a:b:c" = ["a"; "b"; "c"].
Proof. by vm_compute. Qed.

Example symbol_entry_examples :
  SymbolOverview.symbol_entry "NASDAQ:AAPL" = JArr [JStr "AAPL"; JStr "NASDAQ:AAPL|1D"]
  ∧ SymbolOverview.symbol_entry "AAPL" = JArr [JStr "AAPL"; JStr "AAPL|1D"]
  ∧ SymbolOverview.symbol_entry "a:b:c" = JArr [JStr "b"; JStr "a:b:c|1D"].
Proof. by vm_compute. Qed.

Example MiniChart_800_600 :
  let _props := MiniChart.mergeProps (mini_chart_800_600 false) in
  MiniChart.styles _props !! "width" = Some "800px"
  ∧ MiniChart.styles _props !! "height" = Some "600px"
  ∧ MiniChart.payload (mini_chart_800_600 false) !! "width" = Some (JNum 800)
  ∧ MiniChart.payload (mini_chart_800_600 false) !! "dateRange" = Some (JStr "1M")
  ∧ MiniChart.payload (mini_chart_800_600 false) !! "trendLineColor" = None.
Proof. by vm_compute. Qed.

Example countryFilter_example :
  EconomicCalendar.countryFilter
    (EconomicCalendar.mergeProps
       (economic_calendar
          [EconomicCalendar.Germany; EconomicCalendar.EuropeanUnion;
           EconomicCalendar.Germany; EconomicCalendar.Japan;
           EconomicCalendar.EuropeanUnion]))
  = "de,eu,jp"
  ∧ EconomicCalendar.countryFilter (EconomicCalendar.mergeProps (economic_calendar []))
    = "".
Proof. by vm_compute. Qed.

(** Two changes of the height, which the effect has read, and between them
    a new [onError], which it has not: the effect runs again for the height
    only.  The first script load fails after its widget root has been
    removed, and is reported all the same, once. *)
Example run_example :
  let blocked := {| message := "blocked" |} in
  Lifecycle.trace
    (Lifecycle.run css_length MiniChart.widget
       (MiniChart.mergeProps (mini_chart_800_600 false))
       [Lifecycle.Reconfigure ["height"] (MiniChart.mergeProps mini_chart_800_minus_5);
        Lifecycle.Settle 0 (Failed blocked);
        Lifecycle.Settle 0 (Failed blocked);
        Lifecycle.Reconfigure ["onError"] (MiniChart.mergeProps mini_chart_800_minus_5);
        Lifecycle.Reconfigure ["height"] (MiniChart.mergeProps (mini_chart_800_600 false))])
  = [Lifecycle.Created 0; Lifecycle.Appended 0; Lifecycle.ScriptRequested 0;
     Lifecycle.Removed 0;
     Lifecycle.Created 1; Lifecycle.Appended 1; Lifecycle.ScriptRequested 1;
     Lifecycle.ErrorReported 0 (Cb 0) blocked;
     Lifecycle.Removed 1;
     Lifecycle.Created 2; Lifecycle.Appended 2; Lifecycle.ScriptRequested 2].
Proof. by vm_compute. Qed.

(** [style.height = "-5px"] changes nothing: the container keeps the height
    of the run before, and the new widget root has none. *)
Example refused_height :
  let st :=
    Lifecycle.run css_length MiniChart.widget
      (MiniChart.mergeProps (mini_chart_800_600 false))
      [Lifecycle.Reconfigure ["height"] (MiniChart.mergeProps mini_chart_800_minus_5)] in
  MiniChart.styles (MiniChart.mergeProps mini_chart_800_minus_5) !! "height"
  = Some "-5px"
  ∧ Lifecycle.container_style st !! "height" = Some "600px"
  ∧ Lifecycle.container_style st !! "width" = Some "800px"
  ∧ (Lifecycle.style <$> Lifecycle.container_children st)
    = [{[ "width" := "800px" ]}].
Proof. by vm_compute. Qed.

(** [width={800.5} height={NaN}]: the payload has [800.5] and [null]; the
    style declarations are ["800.5px"], which is taken, and ["NaNpx"], which
    is not.  [width={1e21}] is declared as ["1e+21px"]. *)
Example sizes_that_are_not_integers :
  let props := mini_chart_sized (Pixels (Fraction 1601 1)) (Pixels NaN) in
  let st := Lifecycle.mount css_length MiniChart.widget (MiniChart.mergeProps props) in
  MiniChart.styles (MiniChart.mergeProps props) !! "width" = Some "800.5px"
  ∧ MiniChart.styles (MiniChart.mergeProps props) !! "height" = Some "NaNpx"
  ∧ Lifecycle.container_style st !! "width" = Some "800.5px"
  ∧ Lifecycle.container_style st !! "height" = None
  ∧ MiniChart.payload props !! "width" = Some (JNumber (Fraction 1601 1))
  ∧ MiniChart.payload props !! "height" = Some JNull
  ∧ MiniChart.styles (MiniChart.mergeProps (mini_chart_sized (Px (10 ^ 21)) Full))
    !! "width" = Some "1e+21px".
Proof. by vm_compute. Qed.

(** [Number::toString]: an integer in full up to [2^53], with the fewest
    digits that round to the number above, with an exponent from [1e21] on. *)
Example Number_toString_examples :
  Number_toString (Int 800) = "800"
  ∧ Number_toString (Int (-5)) = "-5"
  ∧ Number_toString (Int (2 ^ 53)) = "9007199254740992"
  ∧ Number_toString (Int (2 ^ 60)) = "1152921504606847000"
  ∧ Number_toString (Int (10 ^ 20)) = "100000000000000000000"
  ∧ Number_toString (Int (10 ^ 21)) = "1e+21"
  ∧ Number_toString (Int (2 ^ 70)) = "1.1805916207174113e+21"
  ∧ Number_toString (Int (- 15 * 10 ^ 20)) = "-1.5e+21".
Proof. by vm_compute. Qed.

(** A fraction: [800.5], [0.1] (the double next to a tenth), [-0.75],
    [0.1 + 0.2], [0.000001], [1e-7], the least number above zero and the
    greatest one below [2^53]. *)
Example Fraction_toString_examples :
  Number_toString (Fraction 1601 1) = "800.5"
  ∧ Number_toString (Fraction 3602879701896397 55) = "0.1"
  ∧ Number_toString (Fraction (-3) 2) = "-0.75"
  ∧ Number_toString (Fraction 1351079888211149 52) = "0.30000000000000004"
  ∧ Number_toString (Fraction 4722366482869645 72) = "0.000001"
  ∧ Number_toString (Fraction 944473296573929 73) = "1e-7"
  ∧ Number_toString (Fraction 1 1074) = "5e-324"
  ∧ Number_toString (Fraction 9007199254740991 1) = "4503599627370495.5"
  ∧ Number_toString NaN = "NaN"
  ∧ Number_toString (Infinity true) = "-Infinity".
Proof. by vm_compute. Qed.

(** [JSON.stringify({width: NaN, height: 800.5, size: undefined})] is
    [{"width":null,"height":800.5}]. *)
Example JSON_stringify_numbers :
  JSON_stringify (object [("width", JNumber NaN); ("height", JNumber (Fraction 1601 1));
                          ("size", JUndefined)])
  = {[ "width" := JNull; "height" := JNumber (Fraction 1601 1) ]}.
Proof. by vm_compute. Qed.

(** ** Objects and [JSON.stringify] *)

Lemma lookup_JSON_stringify (o : JsObject) (key : string) :
  JSON_stringify o !! key = o !! key ≫= json_property.
Proof. unfold JSON_stringify. apply lookup_omap. Qed.

Lemma lookup_properties (properties : list (string * JsVal)) (o : JsObject)
    (key : string) :
  foldl (λ o kv, <[kv.1 := kv.2]> o) o properties !! key
  = property key properties (o !! key).
Proof.
  revert o. induction properties as [|[k v] rest IH]; intros o; [done|].
  cbn [foldl property fst snd]. rewrite IH.
  destruct (String.eqb_spec k key) as [->|Hne].
  - by rewrite lookup_insert_eq.
  - by rewrite lookup_insert_ne.
Qed.

Lemma lookup_object (properties : list (string * JsVal)) (key : string) :
  object properties !! key = property key properties None.
Proof. unfold object. by rewrite lookup_properties, lookup_empty. Qed.

(** Reads a property of an object literal, without touching the values. *)
Ltac property_of_literal :=
  rewrite ?lookup_JSON_stringify, ?lookup_object;
  lazy beta iota zeta delta [property String.eqb Ascii.eqb Bool.eqb].

(** Reads ["width"] and ["height"] of the styles an effect assigns. *)
Ltac style_of_literal :=
  rewrite ?lookup_insert_eq;
  rewrite ?(lookup_insert_ne _ "height" "width") by done;
  rewrite ?lookup_insert_eq.

Lemma default_defaulted {A} (d : A) (given explicit : option A) :
  defaulted d given explicit → default d explicit = default d given.
Proof. intros [-> | [-> ->]]; reflexivity. Qed.

(** Uses up a relation [*_explicit_defaults p q] to rewrite the props of [q]. *)
Ltac rewrite_defaults H :=
  repeat match type of H with
         | _ ∧ _ => let H1 := fresh in destruct H as [H1 H]; rewrite_defaults H1
         end;
  match type of H with
  | defaulted _ _ _ => apply default_defaulted in H; rewrite H; clear H
  | _ = _ => rewrite H; clear H
  end.

(** ** Strings: [split] and [String.concat] *)

Lemma app_empty_r (s : string) : s +:+ "" = s.
Proof.
  induction s as [|c s IH]; [done|].
  change (String c s +:+ "") with (String c (s +:+ "")). by rewrite IH.
Qed.

Lemma concat_cons_cons (glue x y : string) (l : list string) :
  String.concat glue (x :: y :: l) = x +:+ glue +:+ String.concat glue (y :: l).
Proof. reflexivity. Qed.

Section Split.
Variable sep : Ascii.ascii.

Lemma split_cons s : ∃ part parts, split sep s = part :: parts.
Proof.
  destruct s as [|c rest]; simpl; [by eauto|].
  destruct (Ascii.eqb c sep); [by eauto|].
  destruct (split sep rest); eauto.
Qed.

Lemma split_clean s : Forall (λ part, has_char sep part = false) (split sep s).
Proof.
  induction s as [|c rest IH]; simpl.
  - by repeat constructor.
  - destruct (Ascii.eqb c sep) eqn:Hc.
    + constructor; [done | exact IH].
    + destruct (split sep rest) as [|part parts].
      * repeat constructor. simpl. by rewrite Hc.
      * inversion IH; subst. constructor; [|done].
        simpl. by rewrite Hc.
Qed.

Lemma concat_split s : String.concat (String sep "") (split sep s) = s.
Proof.
  induction s as [|c rest IH]; [done|].
  destruct (split_cons rest) as (part & parts & Hs).
  cbn [split]. rewrite Hs in *.
  destruct (Ascii.eqb c sep) eqn:Hc.
  - apply Ascii.eqb_eq in Hc as ->.
    rewrite concat_cons_cons, IH. reflexivity.
  - destruct parts as [|next parts].
    + simpl in *. by rewrite IH.
    + rewrite concat_cons_cons in *. by rewrite <- IH.
Qed.

Lemma split_without s : has_char sep s = false → split sep s = [s].
Proof.
  induction s as [|c rest IH]; simpl; [done|].
  intros [Hc Hrest]%orb_false_elim. rewrite Hc, IH; done.
Qed.

Lemma split_with s :
  has_char sep s = true →
  ∃ first second others, split sep s = first :: second :: others.
Proof.
  induction s as [|c rest IH]; simpl; [done|].
  destruct (Ascii.eqb c sep); simpl.
  - intros _. destruct (split_cons rest) as (part & parts & ->). eauto.
  - intros (first & second & others & ->)%IH. eauto.
Qed.

Lemma split_concat parts :
  parts ≠ [] → Forall (λ part, has_char sep part = false) parts →
  split sep (String.concat (String sep "") parts) = parts.
Proof.
  intros Hne Hclean. induction Hclean as [|part parts Hpart Hparts IH]; [done|].
  clear Hne. destruct parts as [|next parts].
  - simpl. by apply split_without.
  - rewrite concat_cons_cons. specialize (IH ltac:(done)).
    generalize dependent (String.concat (String sep "") (next :: parts)).
    intros tail IH.
    revert Hpart. induction part as [|c part IHp]; simpl.
    + intros _. change ("" +:+ tail) with tail.
      rewrite Ascii.eqb_refl. by rewrite IH.
    + intros [Hc Hp]%orb_false_elim. rewrite Hc. by rewrite (IHp Hp).
Qed.
End Split.

Lemma displayName_spec (symbol : string) :
  if has_char ":" symbol then
    ∃ name, SymbolOverview.displayName symbol = JStr name ∧ second_part symbol name
  else SymbolOverview.displayName symbol = JStr symbol.
Proof.
  unfold SymbolOverview.displayName.
  destruct (has_char ":" symbol) eqn:Hcolon; [|by rewrite split_without].
  destruct (split_with _ _ Hcolon) as (exchange & name & others & Hsplit).
  pose proof (concat_split ":" symbol) as Hjoin.
  pose proof (split_clean ":" symbol) as Hclean.
  rewrite Hsplit in *.
  apply Forall_cons in Hclean as [Hexchange Hclean].
  apply Forall_cons in Hclean as [Hname _].
  exists name. split; [done|]. exists exchange.
  destruct others as [|third others].
  - exists "". rewrite app_empty_r. split_and!; [done | done | done | by left].
  - exists (":" +:+ String.concat ":" (third :: others)).
    rewrite !concat_cons_cons in Hjoin.
    split_and!; [done | done | done | right; eauto].
Qed.

(** ** [Set]: the members in the order of their first occurrence *)

Section FirstOccurrences.
Context {A : Type} `{EqDecision A}.
Implicit Types l acc : list A.

Lemma filter_all (P : A → Prop) `{!∀ x, Decision (P x)} l :
  (∀ x, x ∈ l → P x) → filter P l = l.
Proof.
  induction l as [|x l IH]; intros HP; [done|].
  rewrite filter_cons_True by (apply HP; left).
  f_equal. apply IH. intros y Hy. apply HP. by right.
Qed.



Lemma Set_new_from acc l :
  foldl Set_add acc l = acc ++ filter (λ y, y ∉ acc) (first_occurrences l).
Proof.
  revert acc. induction l as [|x l IH]; intros acc.
  - cbn. by rewrite app_nil_r.
  - cbn [foldl first_occurrences]. rewrite IH. unfold Set_add.
    destruct (decide (x ∈ acc)) as [Hin | Hout].
    + rewrite filter_cons_False by (by intros ?).
      rewrite list_filter_filter. f_equal. apply list_filter_iff.
      intros y. split; [|by intros [? _]]. intros Hy. split; [done|]. by intros ->.
    + rewrite filter_cons_True by done.
      rewrite <- app_assoc. cbn [app]. do 2 f_equal.
      rewrite list_filter_filter. apply list_filter_iff.
      intros y. rewrite elem_of_app, list_elem_of_singleton.
      split; [intros Hy; split; intros ?; apply Hy; tauto | tauto].
Qed.

Lemma Set_new_first_occurrences l : Set_new l = first_occurrences l.
Proof.
  unfold Set_new. rewrite Set_new_from. cbn [app].
  apply filter_all. intros y _. apply not_elem_of_nil.
Qed.
End FirstOccurrences.

Lemma NoDup_fmap_inj {A B} (f : A → B) (l : list A) x y :
  NoDup (f <$> l) → x ∈ l → y ∈ l → f x = f y → x = y.
Proof.
  induction l as [|z l IH]; [by intros _ ?%elem_of_nil|].
  rewrite fmap_cons, NoDup_cons, !elem_of_cons.
  intros [Hz Hl] [-> | Hx] [-> | Hy] Hf; try done.
  - destruct Hz. rewrite Hf. by apply list_elem_of_fmap_2.
  - destruct Hz. rewrite <- Hf. by apply list_elem_of_fmap_2.
  - by apply IH.
Qed.

(** ** The countries *)

Lemma Country_values_complete (c : EconomicCalendar.Country) :
  c ∈ EconomicCalendar.Country_values.
Proof. destruct c; apply (bool_decide_unpack _); vm_compute; exact I. Qed.

Lemma Country_code_NoDup : NoDup (Country_code <$> EconomicCalendar.Country_values).
Proof. apply (bool_decide_unpack _). vm_compute. exact I. Qed.

Lemma Country_code_inj : Inj (=) (=) Country_code.
Proof.
  intros c d. apply (NoDup_fmap_inj _ EconomicCalendar.Country_values);
    auto using Country_code_NoDup, Country_values_complete.
Qed.

Lemma Country_code_clean (c : EconomicCalendar.Country) :
  has_char "," (Country_code c) = false.
Proof. by destruct c. Qed.

Lemma countryFilter_codes (_props : EconomicCalendar.Merged.t) :
  EconomicCalendar.countryFilter _props
  = String.concat ","
      (Country_code <$> first_occurrences (EconomicCalendar.Merged.countries _props)).
Proof.
  unfold EconomicCalendar.countryFilter, EconomicCalendar.countries_, Array_of_Set, join.
  rewrite Set_new_first_occurrences. by rewrite map_map.
Qed.

(** ** TopStories: the [symbol] property *)

Lemma TopStories_symbol_property (_props : TopStories.Merged.t) :
  TopStories.widgetConfig _props !! "symbol"
  = match TopStories.Merged.feedMode _props with
    | TopStories.symbol_mode => Some (of_option JStr (TopStories.Merged.symbol _props))
    | _ => None
    end.
Proof.
  unfold TopStories.widgetConfig.
  destruct (TopStories.Merged.feedMode _props).
  - by property_of_literal.
  - by property_of_literal.
  - apply lookup_insert_eq.
Qed.

(** ** What the effect has read *)

Lemma Number_eqb_eq (x y : Number) : Number_eqb x y = true → x = y.
Proof.
  destruct x as [n|m e| |negative], y as [n'|m' e'| |negative']; cbn; try done.
  - by intros ->%Z.eqb_eq.
  - by intros [->%Z.eqb_eq ->%Pos.eqb_eq]%andb_prop.
  - by intros ->%Bool.eqb_prop.
Qed.

Lemma JsVal_eqb_eq : ∀ v w, JsVal_eqb v w = true → v = w.
Proof.
  fix IH 1. intros [| |b|n|s|elems] [| |c|m|t|others]; cbn; try done.
  - by intros ->%Bool.eqb_prop.
  - by intros ->%Number_eqb_eq.
  - by intros ->%String.eqb_eq.
  - intros Hall. f_equal. revert others Hall.
    induction elems as [|x l IHl]; intros [|y k]; try done.
    intros [Hx Hl]%andb_prop. f_equal; [by apply IH | by apply IHl].
Qed.

Lemma reads_eqb_eq (reads others : list (string * JsVal)) :
  Lifecycle.reads_eqb reads others = true → reads = others.
Proof.
  revert others. induction reads as [|[name v] reads IH]; intros [|[name' v'] others];
    cbn; try done.
  intros [[->%String.eqb_eq ->%JsVal_eqb_eq]%andb_prop ->%IH]%andb_prop.
  reflexivity.
Qed.

(** An effect that need not run again would read what it has read. *)
Lemma not_stale reads notified now :
  Lifecycle.stale reads notified now = false → reads = now.
Proof.
  unfold Lifecycle.stale. intros [Hsame _]%orb_false_elim.
  apply reads_eqb_eq. by destruct (Lifecycle.reads_eqb reads now).
Qed.

(** ** The controller *)

Lemma prefix_app_cases {A} (l1 l2 k : list A) :
  k `prefix_of` l1 ++ l2 →
  k `prefix_of` l1 ∨ ∃ k', k = l1 ++ k' ∧ k' `prefix_of` l2.
Proof.
  revert k. induction l1 as [|x l1 IH]; intros k Hk.
  - right. by exists k.
  - destruct k as [|y k]; [left; apply prefix_nil|].
    pose proof (prefix_cons_inv_1 _ _ _ _ Hk) as ->.
    apply prefix_cons_inv_2 in Hk.
    destruct (IH _ Hk) as [H | (k' & -> & H)].
    + left. by apply prefix_cons.
    + right. by exists k'.
Qed.

Section Controller.
Import Lifecycle.
Context {Props : Type} (accepts : string → string → bool) (W : Widget Props).
Implicit Types (p : Props) (st : @State Props) (tr : list Event).

Lemma attached_app tr more :
  attached (tr ++ more)
  = foldl (λ live ev,
             match ev with
             | Appended n => live ++ [n]
             | Removed n => filter (λ m, m ≠ n) live
             | _ => live
             end) (attached tr) more.
Proof. unfold attached. apply foldl_app. Qed.

Lemma reports_app n tr more :
  reports n (tr ++ more) = reports n tr ++ reports n more.
Proof. unfold reports. apply omap_app. Qed.

(** *** What a change of the props does *)

Lemma step_Reconfigure st notified p :
  (step accepts W st (Reconfigure notified p) = update accepts W p st
   ∧ ∃ reads, subscribed st = Some reads
              ∧ stale reads notified (widget_reads W p) = true)
  ∨ (step accepts W st (Reconfigure notified p) = set_props p st
     ∧ ∀ reads, subscribed st = Some reads →
                stale reads notified (widget_reads W p) = false).
Proof.
  cbn [step]. destruct (subscribed st) as [reads|]; [|by right].
  destruct (stale reads notified (widget_reads W p)) eqn:Hstale.
  - left. eauto.
  - right. split; [done|]. by intros ? [= <-].
Qed.

(** *** What one run of the effect changes *)

Lemma update_trace p st :
  trace (update accepts W p st)
  = trace st ++ (Removed <$> cleanups st)
      ++ [Created (next_node st); Appended (next_node st);
          ScriptRequested (next_node st)].
Proof. cbn. by rewrite <- app_assoc. Qed.

Lemma update_next_node p st : next_node (update accepts W p st) = S (next_node st).
Proof. reflexivity. Qed.

Lemma update_cleanups p st : cleanups (update accepts W p st) = [next_node st].
Proof. reflexivity. Qed.

Lemma update_pending p st :
  pending (update accepts W p st) = pending st ++ [next_node st].
Proof. reflexivity. Qed.

Lemma update_children p st :
  node <$> container_children (update accepts W p st)
  = (node <$> foldl (λ ch n, remove n ch) (container_children st) (cleanups st))
      ++ [next_node st].
Proof. cbn. by rewrite fmap_app. Qed.

Lemma remove_only n (children : list Element) :
  node <$> children = [n] → remove n children = [].
Proof.
  destruct children as [|el [|? ?]]; try done.
  intros [= Hel]. unfold remove. by rewrite filter_cons_False by (by intros []).
Qed.

(** *** What settling a load changes *)

Lemma report_cases n error st :
  report W n error st = []
  ∨ ∃ cb e, error = Some e ∧ widget_onError W (props st) = Some cb
            ∧ report W n error st = [ErrorReported n cb e].
Proof.
  unfold report. destruct error as [e|]; [|by left].
  destruct (widget_onError W (props st)) as [cb|]; [|by left].
  right. by exists cb, e.
Qed.

Lemma settle_trace n o st :
  trace (settle W n o st) = trace st
  ∨ ∃ cb e, trace (settle W n o st) = trace st ++ [ErrorReported n cb e].
Proof.
  unfold settle. case_decide; [|by left]. cbn [trace].
  destruct (report_cases n (tryCatch o) st) as [-> | (cb & e & _ & _ & ->)].
  - left. apply app_nil_r.
  - right. eauto.
Qed.

Lemma settle_dom n o st :
  next_node (settle W n o st) = next_node st
  ∧ cleanups (settle W n o st) = cleanups st
  ∧ container_children (settle W n o st) = container_children st
  ∧ container_style (settle W n o st) = container_style st
  ∧ props (settle W n o st) = props st
  ∧ subscribed (settle W n o st) = subscribed st.
Proof. unfold settle. by case_decide. Qed.

Lemma reports_report_other n m error st :
  m ≠ n → reports m (report W n error st) = [].
Proof.
  intros Hm.
  destruct (report_cases n error st) as [-> | (cb & e & _ & _ & ->)]; [done|].
  cbn. by rewrite decide_False.
Qed.

Lemma reports_report_same n error st :
  length (reports n (report W n error st)) ≤ 1.
Proof.
  destruct (report_cases n error st) as [-> | (cb & e & _ & _ & ->)]; [cbn; lia|].
  cbn. rewrite decide_True by done. cbn. lia.
Qed.

(** *** One widget root at a time *)

Lemma mount_one_root p : one_root 0 (mount accepts W p).
Proof.
  unfold one_root, mount, effect, rendered; cbn.
  split_and!; try done.
  intros earlier Hpre.
  repeat (destruct earlier as [|? earlier];
    [cbn; lia |
     pose proof (prefix_cons_inv_1 _ _ _ _ Hpre) as ->;
     apply prefix_cons_inv_2 in Hpre]).
  apply prefix_nil_inv in Hpre as ->. cbn. lia.
Qed.

Lemma update_one_root p g st :
  one_root g st → one_root (S g) (update accepts W p st).
Proof.
  intros (Hnext & Hclean & Hchildren & Hattached & Hcreated & Hturn & Hpast).
  unfold one_root.
  rewrite update_next_node, update_cleanups, update_children, update_trace.
  rewrite Hnext, Hclean.
  split_and!; try done.
  - cbn [foldl]. by rewrite remove_only.
  - rewrite attached_app, Hattached. cbn. by case_decide.
  - unfold created in *. rewrite omap_app, Hcreated.
    symmetry. apply (seq_S (S g) 0).
  - unfold turnover in *. by rewrite omap_app, Hturn.
  - intros earlier Hpre.
    apply prefix_app_cases in Hpre as [Hpre | (k & -> & Hpre)]; [by apply Hpast|].
    rewrite attached_app, Hattached.
    repeat (destruct k as [|? k];
      [cbn; try case_decide; cbn; lia |
       pose proof (prefix_cons_inv_1 _ _ _ _ Hpre) as ->;
       apply prefix_cons_inv_2 in Hpre]).
    apply prefix_nil_inv in Hpre as ->.
    cbn. case_decide; [done | cbn; lia].
Qed.

Lemma set_props_one_root p g st : one_root g st → one_root g (set_props p st).
Proof. done. Qed.

Lemma settle_one_root n o g st : one_root g st → one_root g (settle W n o st).
Proof.
  intros (Hnext & Hclean & Hchildren & Hattached & Hcreated & Hturn & Hpast).
  destruct (settle_dom n o st) as (Hn & Hc & Hch & _ & _).
  unfold one_root. rewrite Hn, Hc, Hch.
  destruct (settle_trace n o st) as [-> | (cb & e & ->)]; [done|].
  split_and!; try done.
  - by rewrite attached_app.
  - unfold created in *. rewrite omap_app. cbn. by rewrite app_nil_r.
  - unfold turnover in *. rewrite omap_app. cbn. by rewrite app_nil_r.
  - intros earlier [Hpre | (k & -> & Hpre)]%prefix_app_cases; [by apply Hpast|].
    rewrite attached_app, Hattached.
    destruct k as [|? k]; [cbn; lia|].
    pose proof (prefix_cons_inv_1 _ _ _ _ Hpre) as ->.
    apply prefix_cons_inv_2, prefix_nil_inv in Hpre as ->. cbn. lia.
Qed.

(** The generation of the root counts the runs of the effect, not the
    changes of the props. *)
Lemma steps_one_root actions :
  ∀ st reads g,
    subscribed st = Some reads → one_root g st →
    one_root (g + reruns_after W reads actions) (foldl (step accepts W) st actions).
Proof.
  induction actions as [|a actions IH]; intros st reads g Hreads Hroot.
  - cbn. by rewrite Nat.add_0_r.
  - cbn [foldl reruns_after]. destruct a as [notified q | n o].
    + cbn [step]. rewrite Hreads.
      destruct (stale reads notified (widget_reads W q)).
      * rewrite Nat.add_succ_r, <- Nat.add_succ_l.
        apply IH; [done | by apply update_one_root].
      * by apply IH.
    + cbn [step]. apply IH; [|by apply settle_one_root].
      by destruct (settle_dom n o st) as (_ & _ & _ & _ & _ & ->).
Qed.

Lemma run_one_root p actions :
  one_root (reruns W p actions) (run accepts W p actions).
Proof. apply (steps_one_root actions _ (widget_reads W p) 0); [done | apply mount_one_root]. Qed.

Lemma run_snoc p actions a :
  run accepts W p (actions ++ [a]) = step accepts W (run accepts W p actions) a.
Proof. unfold run. apply foldl_snoc. Qed.

Lemma reruns_after_le_changes actions :
  ∀ reads, reruns_after W reads actions ≤ changes actions.
Proof.
  induction actions as [|a actions IH]; intros reads; [done|].
  change (a :: actions) with ([a] ++ actions).
  unfold changes in *. rewrite filter_app, length_app.
  destruct a as [notified q | n o]; cbn [reruns_after app].
  - rewrite filter_cons_True by exact I. cbn [filter list_filter length].
    destruct (stale reads notified (widget_reads W q)).
    + specialize (IH (widget_reads W q)). cbn. lia.
    + specialize (IH reads). cbn. lia.
  - rewrite filter_cons_False by (intros []). cbn. apply IH.
Qed.

(** *** The props and the widget root *)

Lemma current_props_snoc p (actions : list (Action Props)) a :
  current_props p (actions ++ [a])
  = match a with
    | Reconfigure _ q => q
    | Settle _ _ => current_props p actions
    end.
Proof. unfold current_props. by rewrite foldl_snoc. Qed.

Lemma run_props p actions : props (run accepts W p actions) = current_props p actions.
Proof.
  induction actions as [|a actions IH] using rev_ind; [done|].
  rewrite run_snoc, current_props_snoc. destruct a as [notified q | n o].
  - by destruct (step_Reconfigure (run accepts W p actions) notified q)
      as [[-> _] | [-> _]].
  - cbn [step].
    destruct (settle_dom n o (run accepts W p actions)) as (_ & _ & _ & _ & -> & _).
    exact IH.
Qed.

(** While the component is mounted, the effect is subscribed to what a run
    with the props of the moment reads. *)
Lemma run_subscribed p actions :
  subscribed (run accepts W p actions)
  = Some (widget_reads W (props (run accepts W p actions))).
Proof.
  induction actions as [|a actions IH] using rev_ind; [done|].
  rewrite run_snoc. destruct a as [notified q | n o].
  - destruct (step_Reconfigure (run accepts W p actions) notified q)
      as [[-> _] | [-> Hfresh]]; [done|].
    cbn [subscribed props set_props]. rewrite IH. f_equal.
    by apply (not_stale _ notified), Hfresh.
  - cbn [step].
    by destruct (settle_dom n o (run accepts W p actions)) as (_ & _ & _ & _ & -> & ->).
Qed.

Lemma update_root p g st :
  one_root g st →
  container_children (update accepts W p st) = [widget_root accepts W (S g) p].
Proof.
  intros (Hnext & Hclean & Hchildren & _).
  unfold update, effect, run_cleanups. cbn [container_children next_node].
  rewrite Hclean, Hnext. cbn [foldl]. by rewrite remove_only.
Qed.

Lemma steps_root actions :
  determined_by_reads W →
  ∀ st g,
    subscribed st = Some (widget_reads W (props st)) → one_root g st →
    container_children st = [widget_root accepts W g (props st)] →
    let st' := foldl (step accepts W) st actions in
    container_children st'
    = [widget_root accepts W (g + reruns_after W (widget_reads W (props st)) actions)
         (props st')].
Proof.
  intros Hdetermined.
  induction actions as [|a actions IH]; intros st g Hreads Hroot Hchild.
  - cbn. by rewrite Nat.add_0_r.
  - cbn [foldl reruns_after]. destruct a as [notified q | n o].
    + cbn [step]. rewrite Hreads.
      destruct (stale (widget_reads W (props st)) notified (widget_reads W q))
        eqn:Hstale.
      * rewrite Nat.add_succ_r, <- Nat.add_succ_l.
        apply (IH (update accepts W q st));
          [done | by apply update_one_root | by apply update_root].
      * apply not_stale in Hstale.
        rewrite Hstale.
        apply (IH (set_props q st)); [cbn; by rewrite <- Hstale | done |].
        cbn [container_children props set_props]. rewrite Hchild.
        destruct (Hdetermined _ _ Hstale) as [Hstyles Hconfig].
        unfold widget_root. by rewrite Hstyles, Hconfig.
    + cbn [step]. destruct (settle_dom n o st) as (_ & _ & Hch & _ & Hp & Hs).
      rewrite <- Hp.
      apply (IH (settle W n o st));
        [by rewrite Hs, Hp | by apply settle_one_root | by rewrite Hch, Hp].
Qed.

Lemma run_root p actions :
  determined_by_reads W →
  container_children (run accepts W p actions)
  = [widget_root accepts W (reruns W p actions) (current_props p actions)].
Proof.
  intros Hdetermined. rewrite <- run_props.
  apply (steps_root actions Hdetermined (mount accepts W p) 0);
    [done | apply mount_one_root | done].
Qed.

(** *** The script requests *)

Lemma requested_removed (nodes : list nat) : requested (Removed <$> nodes) = [].
Proof. by induction nodes. Qed.

Lemma run_requested p actions :
  requested (trace (run accepts W p actions))
  = seq 0 (next_node (run accepts W p actions)).
Proof.
  induction actions as [|a actions IH] using rev_ind; [done|].
  rewrite run_snoc. destruct a as [notified q | n o].
  - destruct (step_Reconfigure (run accepts W p actions) notified q)
      as [[-> _] | [-> _]]; [|done].
    rewrite update_trace, update_next_node, (seq_S (next_node _) 0).
    unfold requested in *. rewrite !omap_app, IH.
    fold (requested (Removed <$> cleanups (run accepts W p actions))).
    by rewrite requested_removed.
  - cbn [step].
    destruct (settle_dom n o (run accepts W p actions)) as (-> & _).
    destruct (settle_trace n o (run accepts W p actions)) as [-> | (cb & e & ->)];
      [done|].
    unfold requested in *. rewrite omap_app, IH. apply app_nil_r.
Qed.

(** *** At most one report for a load *)

Lemma mount_reports_once p : reports_once (mount accepts W p).
Proof.
  unfold reports_once; cbn. split_and!.
  - done.
  - intros n Hn. split; [|done]. intros ->%list_elem_of_singleton. lia.
  - intros n. cbn. lia.
Qed.

Lemma update_reports p st n :
  reports n (trace (update accepts W p st)) = reports n (trace st).
Proof.
  rewrite update_trace, !reports_app.
  assert (reports n (Removed <$> cleanups st) = []) as ->.
  { by induction (cleanups st). }
  by rewrite app_nil_r.
Qed.

Lemma update_reports_once p st :
  reports_once st → reports_once (update accepts W p st).
Proof.
  intros (Hpending & Hfresh & Honce). unfold reports_once.
  setoid_rewrite update_reports. rewrite update_next_node, update_pending.
  split_and!; [| |done].
  - intros n [Hn | ->%list_elem_of_singleton]%elem_of_app; [by apply Hpending|].
    by apply Hfresh.
  - intros n Hn. split; [|apply Hfresh; lia].
    intros [Hin | ->%list_elem_of_singleton]%elem_of_app; [|lia].
    destruct (Hfresh n) as [Hout _]; [lia | done].
Qed.

Lemma settle_reports_once n o st : reports_once st → reports_once (settle W n o st).
Proof.
  intros (Hpending & Hfresh & Honce).
  unfold settle. case_decide as Hn; [|done].
  unfold reports_once; cbn [trace pending next_node].
  split_and!.
  - intros m [Hm Hin]%list_elem_of_filter.
    rewrite reports_app, reports_report_other by done.
    rewrite app_nil_r. by apply Hpending.
  - intros m Hm. destruct (Hfresh m Hm) as [Hout Hnone].
    split; [by intros [_ ?]%list_elem_of_filter|].
    rewrite reports_app, Hnone, reports_report_other; [done|]. by intros ->.
  - intros m. rewrite reports_app. destruct (decide (m = n)) as [->|Hm].
    + rewrite (Hpending n Hn). apply reports_report_same.
    + rewrite reports_report_other by done. rewrite app_nil_r. apply Honce.
Qed.

Lemma step_reports_once st a : reports_once st → reports_once (step accepts W st a).
Proof.
  intros Honce. destruct a as [notified q | n o].
  - destruct (step_Reconfigure st notified q) as [[-> _] | [-> _]];
      [by apply update_reports_once | done].
  - by apply settle_reports_once.
Qed.

Lemma run_reports_once p actions : reports_once (run accepts W p actions).
Proof.
  induction actions as [|a actions IH] using rev_ind.
  - apply mount_reports_once.
  - rewrite run_snoc. by apply step_reports_once.
Qed.

Lemma pending_old p actions n :
  n ∈ pending (run accepts W p actions) → n < next_node (run accepts W p actions).
Proof.
  intros Hn. destruct (run_reports_once p actions) as (_ & Hfresh & _).
  destruct (decide (n < next_node (run accepts W p actions))) as [|Hge]; [done|].
  destruct (Hfresh n) as [Hout _]; [lia | done].
Qed.

(** A load that has settled stays settled, and reports nothing more. *)
Lemma step_settled n st a :
  n ∉ pending st → n < next_node st →
  (n ∉ pending (step accepts W st a)) ∧ n < next_node (step accepts W st a)
  ∧ reports n (trace (step accepts W st a)) = reports n (trace st).
Proof.
  intros Hout Hold. destruct a as [notified q | m o].
  - destruct (step_Reconfigure st notified q) as [[-> _] | [-> _]]; [|done].
    rewrite update_reports, update_next_node, update_pending.
    split_and!; [|lia|done].
    intros [? | ->%list_elem_of_singleton]%elem_of_app; [done | lia].
  - cbn [step]. unfold settle. case_decide as Hm; [|done].
    cbn [pending next_node trace].
    split_and!; [by intros [_ ?]%list_elem_of_filter | done |].
    rewrite reports_app, reports_report_other; [apply app_nil_r|].
    by intros ->.
Qed.

Lemma steps_settled n st more :
  n ∉ pending st → n < next_node st →
  reports n (trace (foldl (step accepts W) st more)) = reports n (trace st).
Proof.
  revert st. induction more as [|a more IH]; intros st Hout Hold; [done|].
  destruct (step_settled n st a Hout Hold) as (Hout' & Hold' & <-).
  cbn [foldl]. by apply IH.
Qed.

(** *** Pending loads *)

Lemma settle_pending_trace n e st :
  n ∈ pending st →
  trace (settle W n (Failed e) st) = trace st ++ error_call W (props st) n e.
Proof. intros Hn. unfold settle. by rewrite decide_True. Qed.

Lemma step_keeps_pending n st a :
  settles n a = false → n ∈ pending st → n ∈ pending (step accepts W st a).
Proof.
  intros Ha Hn. destruct a as [notified q | m o].
  - destruct (step_Reconfigure st notified q) as [[-> _] | [-> _]]; [|done].
    rewrite update_pending. apply elem_of_app. by left.
  - cbn [step]. unfold settle. case_decide; [|done]. cbn [pending].
    apply list_elem_of_filter. split; [|done].
    intros ->. cbn in Ha. by rewrite Nat.eqb_refl in Ha.
Qed.

Lemma steps_keep_pending n st more :
  forallb (λ a, negb (settles n a)) more = true →
  n ∈ pending st → n ∈ pending (foldl (step accepts W) st more).
Proof.
  revert st. induction more as [|a more IH]; intros st Hmore Hn; [done|].
  cbn in Hmore. apply andb_prop in Hmore as [Ha Hmore].
  cbn [foldl]. apply IH; [done|].
  apply step_keeps_pending; [|done]. by destruct (settles n a).
Qed.
End Controller.

(** ** The properties of a payload *)

Lemma property_absent (key : string) (properties : list (string * JsVal))
    (found : option JsVal) :
  key ∉ properties.*1 → property key properties found = found.
Proof.
  revert found. induction properties as [|[k v] rest IH]; intros found Hkey; [done|].
  cbn [property]. rewrite fmap_cons, not_elem_of_cons in Hkey.
  destruct Hkey as [Hk Hrest]. rewrite IH by done.
  destruct (String.eqb_spec k key) as [->|]; [by destruct Hk | done].
Qed.

Lemma payload_keys (properties : list (string * JsVal)) (key : string) :
  is_Some (JSON_stringify (object properties) !! key) → key ∈ properties.*1.
Proof.
  rewrite lookup_JSON_stringify, lookup_object. intros Hsome.
  destruct (decide (key ∈ properties.*1)) as [|Hout]; [done|].
  rewrite property_absent in Hsome by done. by destruct Hsome.
Qed.

Lemma payload_keys_among (properties : list (string * JsVal))
    (keys : list string) :
  properties.*1 ⊆ keys →
  ∀ key, is_Some (JSON_stringify (object properties) !! key) → key ∈ keys.
Proof. intros Hkeys key Hkey%payload_keys. by apply Hkeys. Qed.

(** Shows that the keys of an object literal are among the keys listed. *)
Ltac keys_of_literal :=
  apply payload_keys_among; cbn [fmap list_fmap fst];
  apply (bool_decide_unpack _); vm_compute; exact I.

Lemma json_property_if (b : bool) (v w : JsVal) :
  is_Some (json_property v) → is_Some (json_property w) →
  is_Some (json_property (if b then v else w)).
Proof. by destruct b. Qed.

Lemma Size_js_defined (s : Size) : is_Some (json_property (Size_js s)).
Proof. destruct s; by eexists. Qed.

(** Shows that a property of an object literal is not [undefined]. *)
Ltac defined_property :=
  property_of_literal; cbn [mbind option_bind];
  first
    [ match goal with
      | |- is_Some (json_property (get _ (_ ?m))) => destruct m; by eexists
      end
    | apply json_property_if; [by eexists | apply Size_js_defined]
    | by eexists ].

(** Shows that an optional string prop is written exactly when it is given. *)
Ltac optional_property :=
  property_of_literal; cbn;
  match goal with |- _ = JStr <$> ?color => by destruct color end.

(** ** The mapping tables *)

Lemma JStr_inj (s t : string) : JStr s = JStr t → s = t.
Proof. by intros [=]. Qed.

Lemma Indicator_values_complete (i : AdvancedChart.AdvancedChartIndicator) :
  i ∈ AdvancedChart.AdvancedChartIndicator_values.
Proof.
  unfold AdvancedChart.AdvancedChartIndicator_values.
  destruct i; repeat first [apply list_elem_of_here | apply list_elem_of_further].
Qed.

Lemma Indicator_id_NoDup :
  NoDup (Indicator_id <$> AdvancedChart.AdvancedChartIndicator_values).
Proof. apply (bool_decide_unpack _). vm_compute. exact I. Qed.

Lemma Indicator_id_inj : Inj (=) (=) Indicator_id.
Proof.
  intros i j. apply (NoDup_fmap_inj _ AdvancedChart.AdvancedChartIndicator_values);
    auto using Indicator_id_NoDup, Indicator_values_complete.
Qed.

Lemma Indicator_id_entry (i : AdvancedChart.AdvancedChartIndicator) :
  get AdvancedChart.IndicatorMap (AdvancedChart.AdvancedChartIndicator_str i)
  = JStr (Indicator_id i).
Proof. destruct i; vm_compute; reflexivity. Qed.

Lemma Country_code_entry (c : EconomicCalendar.Country) :
  get EconomicCalendar.CountryMap (EconomicCalendar.Country_str c)
  = JStr (Country_code c).
Proof. destruct c; vm_compute; reflexivity. Qed.

Lemma Country_code_nonempty (c : EconomicCalendar.Country) : Country_code c ≠ "".
Proof. destruct c; vm_compute; discriminate. Qed.

(** ** The country filter *)

Lemma concat_nonempty (glue x : string) (l : list string) :
  x ≠ "" → String.concat glue (x :: l) ≠ "".
Proof.
  intros Hx. destruct l as [|y l]; [done|].
  rewrite concat_cons_cons. by destruct x.
Qed.

Lemma first_occurrences_nil {A} `{EqDecision A} (l : list A) :
  first_occurrences l = [] ↔ l = [].
Proof. by destruct l. Qed.

Lemma first_occurrences_NoDup_id {A} `{EqDecision A} (l : list A) :
  NoDup l → first_occurrences l = l.
Proof.
  induction 1 as [|x l Hx Hl IH]; [done|].
  cbn [first_occurrences]. rewrite IH. f_equal.
  apply filter_all. by intros y Hy ->.
Qed.

Lemma codes_split (l : list EconomicCalendar.Country) :
  l ≠ [] → split "," (String.concat "," (Country_code <$> l)) = Country_code <$> l.
Proof.
  intros Hl. apply split_concat.
  - by destruct l.
  - apply Forall_fmap, Forall_forall. intros c _. apply Country_code_clean.
Qed.

Lemma codes_inj (l k : list EconomicCalendar.Country) :
  String.concat "," (Country_code <$> l) = String.concat "," (Country_code <$> k) →
  l = k.
Proof.
  intros Heq. destruct l as [|c l], k as [|d k]; [done | | |].
  - symmetry in Heq. by apply concat_nonempty in Heq; [|apply Country_code_nonempty].
  - by apply concat_nonempty in Heq; [|apply Country_code_nonempty].
  - apply (f_equal (split ",")) in Heq. rewrite !codes_split in Heq by done.
    revert Heq. apply (list_fmap_eq_inj Country_code Country_code_inj).
Qed.

(** ** Screener and the playground pages *)

Lemma ScreenerColumnViews_entry (e : Screener.ScreenerExchange) :
  Screener.ScreenerColumnViews !! Screener.ScreenerExchange_str e
  = Some (match e with
          | Screener.forex | Screener.crypto => Screener.SUB_COLUMNS
          | _ => Screener.ALL_COLUMNS
          end).
Proof. destruct e; vm_compute; reflexivity. Qed.

Lemma ScreenerScreenViews_entry (e : Screener.ScreenerExchange) :
  Screener.ScreenerScreenViews !! Screener.ScreenerExchange_str e
  = Some (match e with
          | Screener.forex | Screener.crypto => Screener.SUB_SCREENS
          | _ => Screener.ALL_SCREENS
          end).
Proof. destruct e; vm_compute; reflexivity. Qed.

Lemma overview_is_a_column (e : Screener.ScreenerExchange) :
  "overview" ∈ match e with
               | Screener.forex | Screener.crypto => Screener.SUB_COLUMNS
               | _ => Screener.ALL_COLUMNS
               end.
Proof. destruct e; apply list_elem_of_here. Qed.

Lemma COUNTRY_GROUPS_NoDup :
  Forall (λ group, NoDup group.2) Playground.EconomicCalendarTest.COUNTRY_GROUPS.
Proof. apply (bool_decide_unpack _). vm_compute. exact I. Qed.

Lemma toggle_NoDup {A} `{EqDecision A} (x : A) (l : list A) :
  NoDup l →
  NoDup (if decide (x ∈ l) then filter (λ y, y ≠ x) l else l ++ [x]).
Proof.
  intros Hl. case_decide as Hx.
  - by apply NoDup_filter.
  - apply NoDup_app. split_and!; [done | | apply NoDup_singleton].
    by intros y Hy ->%list_elem_of_singleton.
Qed.

Lemma click_NoDup (s : Playground.EconomicCalendarTest.Signals)
    (c : Playground.EconomicCalendarTest.Click) :
  Playground.EconomicCalendarTest.rendered_button c →
  NoDup (Playground.EconomicCalendarTest.selectedCountries s) →
  NoDup (Playground.EconomicCalendarTest.selectedCountries
           (Playground.EconomicCalendarTest.click s c)).
Proof.
  intros Hc Hs. destruct c as [country | group |]; cbn.
  - unfold Playground.EconomicCalendarTest.toggleCountry. cbv zeta.
    pose proof (toggle_NoDup country _ Hs) as Hnext.
    by case_decide.
  - cbn in Hc. pose proof COUNTRY_GROUPS_NoDup as Hgroups.
    rewrite Forall_forall in Hgroups. by apply Hgroups.
  - constructor.
Qed.

Lemma clicks_NoDup (clicks : list Playground.EconomicCalendarTest.Click)
    (s : Playground.EconomicCalendarTest.Signals) :
  Forall Playground.EconomicCalendarTest.rendered_button clicks →
  NoDup (Playground.EconomicCalendarTest.selectedCountries s) →
  NoDup (Playground.EconomicCalendarTest.selectedCountries
           (foldl Playground.EconomicCalendarTest.click s clicks)).
Proof.
  intros Hclicks. revert s.
  induction Hclicks as [|c clicks Hc _ IH]; intros s Hs; [done|].
  cbn [foldl]. by apply IH, click_NoDup.
Qed.

(** ** The props that the effect reads determine the widget *)

Lemma Size_js_inj (s t : Size) : Size_js s = Size_js t → s = t.
Proof. destruct s, t; cbn; congruence. Qed.

Lemma of_option_JStr_inj (s t : option string) :
  of_option JStr s = of_option JStr t → s = t.
Proof. destruct s, t; cbn; congruence. Qed.

Lemma JArr_JStr_inj (l k : list string) :
  JArr (map JStr l) = JArr (map JStr k) → l = k.
Proof.
  intros [= Heq]. revert Heq. apply (list_fmap_eq_inj JStr). intros s t. apply JStr_inj.
Qed.

Lemma TopStoriesFeedMode_str_inj (m n : TopStories.TopStoriesFeedMode) :
  TopStories.TopStoriesFeedMode_str m = TopStories.TopStoriesFeedMode_str n → m = n.
Proof. destruct m, n; vm_compute; congruence. Qed.

Lemma Country_str_inj (c d : EconomicCalendar.Country) :
  EconomicCalendar.Country_str c = EconomicCalendar.Country_str d → c = d.
Proof. intros Heq. apply Country_code_inj. unfold Country_code. by rewrite Heq. Qed.

Lemma JArr_Country_inj (l k : list EconomicCalendar.Country) :
  JArr (map (λ country, JStr (EconomicCalendar.Country_str country)) l)
  = JArr (map (λ country, JStr (EconomicCalendar.Country_str country)) k) →
  l = k.
Proof.
  intros [= Heq]. revert Heq. apply list_fmap_eq_inj. intros c d Heq.
  by apply Country_str_inj, JStr_inj.
Qed.

Lemma read_inv (key : string) (v w : JsVal) (l k : list (string * JsVal)) :
  (key, v) :: l = (key, w) :: k → v = w ∧ l = k.
Proof. intros [= -> ->]. done. Qed.

Ltac read_equalities H :=
  repeat (let Hv := fresh "Hread" in
          apply read_inv in H as [Hv H];
          first [ apply Size_js_inj in Hv
                | apply of_option_JStr_inj in Hv
                | apply JArr_JStr_inj in Hv
                | apply JArr_Country_inj in Hv
                | injection Hv as Hv; try apply TopStoriesFeedMode_str_inj in Hv
                | idtac ]).

Ltac by_reads :=
  repeat match goal with
         | Hread : _ = _ |- _ => rewrite Hread; clear Hread
         end;
  reflexivity.

Lemma MiniChart_determined : determined_by_reads MiniChart.widget.
Proof.
  intros [] [] Hreads; cbn in Hreads. unfold MiniChart.reads in Hreads; cbn in Hreads.
  apply read_inv in Hreads as [[= <-] Hreads].
  unfold widget_styles, widget_config, MiniChart.widget, MiniChart.styles, MiniChart.widgetConfig, MiniChart.fullWidth, MiniChart.fullHeight.
  destruct autosize; cbn in Hreads |- *; read_equalities Hreads; subst; split; by_reads.
Qed.

Lemma FundamentalData_determined : determined_by_reads FundamentalData.widget.
Proof.
  intros [] [] Hreads; cbn in Hreads. unfold FundamentalData.reads in Hreads; cbn in Hreads.
  apply read_inv in Hreads as [[= <-] Hreads].
  unfold widget_styles, widget_config, FundamentalData.widget, FundamentalData.styles,
    FundamentalData.widgetConfig, FundamentalData.fullWidth, FundamentalData.fullHeight.
  destruct autosize; cbn in Hreads |- *; read_equalities Hreads; subst; split; by_reads.
Qed.

Lemma Screener_determined : determined_by_reads Screener.widget.
Proof.
  intros [] [] Hreads; cbn in Hreads. unfold Screener.reads in Hreads; cbn in Hreads.
  apply read_inv in Hreads as [[= <-] Hreads].
  unfold widget_styles, widget_config, Screener.widget, Screener.styles,
    Screener.widgetConfig, Screener.fullWidth, Screener.fullHeight.
  destruct autosize; cbn in Hreads |- *; read_equalities Hreads; subst; split; by_reads.
Qed.

Lemma SymbolOverview_determined : determined_by_reads SymbolOverview.widget.
Proof.
  intros [] [] Hreads; cbn in Hreads. unfold SymbolOverview.reads in Hreads; cbn in Hreads.
  apply read_inv in Hreads as [[= <-] Hreads].
  unfold widget_styles, widget_config, SymbolOverview.widget, SymbolOverview.styles,
    SymbolOverview.widgetConfig, SymbolOverview.fullWidth, SymbolOverview.fullHeight.
  destruct autosize; cbn in Hreads |- *; read_equalities Hreads; subst; split; by_reads.
Qed.


Lemma TopStories_determined : determined_by_reads TopStories.widget.
Proof.
  intros [] [] Hreads; cbn in Hreads. unfold TopStories.reads in Hreads; cbn in Hreads.
  apply read_inv in Hreads as [[= <-] Hreads].
  unfold widget_styles, widget_config, TopStories.widget, TopStories.styles,
    TopStories.widgetConfig, TopStories.fullWidth, TopStories.fullHeight.
  destruct autosize; cbn in Hreads |- *; read_equalities Hreads;
    subst;
    destruct feedMode0; read_equalities Hreads; subst; split; by_reads.
Qed.



Lemma EconomicCalendar_determined : determined_by_reads EconomicCalendar.widget.
Proof.
  intros [] [] Hreads; cbn in Hreads. unfold EconomicCalendar.reads in Hreads; cbn in Hreads.
  apply read_inv in Hreads as [[= <-] Hreads].
  unfold widget_styles, widget_config, EconomicCalendar.widget, EconomicCalendar.styles,
    EconomicCalendar.widgetConfig, EconomicCalendar.fullWidth, EconomicCalendar.fullHeight,
    EconomicCalendar.countryFilter, EconomicCalendar.countries_.
  destruct autosize; cbn in Hreads |- *; read_equalities Hreads;
    subst; split; by_reads.
Qed.

(* ================================================================== *)
(** * The claims                                                        *)
(* ================================================================== *)

(** C1, as the code has it.  For every widget component, whatever its props
    and however the script loads settle in between: after the first run of
    the effect and [N] changes of the configuration, of which [R] make the
    effect run again (those that change or notify a prop that the last run
    has read), the container has exactly one widget root, the one created
    last; [R + 1] roots have been created in all; the root of each
    generation is removed before the root of the next one is created; at no
    point of the history were two roots attached; and when the component is
    disposed of, no root is left.  [R] is at most [N], and [N + 1] roots
    have been created exactly when every change has made the effect run. *)
Theorem one_live_widget_root {Props} (accepts : string → string → bool)
    (W : Widget Props) (p : Props) (actions : list (Lifecycle.Action Props)) :
  let st := Lifecycle.run accepts W p actions in
  let N := Lifecycle.changes actions in
  let R := Lifecycle.reruns W p actions in
  R ≤ N
  ∧ (creates_a_root_per_change accepts W p actions ↔ R = N)
  ∧ Lifecycle.node <$> Lifecycle.container_children st = [R]
  ∧ Lifecycle.attached (Lifecycle.trace st) = [R]
  ∧ Lifecycle.created (Lifecycle.trace st) = seq 0 (S R)
  ∧ Lifecycle.turnover (Lifecycle.trace st) = Lifecycle.generations R
  ∧ (∀ earlier, earlier `prefix_of` (Lifecycle.trace st) →
       length (Lifecycle.attached earlier) ≤ 1)
  ∧ Lifecycle.container_children (Lifecycle.dispose st) = [].
Proof.
  intros st N R. subst st N R.
  destruct (run_one_root accepts W p actions)
    as (_ & Hclean & Hchildren & Hattached & Hcreated & Hturn & Hpast).
  split_and!; try done.
  - apply reruns_after_le_changes.
  - unfold creates_a_root_per_change. rewrite Hcreated. split.
    + intros Hsame. apply (f_equal length) in Hsame.
      rewrite !length_seq in Hsame. by injection Hsame.
    + intros Hall. by rewrite Hall.
  - unfold Lifecycle.dispose, Lifecycle.run_cleanups.
    cbn [Lifecycle.container_children]. rewrite Hclean. cbn [foldl].
    by apply remove_only.
Qed.

Lemma one_live_widget_root_witness :
  let actions :=
    mini_chart_resized
    ++ [Lifecycle.Settle 0 Loaded;
        Lifecycle.Reconfigure ["onError"] (MiniChart.mergeProps (mini_chart_800_600 false));
        Lifecycle.Reconfigure ["width"; "autosize"] (MiniChart.mergeProps mini_chart_full)] in
  let st := Lifecycle.run css_length MiniChart.widget
              (MiniChart.mergeProps mini_chart) actions in
  take 5 (Lifecycle.trace st) `prefix_of` (Lifecycle.trace st)
  ∧ length (Lifecycle.attached (take 5 (Lifecycle.trace st))) ≤ 1
  ∧ Lifecycle.created (Lifecycle.trace st) = [0; 1; 2].
Proof.
  intros actions st.
  assert (Hpre : take 5 (Lifecycle.trace st) `prefix_of` (Lifecycle.trace st))
    by apply prefix_take.
  split; [exact Hpre|].
  destruct (one_live_widget_root css_length MiniChart.widget
              (MiniChart.mergeProps mini_chart) actions)
    as (_ & _ & _ & _ & Hcreated & _ & Hpast & _).
  split; [exact (Hpast _ Hpre) | exact Hcreated].
Defined.

(** C1, as the claim states it, fails: [<MiniChart symbol="NASDAQ:AAPL" />]
    is given a width, a height and an [onError] while [autosize] stays true.
    The effect has read none of the three, so it does not run again: after
    this change of the configuration there is the one widget root of the
    first run, not two. *)
Lemma unread_change_creates_no_root :
  ¬ creates_a_root_per_change css_length MiniChart.widget
      (MiniChart.mergeProps mini_chart) mini_chart_unread_change.
Proof. intros Hroots. vm_compute in Hroots. discriminate Hroots. Qed.

(** What the components do not read while the effect runs: [onError] never,
    and the sizes not when [autosize] is true. *)
Lemma unread_props :
  (∀ _props,
     ("onError" ∉ (MiniChart.reads _props).*1)
     ∧ (MiniChart.Merged.autosize _props = true →
        ("width" ∉ (MiniChart.reads _props).*1)
        ∧ ("height" ∉ (MiniChart.reads _props).*1)))
  ∧ (∀ _props,
     ("onError" ∉ (TopStories.reads _props).*1)
     ∧ (TopStories.Merged.autosize _props = true →
        ("width" ∉ (TopStories.reads _props).*1)
        ∧ ("height" ∉ (TopStories.reads _props).*1)))
  ∧ (∀ _props,
     ("onError" ∉ (EconomicCalendar.reads _props).*1)
     ∧ (EconomicCalendar.Merged.autosize _props = true →
        ("width" ∉ (EconomicCalendar.reads _props).*1)
        ∧ ("height" ∉ (EconomicCalendar.reads _props).*1)))
  ∧ (∀ _props,
     ("onError" ∉ (SymbolOverview.reads _props).*1)
     ∧ (SymbolOverview.Merged.autosize _props = true →
        ("width" ∉ (SymbolOverview.reads _props).*1)
        ∧ ("height" ∉ (SymbolOverview.reads _props).*1)))
  ∧ (∀ _props,
     ("onError" ∉ (FundamentalData.reads _props).*1)
     ∧ (FundamentalData.Merged.autosize _props = true →
        ("width" ∉ (FundamentalData.reads _props).*1)
        ∧ ("height" ∉ (FundamentalData.reads _props).*1)))
  ∧ (∀ _props,
     ("onError" ∉ (Screener.reads _props).*1)
     ∧ (Screener.Merged.autosize _props = true →
        ("width" ∉ (Screener.reads _props).*1)
        ∧ ("height" ∉ (Screener.reads _props).*1))).
Proof.
  split_and!; intros _props.
  - unfold MiniChart.reads. destruct (MiniChart.Merged.autosize _props).
    all: split; [|intros ?; split]; try done.
    all: apply (bool_decide_unpack _); vm_compute; exact I.
  - unfold TopStories.reads.
    destruct (TopStories.Merged.autosize _props), (TopStories.Merged.feedMode _props).
    all: split; [|intros ?; split]; try done.
    all: apply (bool_decide_unpack _); vm_compute; exact I.
  - unfold EconomicCalendar.reads. destruct (EconomicCalendar.Merged.autosize _props).
    all: split; [|intros ?; split]; try done.
    all: apply (bool_decide_unpack _); vm_compute; exact I.
  - unfold SymbolOverview.reads. destruct (SymbolOverview.Merged.autosize _props).
    all: split; [|intros ?; split]; try done.
    all: apply (bool_decide_unpack _); vm_compute; exact I.
  - unfold FundamentalData.reads. destruct (FundamentalData.Merged.autosize _props).
    all: split; [|intros ?; split]; try done.
    all: apply (bool_decide_unpack _); vm_compute; exact I.
  - unfold Screener.reads. destruct (Screener.Merged.autosize _props).
    all: split; [|intros ?; split]; try done.
    all: apply (bool_decide_unpack _); vm_compute; exact I.
Qed.

(** C2, as the code has it.  The configuration object of SymbolOverview
    passes every colour prop that belongs to one chart type on as it is: the
    serialised payload has the field exactly when the prop is supplied, with
    the value supplied, whatever [chartType] is. *)
Theorem SymbolOverview_colors_pass_through (props : SymbolOverview.Props) :
  let payload := SymbolOverview.payload props in
  payload !! "color" = JStr <$> SymbolOverview.color props
  ∧ payload !! "lineColor" = JStr <$> SymbolOverview.lineColor props
  ∧ payload !! "topColor" = JStr <$> SymbolOverview.topColor props
  ∧ payload !! "bottomColor" = JStr <$> SymbolOverview.bottomColor props
  ∧ payload !! "upColor" = JStr <$> SymbolOverview.upColor props
  ∧ payload !! "downColor" = JStr <$> SymbolOverview.downColor props
  ∧ payload !! "borderUpColor" = JStr <$> SymbolOverview.borderUpColor props
  ∧ payload !! "borderDownColor" = JStr <$> SymbolOverview.borderDownColor props
  ∧ payload !! "wickUpColor" = JStr <$> SymbolOverview.wickUpColor props
  ∧ payload !! "wickDownColor" = JStr <$> SymbolOverview.wickDownColor props.
Proof.
  unfold SymbolOverview.payload, SymbolOverview.widgetConfig. cbv zeta.
  property_of_literal. unfold SymbolOverview.mergeProps. cbn.
  split_and!;
    match goal with |- _ = JStr <$> ?color => by destruct color end.
Qed.

(** C2, as the claim states it, fails: a line chart that is given [upColor]
    has [upColor] in its payload. *)
Lemma line_chart_keeps_candle_colors :
  ¬ (SymbolOverview.Merged.chartType (SymbolOverview.mergeProps line_with_candle_colors)
       = SymbolOverview.line →
     omits_candlestick_fields (SymbolOverview.payload line_with_candle_colors)).
Proof.
  intros Homits.
  assert (Hfield : "upColor" ∈ candlestick_fields) by left.
  specialize (Homits eq_refl "upColor" Hfield).
  vm_compute in Homits. discriminate Homits.
Qed.

(** C3.  In MiniChart, EconomicCalendar, TopStories and SymbolOverview, when
    [autosize] is true the width and the height both resolve to ["100%"], in
    the styles of the container and of the widget root and in the payload,
    whatever the sizes are: any two configurations with [autosize] resolve to
    the same dimensions. *)
Theorem autosize_takes_precedence :
  (∀ _props, MiniChart.Merged.autosize _props = true →
     fills (MiniChart.styles _props) (JSON_stringify (MiniChart.widgetConfig _props)))
  ∧ (∀ _props, EconomicCalendar.Merged.autosize _props = true →
     fills (EconomicCalendar.styles _props)
       (JSON_stringify (EconomicCalendar.widgetConfig _props)))
  ∧ (∀ _props, TopStories.Merged.autosize _props = true →
     fills (TopStories.styles _props) (JSON_stringify (TopStories.widgetConfig _props)))
  ∧ (∀ _props, SymbolOverview.Merged.autosize _props = true →
     fills (SymbolOverview.styles _props)
       (JSON_stringify (SymbolOverview.widgetConfig _props))).
Proof.
  split_and!; intros _props Hauto; unfold fills.
  - unfold MiniChart.styles, MiniChart.widgetConfig,
      MiniChart.fullWidth, MiniChart.fullHeight.
    rewrite Hauto. style_of_literal. by property_of_literal.
  - unfold EconomicCalendar.styles, EconomicCalendar.widgetConfig,
      EconomicCalendar.fullWidth, EconomicCalendar.fullHeight.
    rewrite Hauto. style_of_literal. by property_of_literal.
  - unfold TopStories.styles, TopStories.widgetConfig,
      TopStories.fullWidth, TopStories.fullHeight.
    rewrite Hauto. style_of_literal.
    destruct (TopStories.Merged.feedMode _props);
      rewrite ?lookup_JSON_stringify, ?lookup_insert_ne by done;
      by property_of_literal.
  - unfold SymbolOverview.styles, SymbolOverview.widgetConfig,
      SymbolOverview.fullWidth, SymbolOverview.fullHeight.
    rewrite Hauto. style_of_literal. by property_of_literal.
Qed.

Lemma autosize_takes_precedence_witness :
  MiniChart.Merged.autosize (MiniChart.mergeProps (mini_chart_800_600 true)) = true
  ∧ fills (MiniChart.styles (MiniChart.mergeProps (mini_chart_800_600 true)))
      (JSON_stringify (MiniChart.widgetConfig (MiniChart.mergeProps (mini_chart_800_600 true)))).
Proof.
  split; [reflexivity|].
  apply (proj1 autosize_takes_precedence). reflexivity.
Defined.

(** C4.  For every widget component and every state it can reach: when the
    script load of the widget root [n] is pending and fails with [e], the
    [onError] prop, if there is one, is called with [e], and nothing else
    happens: no root is created or removed, no script is requested.  Whatever
    happens afterwards, that call stays the only one for this load; without
    an [onError] prop there is none. *)
Theorem script_failure_is_reported_once {Props} (accepts : string → string → bool)
    (W : Widget Props) (p : Props)
    (actions : list (Lifecycle.Action Props)) (n : nat) (e : Error) :
  let st := Lifecycle.run accepts W p actions in
  let st' := Lifecycle.settle W n (Failed e) st in
  let calls := match widget_onError W (Lifecycle.props st) with
               | Some cb => [(cb, e)]
               | None => []
               end in
  n ∈ Lifecycle.pending st →
  Lifecycle.trace st'
  = Lifecycle.trace st ++ ((λ call, Lifecycle.ErrorReported n call.1 call.2) <$> calls)
  ∧ Lifecycle.container_children st' = Lifecycle.container_children st
  ∧ Lifecycle.next_node st' = Lifecycle.next_node st
  ∧ Lifecycle.cleanups st' = Lifecycle.cleanups st
  ∧ (∀ more,
       Lifecycle.reports n (Lifecycle.trace (foldl (Lifecycle.step accepts W) st' more)) = calls).
Proof.
  intros st st' calls Hn.
  destruct (run_reports_once accepts W p actions) as (Hpending & _ & _).
  pose proof (pending_old accepts W p actions n Hn) as Hold.
  assert (Lifecycle.trace st'
          = Lifecycle.trace st
              ++ ((λ call, Lifecycle.ErrorReported n call.1 call.2) <$> calls)) as Htrace.
  { unfold st', Lifecycle.settle. rewrite decide_True by done.
    cbn [Lifecycle.trace tryCatch Lifecycle.report].
    unfold calls. by destruct (widget_onError W (Lifecycle.props st)). }
  destruct (settle_dom W n (Failed e) st) as (Hnext & Hclean & Hchildren & _ & _).
  split_and!; try done.
  intros more. rewrite steps_settled.
  - rewrite Htrace, reports_app.
    rewrite (Hpending n Hn : Lifecycle.reports n (Lifecycle.trace st) = []).
    unfold calls. destruct (widget_onError W (Lifecycle.props st)); [|done].
    cbn. by rewrite decide_True.
  - unfold st', Lifecycle.settle. rewrite decide_True by done. cbn [Lifecycle.pending].
    by intros [? _]%list_elem_of_filter.
  - unfold st'. by rewrite Hnext.
Qed.

Lemma script_failure_is_reported_once_witness :
  let _props := MiniChart.mergeProps (mini_chart_800_600 false) in
  let st := Lifecycle.run css_length MiniChart.widget _props [] in
  let blocked := {| message := "blocked" |} in
  0 ∈ Lifecycle.pending st
  ∧ Lifecycle.reports 0
      (Lifecycle.trace (Lifecycle.settle MiniChart.widget 0 (Failed blocked) st))
    = [(Cb 0, blocked)].
Proof.
  intros _props st blocked.
  assert (Hpending : 0 ∈ Lifecycle.pending st) by left.
  split; [exact Hpending|].
  destruct (script_failure_is_reported_once css_length MiniChart.widget _props [] 0 blocked Hpending)
    as (_ & _ & _ & _ & Hcalls).
  exact (Hcalls []).
Defined.





(** C7.  In TopStories, when the caller's feed mode is not ["symbol"]
    (["all_symbols"], ["market"] or none, which is merged to
    ["all_symbols"]) the payload has no [symbol], also when a symbol is
    supplied; when it is ["symbol"] the payload has the caller's symbol, and
    none when the caller gave none.  The configuration object has the
    property [symbol] exactly when the caller's feed mode is ["symbol"]; so
    has the payload, for a caller that supplies the symbol the type
    [SymbolModeProps] requires.  The payload's [feedMode] is the caller's,
    ["all_symbols"] when there is none. *)
Theorem TopStories_symbol_key (props : TopStories.Props) :
  let _props := TopStories.mergeProps props in
  TopStories.Merged.feedMode _props
  = default TopStories.all_symbols (TopStories.feedMode props)
  ∧ TopStories.payload props !! "feedMode"
    = Some (JStr (TopStories.TopStoriesFeedMode_str
                    (default TopStories.all_symbols (TopStories.feedMode props))))
  ∧ (TopStories.feedMode props ≠ Some TopStories.symbol_mode →
       TopStories.payload props !! "symbol" = None)
  ∧ (TopStories.feedMode props = Some TopStories.symbol_mode →
       TopStories.payload props !! "symbol" = JStr <$> TopStories.symbol props)
  ∧ (is_Some (TopStories.widgetConfig _props !! "symbol") ↔
       TopStories.feedMode props = Some TopStories.symbol_mode)
  ∧ (TopStories.symbol_required props →
       (is_Some (TopStories.payload props !! "symbol") ↔
          TopStories.feedMode props = Some TopStories.symbol_mode)).
Proof.
  intros _props. unfold TopStories.payload, TopStories.symbol_required. fold _props.
  rewrite !lookup_JSON_stringify, TopStories_symbol_property.
  assert (Hmode : TopStories.widgetConfig _props !! "feedMode"
                  = Some (JStr (TopStories.TopStoriesFeedMode_str
                                  (TopStories.Merged.feedMode _props)))).
  { unfold TopStories.widgetConfig.
    destruct (TopStories.Merged.feedMode _props); by property_of_literal. }
  rewrite Hmode. clear Hmode.
  change (TopStories.Merged.symbol _props) with (TopStories.symbol props).
  change (TopStories.Merged.feedMode _props)
    with (default TopStories.all_symbols (TopStories.feedMode props)).
  destruct (TopStories.feedMode props) as [[| |]|]; cbn [default from_option id].
  1, 2, 4: split_and!;
    [done | done | done | done | by split; [intros [? ?] | ] | by split; [intros [? ?] | ]].
  split_and!; [done | done | done | | by split; [ | intros _; eexists] |].
  - intros _. by destruct (TopStories.symbol props).
  - intros [symbol ->]; [done|]. by split; [ | intros _; eexists].
Qed.

Lemma TopStories_symbol_key_witness :
  let supplied := top_stories (Some TopStories.all_symbols) (Some "NASDAQ:AAPL") in
  let required := top_stories (Some TopStories.symbol_mode) (Some "NASDAQ:AAPL") in
  TopStories.payload supplied !! "symbol" = None
  ∧ TopStories.payload required !! "symbol" = Some (JStr "NASDAQ:AAPL")
  ∧ is_Some (TopStories.payload required !! "symbol").
Proof.
  intros supplied required.
  destruct (TopStories_symbol_key supplied) as (_ & _ & Hother & _).
  destruct (TopStories_symbol_key required) as (_ & _ & _ & Hsymbol & _ & Hrequired).
  split_and!.
  - apply Hother. discriminate.
  - apply Hsymbol. reflexivity.
  - apply Hrequired; [intros _; by eexists | reflexivity].
Defined.

(** C8.  Each mapping table has an entry, which is not [undefined], for
    every value of the type it is indexed by: [ScaleModeMap],
    [ChartTypeMap], [ValueTrackingModeMap], [LineTypeMap], [TimeFormatMap],
    [CountryMap] and [IndicatorMap]. *)
Theorem mapping_tables_are_total :
  (∀ m, defined_in SymbolOverview.ScaleModeMap (SymbolOverview.ScaleMode_str m))
  ∧ (∀ t, defined_in SymbolOverview.ChartTypeMap (SymbolOverview.ChartType_str t))
  ∧ (∀ m, defined_in SymbolOverview.ValueTrackingModeMap
            (SymbolOverview.ValueTrackingMode_str m))
  ∧ (∀ t, defined_in SymbolOverview.LineTypeMap (SymbolOverview.LineType_str t))
  ∧ (∀ f, defined_in SymbolOverview.TimeFormatMap (SymbolOverview.TimeFormat_str f))
  ∧ (∀ c, defined_in EconomicCalendar.CountryMap (EconomicCalendar.Country_str c))
  ∧ (∀ i, defined_in AdvancedChart.IndicatorMap
            (AdvancedChart.AdvancedChartIndicator_str i)).
Proof.
  unfold defined_in.
  split_and!; intros x.
  all: destruct x; vm_compute; (split; [eexists; reflexivity | discriminate]).
Qed.

(** The part of C9 that holds: setting props that a configuration leaves out
    to the defaults of the table given to [mergeProps] does not change the
    merged configuration, in MiniChart, TopStories, EconomicCalendar and
    SymbolOverview. *)
Lemma mergeProps_table_defaults :
  (∀ p q, MiniChart_explicit_defaults p q →
     MiniChart.mergeProps q = MiniChart.mergeProps p)
  ∧ (∀ p q, TopStories_explicit_defaults p q →
     TopStories.mergeProps q = TopStories.mergeProps p)
  ∧ (∀ p q, EconomicCalendar_explicit_defaults p q →
     EconomicCalendar.mergeProps q = EconomicCalendar.mergeProps p)
  ∧ (∀ p q, SymbolOverview_explicit_defaults p q →
     SymbolOverview.mergeProps q = SymbolOverview.mergeProps p).
Proof.
  split_and!; intros p q H.
  - unfold MiniChart_explicit_defaults in H. unfold MiniChart.mergeProps.
    rewrite_defaults H. reflexivity.
  - unfold TopStories_explicit_defaults in H. unfold TopStories.mergeProps.
    rewrite_defaults H. reflexivity.
  - unfold EconomicCalendar_explicit_defaults in H. unfold EconomicCalendar.mergeProps.
    rewrite_defaults H. reflexivity.
  - unfold SymbolOverview_explicit_defaults in H. unfold SymbolOverview.mergeProps.
    rewrite_defaults H. reflexivity.
Qed.

(** [headerFontSize] of SymbolOverview is another prop of this kind: the
    type [HeaderFontSize] documents [medium] as the default, and the table
    given to [mergeProps] has ["small"]. *)
Example headerFontSize_default :
  SymbolOverview.payload (symbol_overview ["NASDAQ:AAPL"] None None None None)
  !! "headerFontSize" = Some (JStr "small").
Proof.
  unfold SymbolOverview.payload, SymbolOverview.widgetConfig.
  by property_of_literal.
Qed.

(** C9, on the code.  [<FundamentalData symbol="NASDAQ:AAPL" />] leaves
    [displayMode] out; setting it to the default its documentation gives,
    ["adaptive"], changes the merged configuration, because the table given
    to [mergeProps] has ["regular"].  Likewise [lineWidth] of SymbolOverview:
    the documentation gives 1, the table has 2. *)
Theorem documented_default_changes_merge :
  FundamentalData_documented_defaults
    (fundamental_data None)
    (fundamental_data (Some FundamentalData.documented_displayMode))
  ∧ FundamentalData.Merged.displayMode
      (FundamentalData.mergeProps (fundamental_data None))
    = FundamentalData.regular
  ∧ FundamentalData.Merged.displayMode
      (FundamentalData.mergeProps
         (fundamental_data (Some FundamentalData.documented_displayMode)))
    = FundamentalData.adaptive
  ∧ FundamentalData.mergeProps
      (fundamental_data (Some FundamentalData.documented_displayMode))
    ≠ FundamentalData.mergeProps (fundamental_data None)
  ∧ SymbolOverview.payload
      (symbol_overview ["NASDAQ:AAPL"] None None None None) !! "lineWidth"
    = Some (JNum 2)
  ∧ SymbolOverview.payload
      (symbol_overview ["NASDAQ:AAPL"] None
         (Some SymbolOverview.documented_lineWidth) None None) !! "lineWidth"
    = Some (JNum 1).
Proof.
  split_and!.
  - unfold FundamentalData_documented_defaults, defaulted.
    split_and!; try reflexivity; try (by left). by right.
  - reflexivity.
  - reflexivity.
  - intros Hmerged.
    apply (f_equal FundamentalData.Merged.displayMode) in Hmerged.
    discriminate Hmerged.
  - unfold SymbolOverview.payload, SymbolOverview.widgetConfig.
    by property_of_literal.
  - unfold SymbolOverview.payload, SymbolOverview.widgetConfig.
    by property_of_literal.
Qed.

(** C10.  In the payload of SymbolOverview, [symbols] is an array with one
    entry for each symbol of the prop, in the same order.  The entry of a
    symbol [S] is the pair of a display name and [S] followed by ["|1D"];
    the display name is the second of the parts of [S] that the colons
    separate when [S] has a colon, and [S] itself when it has none. *)
Theorem SymbolOverview_symbols (props : SymbolOverview.Props) :
  ∃ entries,
    SymbolOverview.payload props !! "symbols" = Some (JArr entries)
    ∧ length entries = length (SymbolOverview.symbols props)
    ∧ ∀ i symbol, SymbolOverview.symbols props !! i = Some symbol →
        ∃ name,
          entries !! i = Some (JArr [JStr name; JStr (symbol +:+ "|1D")])
          ∧ if has_char ":" symbol then second_part symbol name else name = symbol.
Proof.
  exists (json_value <$> (SymbolOverview.symbol_entry <$> SymbolOverview.symbols props)).
  split_and!.
  - unfold SymbolOverview.payload, SymbolOverview.widgetConfig. property_of_literal.
    reflexivity.
  - by rewrite !length_fmap.
  - intros i symbol Hi. rewrite !list_lookup_fmap, Hi.
    change (json_value <$> (SymbolOverview.symbol_entry <$> Some symbol))
      with (Some (JArr [json_value (SymbolOverview.displayName symbol);
                        JStr (symbol +:+ "|1D")])).
    pose proof (displayName_spec symbol) as Hname.
    destruct (has_char ":" symbol).
    + destruct Hname as (name & -> & Hpart). by exists name.
    + rewrite Hname. by exists symbol.
Qed.

Lemma SymbolOverview_symbols_witness :
  let props := symbol_overview ["NASDAQ:AAPL"; "AAPL"] None None None None in
  SymbolOverview.symbols props !! 0 = Some "NASDAQ:AAPL"
  ∧ ∃ entries name,
      SymbolOverview.payload props !! "symbols" = Some (JArr entries)
      ∧ entries !! 0 = Some (JArr [JStr name; JStr "NASDAQ:AAPL|1D"])
      ∧ second_part "NASDAQ:AAPL" name.
Proof.
  intros props.
  assert (Hfirst : SymbolOverview.symbols props !! 0 = Some "NASDAQ:AAPL") by reflexivity.
  split; [exact Hfirst|].
  destruct (SymbolOverview_symbols props) as (entries & Hpayload & _ & Hentries).
  destruct (Hentries 0 "NASDAQ:AAPL" Hfirst) as (name & Hentry & Hname).
  exists entries, name. split_and!; [exact Hpayload | exact Hentry | exact Hname].
Defined.

(* ================================================================== *)
(** * Further properties of the code                                    *)
(* ================================================================== *)

(** ** The controller *)

(** X1.  For a component whose styles and payload are determined by the
    props its effect reads (the six components are, see
    [MiniChart_determined] and the lemmas after it), and every history of
    configuration changes and settled loads: the props the component holds
    are those of the last change (the initial ones when there was none), and
    the one widget root in the container is the root of the last run of the
    effect, with the class, the styles that the element took and the script
    that the effect derives from the current props, also when the last
    changes did not run the effect again: nothing of an earlier
    configuration is left in the root. *)
Theorem widget_root_shows_current_props {Props} (accepts : string → string → bool)
    (W : Widget Props) (p : Props)
    (actions : list (Lifecycle.Action Props)) :
  determined_by_reads W →
  let st := Lifecycle.run accepts W p actions in
  Lifecycle.props st = current_props p actions
  ∧ Lifecycle.container_children st
    = [widget_root accepts W (Lifecycle.reruns W p actions) (current_props p actions)].
Proof. intros Hreads. split; [apply run_props | by apply run_root]. Qed.

Lemma widget_root_shows_current_props_witness :
  Lifecycle.container_children
    (Lifecycle.run css_length MiniChart.widget (MiniChart.mergeProps mini_chart)
       (mini_chart_unread_change ++ mini_chart_resized))
  = [widget_root css_length MiniChart.widget 1
       (MiniChart.mergeProps (mini_chart_800_600 false))].
Proof.
  exact (proj2 (widget_root_shows_current_props css_length MiniChart.widget
                  (MiniChart.mergeProps mini_chart)
                  (mini_chart_unread_change ++ mini_chart_resized)
                  MiniChart_determined)).
Defined.

(** X2.  For a component whose styles are determined by the props its effect
    reads: every style declaration that the effect derives from the current
    props and that the container takes is on the container, also when the
    last changes did not run the effect again, and the container holds no
    declaration that it has refused.  (A declaration that is refused leaves
    what an earlier run has assigned, see [refused_height].) *)
Theorem container_style_shows_current_props {Props} (accepts : string → string → bool)
    (W : Widget Props)
    (p : Props) (actions : list (Lifecycle.Action Props)) :
  determined_by_reads W →
  let st := Lifecycle.run accepts W p actions in
  (∀ property value,
     widget_styles W (current_props p actions) !! property = Some value →
     accepts property value = true →
     Lifecycle.container_style st !! property = Some value)
  ∧ (∀ property value,
       Lifecycle.container_style st !! property = Some value →
       accepts property value = true).
Proof.
  intros Hreads st. unfold st. clear st.
  induction actions as [|a actions [IHcurrent IHtaken]] using rev_ind.
  - split; intros property value; cbn; rewrite (right_id ∅ (∪));
      unfold Lifecycle.declared; rewrite map_lookup_filter_Some; cbn; tauto.
  - rewrite run_snoc, current_props_snoc.
    destruct a as [notified q | n o].
    + destruct (step_Reconfigure accepts W (Lifecycle.run accepts W p actions) notified q)
        as [[-> _] | [-> Hsame]].
      * unfold Lifecycle.update, Lifecycle.effect. cbn [Lifecycle.container_style].
        split; intros property value.
        -- intros Hvalue Htaken. apply lookup_union_Some_l.
           unfold Lifecycle.declared. by rewrite map_lookup_filter_Some.
        -- intros [Hnew | [_ Hold]]%lookup_union_Some_raw.
           ++ unfold Lifecycle.declared in Hnew.
              by apply map_lookup_filter_Some in Hnew as [_ Htaken].
           ++ by apply (IHtaken property).
      * cbn [Lifecycle.set_props Lifecycle.container_style].
        split; [|exact IHtaken]. intros property value.
        specialize (Hsame _ (run_subscribed accepts W p actions)).
        apply not_stale in Hsame. rewrite run_props in Hsame.
        destruct (Hreads _ _ Hsame) as [<- _]. apply IHcurrent.
    + cbn [Lifecycle.step].
      destruct (settle_dom W n o (Lifecycle.run accepts W p actions))
        as (_ & _ & _ & -> & _).
      by split.
Qed.

Lemma container_style_shows_current_props_witness :
  let st := Lifecycle.run css_length MiniChart.widget
              (MiniChart.mergeProps (mini_chart_800_600 false))
              [Lifecycle.Reconfigure ["height"] (MiniChart.mergeProps mini_chart_800_minus_5)] in
  Lifecycle.container_style st !! "width" = Some "800px"
  ∧ css_length "height" "600px" = true.
Proof.
  intros st.
  destruct (container_style_shows_current_props css_length MiniChart.widget
              (MiniChart.mergeProps (mini_chart_800_600 false))
              [Lifecycle.Reconfigure ["height"] (MiniChart.mergeProps mini_chart_800_minus_5)]
              MiniChart_determined) as [Hcurrent Htaken].
  split.
  - apply Hcurrent; reflexivity.
  - apply Htaken. reflexivity.
Defined.

(** X3.  A script load that fails is reported to the [onError] of the props
    that are current when it fails, not to the one of the props it was
    started with, whether or not the changes since have run the effect
    again; the container is left as it is.  The root of the load is still
    in the container exactly when the effect has not run again since. *)
Theorem load_failure_reaches_current_onError {Props} (accepts : string → string → bool)
    (W : Widget Props) (p : Props)
    (actions : list (Lifecycle.Action Props)) (n : nat) (e : Error) :
  let st := Lifecycle.run accepts W p actions in
  let st' := Lifecycle.settle W n (Failed e) st in
  n ∈ Lifecycle.pending st →
  Lifecycle.trace st'
  = Lifecycle.trace st ++ error_call W (current_props p actions) n e
  ∧ Lifecycle.container_children st' = Lifecycle.container_children st
  ∧ n ≤ Lifecycle.reruns W p actions
  ∧ (n ∈ (Lifecycle.node <$> Lifecycle.container_children st)
     ↔ n = Lifecycle.reruns W p actions).
Proof.
  intros st st' Hn.
  destruct (run_one_root accepts W p actions) as (Hnext & _ & Hchildren & _).
  split_and!.
  - unfold st'. rewrite settle_pending_trace by done.
    unfold st. by rewrite run_props.
  - unfold st'. by destruct (settle_dom W n (Failed e) st) as (_ & _ & -> & _).
  - apply pending_old in Hn. rewrite Hnext in Hn. lia.
  - unfold st. rewrite Hchildren. apply list_elem_of_singleton.
Qed.

Lemma load_failure_reaches_current_onError_witness :
  let blocked := {| message := "blocked" |} in
  let st := Lifecycle.run css_length MiniChart.widget
              (MiniChart.mergeProps mini_chart) mini_chart_unread_change in
  let st' := Lifecycle.run css_length MiniChart.widget
               (MiniChart.mergeProps mini_chart) mini_chart_resized in
  (Lifecycle.trace (Lifecycle.settle MiniChart.widget 0 (Failed blocked) st)
   = Lifecycle.trace st ++ [Lifecycle.ErrorReported 0 (Cb 0) blocked]
   ∧ 0 ∈ (Lifecycle.node <$> Lifecycle.container_children st))
  ∧ (Lifecycle.trace (Lifecycle.settle MiniChart.widget 0 (Failed blocked) st')
     = Lifecycle.trace st' ++ [Lifecycle.ErrorReported 0 (Cb 0) blocked]
     ∧ 0 ∉ (Lifecycle.node <$> Lifecycle.container_children st')).
Proof.
  intros blocked st st'.
  assert (Hn : 0 ∈ Lifecycle.pending st) by (vm_compute; left).
  assert (Hn' : 0 ∈ Lifecycle.pending st') by (vm_compute; left).
  destruct (load_failure_reaches_current_onError css_length MiniChart.widget
              (MiniChart.mergeProps mini_chart) mini_chart_unread_change 0 blocked Hn)
    as (Htrace & _ & _ & Hroot).
  destruct (load_failure_reaches_current_onError css_length MiniChart.widget
              (MiniChart.mergeProps mini_chart) mini_chart_resized 0 blocked Hn')
    as (Htrace' & _ & _ & Hroot').
  split; split.
  - exact Htrace.
  - apply Hroot. reflexivity.
  - exact Htrace'.
  - intros Hin. apply Hroot' in Hin. discriminate Hin.
Defined.

(** X4.  A script load settles once: settling the load of a root a second
    time, with whatever outcome, changes nothing, in every state; and a load
    that succeeds adds no event. *)
Theorem settle_is_idempotent {Props} (W : Widget Props)
    (st : @Lifecycle.State Props) (n : nat) (o o' : Outcome) :
  Lifecycle.settle W n o' (Lifecycle.settle W n o st) = Lifecycle.settle W n o st
  ∧ Lifecycle.trace (Lifecycle.settle W n Loaded st) = Lifecycle.trace st.
Proof.
  split.
  - unfold Lifecycle.settle at 2 3. case_decide as Hn.
    + unfold Lifecycle.settle. rewrite decide_False; [done|].
      cbn [Lifecycle.pending]. by intros [? _]%list_elem_of_filter.
    + unfold Lifecycle.settle. by rewrite decide_False.
  - unfold Lifecycle.settle. case_decide; [|done]. cbn. apply app_nil_r.
Qed.

(** X5.  Nothing cancels a script load: a load that is pending stays pending
    through every change of the configuration, through the settling of the
    other loads and through the disposal of the component, until it settles
    itself. *)
Theorem pending_load_is_not_cancelled {Props} (accepts : string → string → bool)
    (W : Widget Props)
    (st : @Lifecycle.State Props) (more : list (Lifecycle.Action Props))
    (n : nat) :
  n ∈ Lifecycle.pending st →
  forallb (λ a, negb (settles n a)) more = true →
  n ∈ Lifecycle.pending (foldl (Lifecycle.step accepts W) st more)
  ∧ n ∈ Lifecycle.pending (Lifecycle.dispose (foldl (Lifecycle.step accepts W) st more)).
Proof.
  intros Hn Hmore.
  assert (n ∈ Lifecycle.pending (foldl (Lifecycle.step accepts W) st more))
    by by apply steps_keep_pending.
  by split.
Qed.

Lemma pending_load_is_not_cancelled_witness :
  0 ∈ Lifecycle.pending
        (Lifecycle.dispose
           (foldl (Lifecycle.step css_length MiniChart.widget)
              (Lifecycle.mount css_length MiniChart.widget (MiniChart.mergeProps mini_chart))
              (mini_chart_resized ++ [Lifecycle.Settle 1 Loaded]))).
Proof.
  refine (proj2 (pending_load_is_not_cancelled css_length MiniChart.widget
            (Lifecycle.mount css_length MiniChart.widget (MiniChart.mergeProps mini_chart))
            (mini_chart_resized ++ [Lifecycle.Settle 1 Loaded]) 0 _ _)).
  - vm_compute. left.
  - reflexivity.
Defined.

(** X6.  Disposing of a component removes the one widget root that is
    attached, the root of the last run of the effect, and does nothing else;
    disposing of it again changes nothing.  A load that is still pending
    then and fails afterwards is reported to [onError] all the same, and the
    container stays empty. *)
Theorem disposal_removes_the_root_only {Props} (accepts : string → string → bool)
    (W : Widget Props) (p : Props)
    (actions : list (Lifecycle.Action Props)) :
  let st := Lifecycle.run accepts W p actions in
  Lifecycle.trace (Lifecycle.dispose st)
  = Lifecycle.trace st ++ [Lifecycle.Removed (Lifecycle.reruns W p actions)]
  ∧ Lifecycle.dispose (Lifecycle.dispose st) = Lifecycle.dispose st
  ∧ (∀ n e, n ∈ Lifecycle.pending st →
       let st' := Lifecycle.settle W n (Failed e) (Lifecycle.dispose st) in
       Lifecycle.trace st'
       = Lifecycle.trace (Lifecycle.dispose st)
           ++ error_call W (current_props p actions) n e
       ∧ Lifecycle.container_children st' = []).
Proof.
  intros st.
  destruct (run_one_root accepts W p actions) as (_ & Hclean & Hchildren & _).
  fold st in Hclean, Hchildren.
  assert (Hempty : Lifecycle.container_children (Lifecycle.dispose st) = []).
  { unfold Lifecycle.dispose, Lifecycle.run_cleanups.
    cbn [Lifecycle.container_children]. rewrite Hclean. cbn [foldl].
    by apply remove_only. }
  split_and!.
  - unfold Lifecycle.dispose, Lifecycle.run_cleanups. cbn [Lifecycle.trace].
    by rewrite Hclean.
  - unfold Lifecycle.dispose, Lifecycle.run_cleanups. cbn.
    by rewrite app_nil_r.
  - intros n e Hn st'. unfold st'.
    rewrite settle_pending_trace by done.
    destruct (settle_dom W n (Failed e) (Lifecycle.dispose st)) as (_ & _ & -> & _).
    split; [|done].
    change (Lifecycle.props (Lifecycle.dispose st)) with (Lifecycle.props st).
    unfold st. by rewrite run_props.
Qed.

Lemma disposal_removes_the_root_only_witness :
  let blocked := {| message := "blocked" |} in
  let st := Lifecycle.run css_length MiniChart.widget
              (MiniChart.mergeProps mini_chart) mini_chart_unread_change in
  0 ∈ Lifecycle.pending st
  ∧ Lifecycle.trace (Lifecycle.dispose st) = Lifecycle.trace st ++ [Lifecycle.Removed 0]
  ∧ Lifecycle.trace
      (Lifecycle.settle MiniChart.widget 0 (Failed blocked) (Lifecycle.dispose st))
    = Lifecycle.trace (Lifecycle.dispose st)
        ++ [Lifecycle.ErrorReported 0 (Cb 0) blocked].
Proof.
  intros blocked st.
  assert (Hn : 0 ∈ Lifecycle.pending st) by (vm_compute; left).
  destruct (disposal_removes_the_root_only css_length MiniChart.widget
              (MiniChart.mergeProps mini_chart) mini_chart_unread_change)
    as (Hremoved & _ & Hfailed).
  split_and!; [exact Hn | exact Hremoved | exact (proj1 (Hfailed 0 blocked Hn))].
Defined.

(** X7.  The vendor script is asked for once for each widget root, when the
    root is created, and never again: there has been one request for the
    first run of the effect and one for each time it has run again, for the
    roots in the order of their creation, whatever the loads did.  A change
    of props that the last run has not read asks for none, and neither does
    disposing of the component. *)
Theorem one_script_request_per_root {Props} (accepts : string → string → bool)
    (W : Widget Props) (p : Props)
    (actions : list (Lifecycle.Action Props)) :
  let st := Lifecycle.run accepts W p actions in
  requested (Lifecycle.trace st) = seq 0 (S (Lifecycle.reruns W p actions))
  ∧ requested (Lifecycle.trace st) = Lifecycle.created (Lifecycle.trace st)
  ∧ (∀ notified q,
       Lifecycle.stale (widget_reads W (current_props p actions)) notified
         (widget_reads W q) = false →
       requested (Lifecycle.trace (Lifecycle.step accepts W st
                                     (Lifecycle.Reconfigure notified q)))
       = requested (Lifecycle.trace st))
  ∧ requested (Lifecycle.trace (Lifecycle.dispose st))
    = requested (Lifecycle.trace st).
Proof.
  intros st.
  destruct (run_one_root accepts W p actions) as (Hnext & _ & _ & _ & Hcreated & _).
  fold st in Hnext, Hcreated.
  assert (Hrequested : requested (Lifecycle.trace st)
                       = seq 0 (S (Lifecycle.reruns W p actions))).
  { unfold st in *. by rewrite run_requested, Hnext. }
  split_and!; [done | by rewrite Hcreated | |].
  - intros notified q Hfresh. cbn [Lifecycle.step].
    unfold st. rewrite run_subscribed, run_props, Hfresh. reflexivity.
  - unfold Lifecycle.dispose, Lifecycle.run_cleanups. cbn [Lifecycle.trace].
    unfold requested at 1. rewrite omap_app.
    fold (requested (Lifecycle.trace st)).
    fold (requested (Lifecycle.Removed <$> Lifecycle.cleanups st)).
    by rewrite requested_removed, app_nil_r.
Qed.

Lemma one_script_request_per_root_witness :
  let st := Lifecycle.run css_length MiniChart.widget
              (MiniChart.mergeProps mini_chart) mini_chart_resized in
  requested (Lifecycle.trace st) = [0; 1]
  ∧ requested
      (Lifecycle.trace
         (Lifecycle.step css_length MiniChart.widget st
            (Lifecycle.Reconfigure ["onError"]
               (MiniChart.mergeProps (mini_chart_800_600 false)))))
    = requested (Lifecycle.trace st).
Proof.
  intros st.
  destruct (one_script_request_per_root css_length MiniChart.widget
              (MiniChart.mergeProps mini_chart) mini_chart_resized)
    as (Hrequested & _ & Hunread & _).
  split; [exact Hrequested|].
  apply Hunread. reflexivity.
Defined.

(** ** Sizes *)

(** X8.  In MiniChart, TopStories, EconomicCalendar, SymbolOverview,
    FundamentalData and Screener the styles and the payload are made from
    the same size: both say ["100%"] for a dimension when [autosize] is true
    or the dimension is ["full"]; otherwise the style has the number as
    [Number::toString] prints it, followed by ["px"], and the payload has
    the number itself, or [null] when the number is [NaN] or infinite.  The
    width and the height are resolved independently of each other.  So
    [800.5] gives ["800.5px"] and [800.5], [1e21] gives ["1e+21px"], and
    [NaN] gives ["NaNpx"] and [null]. *)
Theorem sizes_of_styles_and_payload :
  (∀ _props,
     sized (MiniChart.styles _props) (JSON_stringify (MiniChart.widgetConfig _props))
       (resolved_size (MiniChart.Merged.autosize _props) (MiniChart.Merged.width _props))
       (resolved_size (MiniChart.Merged.autosize _props) (MiniChart.Merged.height _props)))
  ∧ (∀ _props,
     sized (TopStories.styles _props) (JSON_stringify (TopStories.widgetConfig _props))
       (resolved_size (TopStories.Merged.autosize _props) (TopStories.Merged.width _props))
       (resolved_size (TopStories.Merged.autosize _props) (TopStories.Merged.height _props)))
  ∧ (∀ _props,
     sized (EconomicCalendar.styles _props)
       (JSON_stringify (EconomicCalendar.widgetConfig _props))
       (resolved_size (EconomicCalendar.Merged.autosize _props)
          (EconomicCalendar.Merged.width _props))
       (resolved_size (EconomicCalendar.Merged.autosize _props)
          (EconomicCalendar.Merged.height _props)))
  ∧ (∀ _props,
     sized (SymbolOverview.styles _props)
       (JSON_stringify (SymbolOverview.widgetConfig _props))
       (resolved_size (SymbolOverview.Merged.autosize _props)
          (SymbolOverview.Merged.width _props))
       (resolved_size (SymbolOverview.Merged.autosize _props)
          (SymbolOverview.Merged.height _props)))
  ∧ (∀ _props,
     sized (FundamentalData.styles _props)
       (JSON_stringify (FundamentalData.widgetConfig _props))
       (resolved_size (FundamentalData.Merged.autosize _props)
          (FundamentalData.Merged.width _props))
       (resolved_size (FundamentalData.Merged.autosize _props)
          (FundamentalData.Merged.height _props)))
  ∧ (∀ _props,
     sized (Screener.styles _props) (JSON_stringify (Screener.widgetConfig _props))
       (resolved_size (Screener.Merged.autosize _props) (Screener.Merged.width _props))
       (resolved_size (Screener.Merged.autosize _props) (Screener.Merged.height _props)))
  ∧ (css_size (resolved_size false (Pixels (Fraction 1601 1))) = "800.5px"
     ∧ wire_size (resolved_size false (Pixels (Fraction 1601 1)))
       = JNumber (Fraction 1601 1))
  ∧ css_size (resolved_size false (Px (10 ^ 21))) = "1e+21px"
  ∧ (css_size (resolved_size false (Pixels NaN)) = "NaNpx"
     ∧ wire_size (resolved_size false (Pixels NaN)) = JNull).
Proof.
  unfold sized. split_and!.
  7-11: by vm_compute.
  all: unfold resolved_size; intros _props.
  - unfold MiniChart.styles, MiniChart.widgetConfig,
      MiniChart.fullWidth, MiniChart.fullHeight.
    style_of_literal. property_of_literal.
    by destruct (MiniChart.Merged.autosize _props),
      (MiniChart.Merged.width _props), (MiniChart.Merged.height _props).
  - unfold TopStories.styles, TopStories.widgetConfig,
      TopStories.fullWidth, TopStories.fullHeight.
    style_of_literal.
    destruct (TopStories.Merged.feedMode _props);
      rewrite ?lookup_JSON_stringify, ?lookup_insert_ne by done;
      property_of_literal;
      by destruct (TopStories.Merged.autosize _props),
        (TopStories.Merged.width _props), (TopStories.Merged.height _props).
  - unfold EconomicCalendar.styles, EconomicCalendar.widgetConfig,
      EconomicCalendar.fullWidth, EconomicCalendar.fullHeight.
    style_of_literal. property_of_literal.
    by destruct (EconomicCalendar.Merged.autosize _props),
      (EconomicCalendar.Merged.width _props), (EconomicCalendar.Merged.height _props).
  - unfold SymbolOverview.styles, SymbolOverview.widgetConfig,
      SymbolOverview.fullWidth, SymbolOverview.fullHeight.
    style_of_literal. property_of_literal.
    by destruct (SymbolOverview.Merged.autosize _props),
      (SymbolOverview.Merged.width _props), (SymbolOverview.Merged.height _props).
  - unfold FundamentalData.styles, FundamentalData.widgetConfig,
      FundamentalData.fullWidth, FundamentalData.fullHeight.
    style_of_literal. property_of_literal.
    by destruct (FundamentalData.Merged.autosize _props),
      (FundamentalData.Merged.width _props), (FundamentalData.Merged.height _props).
  - unfold Screener.styles, Screener.widgetConfig,
      Screener.fullWidth, Screener.fullHeight.
    style_of_literal. property_of_literal.
    by destruct (Screener.Merged.autosize _props),
      (Screener.Merged.width _props), (Screener.Merged.height _props).
Qed.

(** ** The payloads *)

(** X9.  The payload of MiniChart has the ten properties [symbol],
    [autosize], [width], [height], [locale], [colorTheme], [dateRange],
    [isTransparent], [chartOnly] and [noTimeScale] for every configuration;
    it has each of the three colours exactly when the prop is given; and it
    has no other property: [onError] does not reach the vendor script. *)
Theorem MiniChart_payload_shape (props : MiniChart.Props) :
  payload_shape (MiniChart.payload props) MiniChart_fixed_keys
    (MiniChart_optional props).
Proof.
  unfold payload_shape, MiniChart.payload, MiniChart.widgetConfig. split_and!.
  - unfold MiniChart_fixed_keys. repeat apply Forall_cons_2; [..|apply Forall_nil_2].
    all: defined_property.
  - unfold MiniChart_optional. repeat apply Forall_cons_2; [..|apply Forall_nil_2].
    all: optional_property.
  - keys_of_literal.
Qed.

Lemma MiniChart_payload_shape_witness :
  MiniChart.payload (mini_chart_800_600 false) !! "onError" = None.
Proof.
  destruct (MiniChart.payload (mini_chart_800_600 false) !! "onError")
    as [v|] eqn:Hv; [|reflexivity].
  exfalso.
  pose proof (proj2 (proj2 (MiniChart_payload_shape (mini_chart_800_600 false)))
                "onError" (mk_is_Some _ _ Hv)) as Hkey.
  revert Hkey. apply (bool_decide_unpack _). vm_compute. exact I.
Defined.

(** X10.  The payload of SymbolOverview has twenty-eight properties for
    every configuration, among them the four that are read from the mapping
    tables; it has each of the nineteen colours exactly when the prop is
    given; and it has no other property: [compareSymbol] and [onError] are
    never part of it. *)
Theorem SymbolOverview_payload_shape (props : SymbolOverview.Props) :
  payload_shape (SymbolOverview.payload props) SymbolOverview_fixed_keys
    (SymbolOverview_optional props).
Proof.
  unfold payload_shape, SymbolOverview.payload, SymbolOverview.widgetConfig.
  split_and!.
  - unfold SymbolOverview_fixed_keys.
    repeat apply Forall_cons_2; [..|apply Forall_nil_2].
    all: defined_property.
  - unfold SymbolOverview_optional.
    repeat apply Forall_cons_2; [..|apply Forall_nil_2].
    all: optional_property.
  - keys_of_literal.
Qed.

Lemma SymbolOverview_payload_shape_witness :
  SymbolOverview.payload line_with_candle_colors !! "compareSymbol" = None.
Proof.
  destruct (SymbolOverview.payload line_with_candle_colors !! "compareSymbol")
    as [v|] eqn:Hv; [|reflexivity].
  exfalso.
  pose proof (proj2 (proj2 (SymbolOverview_payload_shape line_with_candle_colors))
                "compareSymbol" (mk_is_Some _ _ Hv)) as Hkey.
  revert Hkey. apply (bool_decide_unpack _). vm_compute. exact I.
Defined.

(** ** The mapping tables, the countries and the indicators *)

(** X11.  No mapping table sends two values of its type to the same entry:
    from what the payload has, the prop can be told.  This holds for
    [ScaleModeMap], [ChartTypeMap], [ValueTrackingModeMap], [LineTypeMap],
    [TimeFormatMap], [CountryMap] and [IndicatorMap]. *)
Theorem mapping_tables_are_injective :
  Inj (=) (=) (λ m, get SymbolOverview.ScaleModeMap (SymbolOverview.ScaleMode_str m))
  ∧ Inj (=) (=) (λ t, get SymbolOverview.ChartTypeMap (SymbolOverview.ChartType_str t))
  ∧ Inj (=) (=) (λ m, get SymbolOverview.ValueTrackingModeMap
                        (SymbolOverview.ValueTrackingMode_str m))
  ∧ Inj (=) (=) (λ t, get SymbolOverview.LineTypeMap (SymbolOverview.LineType_str t))
  ∧ Inj (=) (=) (λ f, get SymbolOverview.TimeFormatMap (SymbolOverview.TimeFormat_str f))
  ∧ Inj (=) (=) (λ c, get EconomicCalendar.CountryMap (EconomicCalendar.Country_str c))
  ∧ Inj (=) (=) (λ i, get AdvancedChart.IndicatorMap
                        (AdvancedChart.AdvancedChartIndicator_str i)).
Proof.
  split_and!.
  1-5: intros a b; destruct a, b; vm_compute; congruence.
  - intros c d. rewrite !Country_code_entry. intros Hcode%JStr_inj.
    by apply Country_code_inj.
  - intros i j. rewrite !Indicator_id_entry. intros Hid%JStr_inj.
    by apply Indicator_id_inj.
Qed.

Lemma mapping_tables_are_injective_witness :
  get SymbolOverview.ChartTypeMap "bar" ≠ get SymbolOverview.ChartTypeMap "candlestick"
  ∧ get SymbolOverview.LineTypeMap "curved" ≠ get SymbolOverview.LineTypeMap "stepLine".
Proof.
  destruct mapping_tables_are_injective as (_ & Hchart & _ & Hline & _).
  split; intros Hsame.
  - by apply (Hchart SymbolOverview.bar SymbolOverview.candlestick) in Hsame.
  - by apply (Hline SymbolOverview.curved SymbolOverview.stepLine) in Hsame.
Defined.

(** X12.  The [countryFilter] that EconomicCalendar writes determines the
    countries: two configurations have the same filter exactly when their
    countries, without the repeats, are the same in the same order; and the
    filter is the empty string, which asks for all countries, exactly when
    the configuration has no country. *)
Theorem countryFilter_determines_countries (p q : EconomicCalendar.Merged.t) :
  (EconomicCalendar.countryFilter p = EconomicCalendar.countryFilter q
   ↔ first_occurrences (EconomicCalendar.Merged.countries p)
     = first_occurrences (EconomicCalendar.Merged.countries q))
  ∧ (EconomicCalendar.countryFilter p = ""
     ↔ EconomicCalendar.Merged.countries p = []).
Proof.
  rewrite !countryFilter_codes. split; split.
  - apply codes_inj.
  - by intros ->.
  - intros Hempty. apply first_occurrences_nil.
    by apply (codes_inj _ []).
  - by intros ->.
Qed.

Lemma countryFilter_determines_countries_witness :
  EconomicCalendar.countryFilter
    (EconomicCalendar.mergeProps
       (economic_calendar
          [EconomicCalendar.Germany; EconomicCalendar.Japan; EconomicCalendar.Germany]))
  = EconomicCalendar.countryFilter
      (EconomicCalendar.mergeProps
         (economic_calendar [EconomicCalendar.Germany; EconomicCalendar.Japan])).
Proof.
  apply (proj1 (countryFilter_determines_countries _ _)). reflexivity.
Defined.

(** X13.  The [studies] that AdvancedChart writes are the identifiers of
    the indicators, one string for each indicator in the order given:
    no entry is [undefined], so [JSON.stringify] writes no [null]; and
    indicators that differ have identifiers that differ. *)
Theorem studies_are_identifiers
    (indicators : list AdvancedChart.AdvancedChartIndicator) :
  let ids := Indicator_id <$> indicators in
  AdvancedChart.studies indicators = JArr (JStr <$> ids)
  ∧ json_value (AdvancedChart.studies indicators) = AdvancedChart.studies indicators
  ∧ length ids = length indicators
  ∧ Forall (λ id, id ≠ "") ids
  ∧ (NoDup indicators → NoDup ids).
Proof.
  intros ids.
  assert (Hstudies : AdvancedChart.studies indicators = JArr (JStr <$> ids)).
  { unfold AdvancedChart.studies, ids. f_equal.
    rewrite <- list_fmap_compose. apply list_fmap_ext.
    intros ? i _. apply Indicator_id_entry. }
  split_and!.
  - exact Hstudies.
  - rewrite Hstudies. cbn [json_value]. f_equal.
    rewrite <- list_fmap_compose. by apply list_fmap_ext.
  - apply length_fmap.
  - apply Forall_fmap, Forall_forall. intros i _.
    destruct i; vm_compute; discriminate.
  - apply (@NoDup_fmap_2 _ _ Indicator_id Indicator_id_inj).
Qed.

Lemma studies_are_identifiers_witness :
  NoDup [AdvancedChart.volume; AdvancedChart.bollingerBands]
  ∧ NoDup (Indicator_id <$> [AdvancedChart.volume; AdvancedChart.bollingerBands]).
Proof.
  assert (Hdistinct : NoDup [AdvancedChart.volume; AdvancedChart.bollingerBands]).
  { apply NoDup_cons. split; [|apply NoDup_singleton].
    by intros ?%list_elem_of_singleton. }
  split; [exact Hdistinct|].
  exact (proj2 (proj2 (proj2 (proj2
    (studies_are_identifiers [AdvancedChart.volume; AdvancedChart.bollingerBands]))))
    Hdistinct).
Defined.

(** ** Screener and the playground pages *)

(** X14.  For every exchange, both tables of Screener have an entry.  When
    the caller leaves the views out, the payload asks for the column view
    ["overview"], which every exchange has, and for the screen view
    ["most_capitalized"], which the exchange has exactly when it is neither
    ["forex"] nor ["crypto"]. *)
Theorem Screener_default_views (props : Screener.Props) :
  let e := default Screener.america (Screener.exchange props) in
  ∃ columns screens,
    Screener.ScreenerColumnViews !! Screener.ScreenerExchange_str e = Some columns
    ∧ Screener.ScreenerScreenViews !! Screener.ScreenerExchange_str e = Some screens
    ∧ Screener.payload props !! "market" = Some (JStr (Screener.ScreenerExchange_str e))
    ∧ (Screener.defaultColumnView props = None →
         Screener.payload props !! "defaultColumn" = Some (JStr "overview")
         ∧ "overview" ∈ columns)
    ∧ (Screener.defaultScreenView props = None →
         Screener.payload props !! "defaultScreen" = Some (JStr "most_capitalized")
         ∧ ("most_capitalized" ∈ screens ↔ e ≠ Screener.forex ∧ e ≠ Screener.crypto)).
Proof.
  intros e. eexists _, _.
  split; [apply ScreenerColumnViews_entry|].
  split; [apply ScreenerScreenViews_entry|].
  unfold Screener.payload, Screener.widgetConfig. property_of_literal.
  split_and!.
  - reflexivity.
  - intros Hcolumn. cbn. rewrite Hcolumn. split; [done|].
    apply overview_is_a_column.
  - intros Hscreen. cbn. rewrite Hscreen. split; [done|].
    destruct e; split; try (by intros _; split).
    1-39: intros _; apply list_elem_of_here.
    all: first [ by intros [? ?]
               | intros Hin; exfalso; revert Hin;
                 apply (bool_decide_unpack _); vm_compute; exact I ].
Qed.

Lemma Screener_default_views_witness :
  Screener.payload (screener Screener.forex) !! "defaultScreen"
  = Some (JStr "most_capitalized")
  ∧ "most_capitalized" ∉ Screener.SUB_SCREENS.
Proof.
  destruct (Screener_default_views (screener Screener.forex))
    as (columns & screens & _ & Hscreens & _ & _ & Hdefault).
  destruct (Hdefault eq_refl) as [Hpayload Hlisted].
  split; [exact Hpayload|].
  vm_compute in Hscreens. injection Hscreens as <-.
  intros Hin. apply Hlisted in Hin as [Hforex _]. by apply Hforex.
Defined.

(** X15.  In the playground of Screener, a change of the exchange never
    throws, sets the exchange and leaves the other controls as they are, and
    always leaves views that the new exchange has: the column view
    ["overview"] (the fallback to the first column is never taken) and the
    screen view ["general"] for ["forex"] and ["crypto"],
    ["most_capitalized"] for the others, which is the first screen view of
    the exchange; these are the views that the preview sends to the vendor
    script. *)
Theorem handleExchangeChange_keeps_views_valid
    (s : Playground.ScreenerTest.Signals) (e : Screener.ScreenerExchange) :
  ∃ s' columns screens,
    Playground.ScreenerTest.handleExchangeChange e s = Some s'
    ∧ Playground.ScreenerTest.exchange s' = e
    ∧ Playground.ScreenerTest.availableColumns s' = Some columns
    ∧ Playground.ScreenerTest.availableScreens s' = Some screens
    ∧ Playground.ScreenerTest.defaultColumnView s' = Some "overview"
    ∧ "overview" ∈ columns
    ∧ Playground.ScreenerTest.defaultScreenView s' ∈ screens
    ∧ Screener.payload (Playground.ScreenerTest.preview s') !! "market"
      = Some (JStr (Screener.ScreenerExchange_str e))
    ∧ Screener.payload (Playground.ScreenerTest.preview s') !! "defaultColumn"
      = Some (JStr "overview")
    ∧ Screener.payload (Playground.ScreenerTest.preview s') !! "defaultScreen"
      = Some (JStr (Playground.ScreenerTest.defaultScreenView s'))
    ∧ (e = Screener.forex ∨ e = Screener.crypto →
         Playground.ScreenerTest.defaultScreenView s' = "general")
    ∧ (e ≠ Screener.forex → e ≠ Screener.crypto →
         Playground.ScreenerTest.defaultScreenView s' = "most_capitalized")
    ∧ screens !! 0%nat = Some (Playground.ScreenerTest.defaultScreenView s')
    ∧ Playground.ScreenerTest.colorTheme s' = Playground.ScreenerTest.colorTheme s
    ∧ Playground.ScreenerTest.width s' = Playground.ScreenerTest.width s
    ∧ Playground.ScreenerTest.height s' = Playground.ScreenerTest.height s
    ∧ Playground.ScreenerTest.autosize s' = Playground.ScreenerTest.autosize s
    ∧ Playground.ScreenerTest.isTransparent s' = Playground.ScreenerTest.isTransparent s
    ∧ Playground.ScreenerTest.showTopToolbar s' = Playground.ScreenerTest.showTopToolbar s.
Proof.
  unfold Playground.ScreenerTest.handleExchangeChange,
    Playground.ScreenerTest.availableColumns,
    Playground.ScreenerTest.availableScreens.
  rewrite ScreenerColumnViews_entry. cbn [mbind option_bind].
  rewrite decide_True by apply overview_is_a_column.
  eexists _, _, _. split; [reflexivity|].
  cbn [Playground.ScreenerTest.exchange Playground.ScreenerTest.defaultColumnView
       Playground.ScreenerTest.defaultScreenView Playground.ScreenerTest.colorTheme
       Playground.ScreenerTest.width Playground.ScreenerTest.height
       Playground.ScreenerTest.autosize Playground.ScreenerTest.isTransparent
       Playground.ScreenerTest.showTopToolbar].
  split; [reflexivity|].
  split; [apply ScreenerColumnViews_entry|].
  split; [apply ScreenerScreenViews_entry|].
  split; [reflexivity|].
  split; [apply overview_is_a_column|].
  split; [destruct e; apply list_elem_of_here|].
  split.
  { unfold Screener.payload, Screener.widgetConfig. by property_of_literal. }
  split.
  { unfold Screener.payload, Screener.widgetConfig. by property_of_literal. }
  split.
  { unfold Screener.payload, Screener.widgetConfig. by property_of_literal. }
  split; [by intros [-> | ->]|].
  split; [by destruct e|].
  split; [by destruct e|].
  by split_and!.
Qed.

Lemma handleExchangeChange_keeps_views_valid_witness :
  ∃ s',
    Playground.ScreenerTest.handleExchangeChange Screener.forex
      Playground.ScreenerTest.initial = Some s'
    ∧ Playground.ScreenerTest.defaultScreenView s' = "general"
    ∧ Playground.ScreenerTest.defaultColumnView s' = Some "overview".
Proof.
  destruct (handleExchangeChange_keeps_views_valid
              Playground.ScreenerTest.initial Screener.forex)
    as (s' & columns & screens & Hchange & _ & _ & _ & Hcolumn & _ & _ & _ & _ & _
        & Hgeneral & _).
  exists s'. split_and!; [exact Hchange | | exact Hcolumn].
  apply Hgeneral. by left.
Defined.

(** X16.  In the playground of EconomicCalendar, whatever the visitor
    clicks on (countries are toggled, a group is chosen, the selection is
    cleared), no country is selected twice; so the set that the component
    builds removes nothing, and the [countryFilter] of the preview is the
    codes of the selection as the page shows it, in the same order. *)
Theorem playground_selection_has_no_repeats
    (clicks : list Playground.EconomicCalendarTest.Click) :
  Forall Playground.EconomicCalendarTest.rendered_button clicks →
  let s := foldl Playground.EconomicCalendarTest.click
             Playground.EconomicCalendarTest.initial clicks in
  let selection := Playground.EconomicCalendarTest.selectedCountries s in
  NoDup selection
  ∧ EconomicCalendar.countries_
      (EconomicCalendar.mergeProps (Playground.EconomicCalendarTest.preview s))
    = selection
  ∧ EconomicCalendar.payload (Playground.EconomicCalendarTest.preview s)
      !! "countryFilter"
    = Some (JStr (String.concat "," (Country_code <$> selection))).
Proof.
  intros Hclicks s selection.
  assert (Hselection : NoDup selection).
  { apply clicks_NoDup; [done | constructor]. }
  split_and!.
  - exact Hselection.
  - unfold EconomicCalendar.countries_, Array_of_Set.
    rewrite Set_new_first_occurrences. by apply first_occurrences_NoDup_id.
  - unfold EconomicCalendar.payload, EconomicCalendar.widgetConfig.
    property_of_literal. rewrite countryFilter_codes.
    cbn [mbind option_bind json_property json_value]. do 4 f_equal.
    by apply first_occurrences_NoDup_id.
Qed.

Lemma playground_selection_has_no_repeats_witness :
  EconomicCalendar.payload
    (Playground.EconomicCalendarTest.preview
       (foldl Playground.EconomicCalendarTest.click
          Playground.EconomicCalendarTest.initial calendar_clicks))
    !! "countryFilter"
  = Some (JStr "us,de,gb,fr,it,ca,es").
Proof.
  refine (eq_trans
    (proj2 (proj2 (playground_selection_has_no_repeats calendar_clicks _))) _).
  - repeat constructor.
  - vm_compute. reflexivity.
Defined.

(** X17.  In the playground of SymbolOverview, toggling a symbol that is
    not selected puts it at the end of the selection, after the symbols that
    were selected; toggling one that is selected removes every occurrence of
    it.  The other symbols stay as they are, in their order; a selection
    without repeats stays without repeats; and toggling a symbol that was
    not selected twice gives the selection back. *)
Theorem handleSymbolToggle_toggles (symbol : string) (prev : list string) :
  let next := Playground.SymbolOverviewTest.handleSymbolToggle symbol prev in
  (symbol ∈ next ↔ symbol ∉ prev)
  ∧ filter (λ s, s ≠ symbol) next = filter (λ s, s ≠ symbol) prev
  ∧ (NoDup prev → NoDup next)
  ∧ (symbol ∉ prev →
       Playground.SymbolOverviewTest.handleSymbolToggle symbol next = prev)
  ∧ (symbol ∉ prev → next = prev ++ [symbol])
  ∧ (symbol ∈ prev → next = filter (λ s, s ≠ symbol) prev ∧ (symbol ∉ next)).
Proof.
  intros next. unfold next, Playground.SymbolOverviewTest.handleSymbolToggle.
  split_and!.
  - case_decide as Hin.
    + rewrite list_elem_of_filter. tauto.
    + rewrite elem_of_app, list_elem_of_singleton. tauto.
  - case_decide as Hin.
    + rewrite list_filter_filter. apply list_filter_iff. tauto.
    + rewrite filter_app, filter_cons_False by (by intros ?).
      apply app_nil_r.
  - apply toggle_NoDup.
  - intros Hout. rewrite (decide_False (P := symbol ∈ prev)) by done.
    rewrite decide_True by (apply elem_of_app; right; left).
    rewrite filter_app, filter_cons_False by (by intros ?).
    rewrite app_nil_r. apply filter_all. by intros s Hs ->.
  - intros Hout. by rewrite decide_False.
  - intros Hin. rewrite decide_True by done. split; [done|].
    rewrite list_elem_of_filter. tauto.
Qed.

Lemma handleSymbolToggle_toggles_witness :
  Playground.SymbolOverviewTest.handleSymbolToggle "NASDAQ:MSFT"
    ["NASDAQ:AAPL"; "NASDAQ:GOOGL"]
  = ["NASDAQ:AAPL"; "NASDAQ:GOOGL"; "NASDAQ:MSFT"]
  ∧ Playground.SymbolOverviewTest.handleSymbolToggle "NASDAQ:AAPL"
      ["NASDAQ:AAPL"; "NASDAQ:GOOGL"; "NASDAQ:MSFT"]
    = ["NASDAQ:GOOGL"; "NASDAQ:MSFT"].
Proof.
  split.
  - apply (proj1 (proj2 (proj2 (proj2 (proj2
             (handleSymbolToggle_toggles "NASDAQ:MSFT"
                ["NASDAQ:AAPL"; "NASDAQ:GOOGL"])))))).
    apply (bool_decide_unpack _). vm_compute. exact I.
  - apply (proj2 (proj2 (proj2 (proj2 (proj2
             (handleSymbolToggle_toggles "NASDAQ:AAPL"
                ["NASDAQ:AAPL"; "NASDAQ:GOOGL"; "NASDAQ:MSFT"])))))).
    apply (bool_decide_unpack _). vm_compute. exact I.
Defined.

(** X18.  The preview of the playground of SymbolOverview sends, of the
    colours that belong to a chart type, exactly those of the chart type
    selected: [color] for a line chart, [lineColor], [topColor] and
    [bottomColor] for an area chart, [upColor] and [downColor] for a bar or
    candlestick chart, never a border or wick colour.  The page does not
    pass [autosize], so the payload has [autosize] true and the width and
    the height ["100%"] whatever sizes are chosen on the page. *)
Theorem playground_sends_colors_of_chart_type
    (s : Playground.SymbolOverviewTest.Signals) :
  let payload := SymbolOverview.payload (Playground.SymbolOverviewTest.preview s) in
  let type := Playground.SymbolOverviewTest.chartType s in
  let only (types : list SymbolOverview.ChartType) (color : string) :=
    if bool_decide (SymbolOverview.ChartType_str type
                      ∈ SymbolOverview.ChartType_str <$> types)
    then Some (JStr color) else None in
  payload !! "color"
    = only [SymbolOverview.line] (Playground.SymbolOverviewTest.lineColor s)
  ∧ payload !! "lineColor"
    = only [SymbolOverview.area] (Playground.SymbolOverviewTest.lineColor s)
  ∧ payload !! "topColor"
    = only [SymbolOverview.area] (Playground.SymbolOverviewTest.topColor s)
  ∧ payload !! "bottomColor"
    = only [SymbolOverview.area] (Playground.SymbolOverviewTest.bottomColor s)
  ∧ payload !! "upColor"
    = only [SymbolOverview.bar; SymbolOverview.candlestick]
        (Playground.SymbolOverviewTest.upColor s)
  ∧ payload !! "downColor"
    = only [SymbolOverview.bar; SymbolOverview.candlestick]
        (Playground.SymbolOverviewTest.downColor s)
  ∧ payload !! "borderUpColor" = None
  ∧ payload !! "borderDownColor" = None
  ∧ payload !! "wickUpColor" = None
  ∧ payload !! "wickDownColor" = None
  ∧ payload !! "autosize" = Some (JBool true)
  ∧ payload !! "width" = Some (JStr "100%")
  ∧ payload !! "height" = Some (JStr "100%").
Proof.
  intros payload type only. unfold payload, only, type.
  unfold SymbolOverview.payload, SymbolOverview.widgetConfig.
  property_of_literal.
  destruct (Playground.SymbolOverviewTest.chartType s) eqn:Htype;
    cbn; rewrite Htype; by vm_compute.
Qed.
